(** * The order backend of flaskstarter/model.py

    A shallow embedding of the peewee models, of the order workflow
    ([add_order], [get_order], [put_order_shipping_information],
    [put_order_credit_card]) and of the catalogue ([serialize_product],
    [get_products], [add_product], [drop_products]), together with the
    properties proved about them.

    Conventions of the embedding:
    - a table is a finite map from primary key to row ([gmap]); a foreign
      key is the key of the row it points to, a nullable one an [option];
    - a [Decimal] is an exact rational ([Qc]), and the product of a
      [Decimal] by an [int] is exact; a [float] is a binary64 number
      ([spec_float] with 53 bits of precision), and [float(...)], [*] and
      [+] on floats round to nearest, ties to even, as Python's do;
    - an exception is a [Raise] result; the database and the list of calls
      received by the payment gateway are threaded through explicitly;
    - of the storage constraints, the [Check] constraints of the models
      and the uniqueness of a primary key make a write fail; the column
      widths ([max_length], [max_digits]) are not enforced;
    - the database is the one connection of the process: its tables, and
      whether a SQL transaction is open on it. [db.begin()] opens one and
      is refused while one is open; [db.commit()] closes it. A write that
      is refused inside a [with db.manual_commit()] block leaves the block
      by its exception, before [db.commit()]: nothing rolls back, and the
      transaction stays open. The statements outside such a block run
      whether or not a transaction is open, and the connection reads its
      own writes. *)

From stdpp Require Import gmap strings list fin_maps pretty numbers.
From Stdlib Require Import QArith Qcanon SpecFloat.

Open Scope Z_scope.

(** ** Python's floats

    [float] is IEEE 754 binary64. [py_float d] is [float(d)] for a
    [Decimal] [d]: the float nearest to the quotient of its numerator by
    its denominator. *)
Definition float : Type := spec_float.

Definition float_mul (a b : float) : float := SFmul 53 1024 a b.
Definition float_add (a b : float) : float := SFadd 53 1024 a b.

Definition py_float (d : Qc) : float :=
  match Qnum d with
  | Z0 => S754_zero false
  | Zpos n =>
      SFdiv 53 1024 (S754_finite false n 0) (S754_finite false (Qden d) 0)
  | Zneg n =>
      SFdiv 53 1024 (S754_finite true n 0) (S754_finite false (Qden d) 0)
  end.

(** The number that a float stands for, when it is finite. *)
Definition float_value (x : float) : Qc :=
  match x with
  | S754_finite s m e =>
      let n := if s then Zneg m else Zpos m in
      match e with
      | Zneg p => Q2Qc (n # Pos.pow 2 p)
      | _ => Qc_of_Z (n * 2 ^ e)
      end
  | _ => 0%Qc
  end.

(** ** Rows of the six models *)

Module Product.
Record t := mk {
  name : string;
  in_stock : bool;
  description : option string;
  price : Qc;
  weight : option Z;
  image : string
}.
End Product.

Module ShippingInformation.
Record t := mk {
  country : string;
  address : string;
  postal_code : string;
  city : string;
  province : string
}.
End ShippingInformation.

Module ProductOrderQuantity.
Record t := mk {
  pid : Z;
  quantity : Z
}.
End ProductOrderQuantity.

Module CreditCardDetails.
Record t := mk {
  name : string;
  number : Z;
  expiration_year : Z;
  cvv : Z;
  expiration_month : Z
}.
End CreditCardDetails.

(** The primary key of a Transaction is the identifier issued by the
    gateway; it is the key of the table, the row holds the other columns. *)
Module Transaction.
Record t := mk {
  success : bool;
  amount_charged : Qc
}.
End Transaction.

Module Order.
Record t := mk {
  product : Z;
  email : option string;
  credit_card : option Z;
  shipping_information : option Z;
  transaction : option string;
  paid : bool
}.

Definition set_email (e : string) (o : t) : t :=
  mk (product o) (Some e) (credit_card o) (shipping_information o)
     (transaction o) (paid o).
Definition set_credit_card (c : Z) (o : t) : t :=
  mk (product o) (email o) (Some c) (shipping_information o)
     (transaction o) (paid o).
Definition set_shipping_information (s : Z) (o : t) : t :=
  mk (product o) (email o) (credit_card o) (Some s)
     (transaction o) (paid o).
Definition set_transaction (x : string) (o : t) : t :=
  mk (product o) (email o) (credit_card o) (shipping_information o)
     (Some x) (paid o).
End Order.

(** ** The database

    The six tables as the connection sees them, and [in_transaction]:
    whether a transaction opened by [db.begin()] is still open on it. *)

Record Store := mkStore {
  tbl_product : gmap Z Product.t;
  tbl_shipping_information : gmap Z ShippingInformation.t;
  tbl_product_order_quantity : gmap Z ProductOrderQuantity.t;
  tbl_credit_card_details : gmap Z CreditCardDetails.t;
  tbl_transaction : gmap string Transaction.t;
  tbl_order : gmap Z Order.t;
  in_transaction : bool
}.

Definition with_shipping_information (f : gmap Z ShippingInformation.t → gmap Z ShippingInformation.t) (s : Store) : Store :=
  mkStore (tbl_product s) (f (tbl_shipping_information s))
          (tbl_product_order_quantity s) (tbl_credit_card_details s)
          (tbl_transaction s) (tbl_order s) (in_transaction s).
Definition with_product_order_quantity (f : gmap Z ProductOrderQuantity.t → gmap Z ProductOrderQuantity.t) (s : Store) : Store :=
  mkStore (tbl_product s) (tbl_shipping_information s)
          (f (tbl_product_order_quantity s)) (tbl_credit_card_details s)
          (tbl_transaction s) (tbl_order s) (in_transaction s).
Definition with_credit_card_details (f : gmap Z CreditCardDetails.t → gmap Z CreditCardDetails.t) (s : Store) : Store :=
  mkStore (tbl_product s) (tbl_shipping_information s)
          (tbl_product_order_quantity s) (f (tbl_credit_card_details s))
          (tbl_transaction s) (tbl_order s) (in_transaction s).
Definition with_transaction (f : gmap string Transaction.t → gmap string Transaction.t) (s : Store) : Store :=
  mkStore (tbl_product s) (tbl_shipping_information s)
          (tbl_product_order_quantity s) (tbl_credit_card_details s)
          (f (tbl_transaction s)) (tbl_order s) (in_transaction s).
Definition with_order (f : gmap Z Order.t → gmap Z Order.t) (s : Store) : Store :=
  mkStore (tbl_product s) (tbl_shipping_information s)
          (tbl_product_order_quantity s) (tbl_credit_card_details s)
          (tbl_transaction s) (f (tbl_order s)) (in_transaction s).

Definition set_in_transaction (b : bool) (s : Store) : Store :=
  mkStore (tbl_product s) (tbl_shipping_information s)
          (tbl_product_order_quantity s) (tbl_credit_card_details s)
          (tbl_transaction s) (tbl_order s) b.

(** The key given to a row inserted without one: one more than the largest
    key in use, 1 in an empty table. *)
Definition max_id {A} (t : gmap Z A) : option Z :=
  foldr (λ k acc, Some (from_option (Z.max k) k acc)) None (map_to_list t).*1.

Definition next_id {A} (t : gmap Z A) : Z :=
  from_option Z.succ 1 (max_id t).

(** ** Exceptions and the state of the world *)

Inductive exn :=
  | OrderNotFound
  | DoesNotExist
  | IntegrityError
  | OperationalError
  | TypeError
  | PricingError (reason : string)
  | GatewayError (reason : string).

Inductive result (A : Type) :=
  | Ok (a : A)
  | Raise (e : exn).
Arguments Ok {A} a.
Arguments Raise {A} e.

(** What the gateway receives in one call of [charge]; the dictionary with
    the keys ["id"], ["success"] and ["amount_charged"], which is both the
    ["transaction"] entry of the gateway's answer and the ["transaction"]
    entry of an order view. *)
Module ChargeRequest.
Record t := mk {
  name : string;
  number : Z;
  expiration_year : Z;
  cvv : Z;
  expiration_month : Z;
  amount : float
}.
End ChargeRequest.

Module TransactionDict.
Record t := mk {
  id : string;
  success : bool;
  amount_charged : Qc
}.
End TransactionDict.

Record World := mkWorld {
  db : Store;
  charged : list ChargeRequest.t
}.

(** Computations that read and write the world and may raise. *)
Definition M (A : Type) : Type := World → result A * World.

Definition ret {A} (a : A) : M A := λ w, (Ok a, w).
Definition lift {A} (r : result A) : M A := λ w, (r, w).
Definition bind {A B} (m : M A) (k : A → M B) : M B :=
  λ w, match m w with
       | (Ok a, w') => k a w'
       | (Raise e, w') => (Raise e, w')
       end.
Definition query {A} (f : Store → result A) : M A := λ w, (f (db w), w).
Definition write (f : Store → Store) : M unit :=
  λ w, (Ok tt, mkWorld (f (db w)) (charged w)).

Declare Scope py_scope.
Delimit Scope py_scope with py.
Notation "'do' x <- m ; k" := (bind m (λ x, k))
  (at level 10, x name, m at level 100, k at level 200) : py_scope.
Notation "'run' m ; k" := (bind m (λ _, k))
  (at level 10, m at level 100, k at level 200) : py_scope.

(** [db.begin()] and [db.commit()]. [db] is the connection made in
    [extensions], which is not part of this module: as an SQLite
    connection does, it refuses to open a transaction inside an open
    one. *)
Definition begin : M unit :=
  λ w, if in_transaction (db w)
       then (Raise OperationalError, w)
       else write (set_in_transaction true) w.

Definition commit : M unit := write (set_in_transaction false).

(** The same sequencing for code that only reads. *)
Definition rbind {A B} (r : result A) (k : A → result B) : result B :=
  match r with
  | Ok a => k a
  | Raise e => Raise e
  end.
Notation "'let?' x := r 'in' k" := (rbind r (λ x, k))
  (at level 10, x name, r at level 100, k at level 200).

(** ** peewee and Python primitives *)

(** Reading a foreign key: the row pointed to, [DoesNotExist] when there is
    none. *)
Definition fk `{Countable K} {A} (t : gmap K A) (k : K) : result A :=
  match t !! k with
  | Some a => Ok a
  | None => Raise DoesNotExist
  end.

(** Reading a nullable foreign key: the key with its row, [None] for NULL. *)
Definition fk_null `{Countable K} {A} (t : gmap K A) (k : option K)
  : result (option (K * A)) :=
  match k with
  | None => Ok None
  | Some k => let? a := fk t k in Ok (Some (k, a))
  end.

(** [weight * quantity] where the weight may be [None]. *)
Definition py_mul (weight : option Z) (quantity : Z) : result Z :=
  match weight with
  | Some w => Ok (w * quantity)
  | None => Raise TypeError
  end.

(** [total_price_tax + shipping_price] where the first may be [None]. *)
Definition py_add (a : option float) (b : float) : result float :=
  match a with
  | Some a => Ok (float_add a b)
  | None => Raise TypeError
  end.

(** [str(n)] of an integral decimal, [s[:4]] and [s[-4:]]. *)
Definition py_str (n : Z) : string := pretty n.
Definition first4 (s : string) : string := String.substring 0 4 s.
Definition last4 (s : string) : string :=
  String.substring (String.length s - 4) 4 s.

(** The [Check] constraints of the models written by the workflow. *)
Definition check_quantity (quantity : Z) : bool := bool_decide (quantity > 0).
Definition check_expiration_month (m : Z) : bool :=
  bool_decide (m < 13) && bool_decide (m > 0).

(** The request that [put_order_credit_card] sends for an amount. *)
Definition charge_request (fields : CreditCardDetails.t) (amount : float)
  : ChargeRequest.t :=
  ChargeRequest.mk (CreditCardDetails.name fields)
                   (CreditCardDetails.number fields)
                   (CreditCardDetails.expiration_year fields)
                   (CreditCardDetails.cvv fields)
                   (CreditCardDetails.expiration_month fields)
                   amount.

(** ** The dictionary returned by [get_order]

    An absent section ([{}] in the source) is [None]. The shipping section
    has the five columns of the row, so it is the row. *)

Module CardDict.
Record t := mk {
  name : string;
  first_digits : string;
  last_digits : string;
  expiration_year : Z;
  expiration_month : Z
}.
End CardDict.

Module ProductDict.
Record t := mk {
  id : Z;
  quantity : Z
}.
End ProductDict.

Module OrderDict.
Record t := mk {
  id : Z;
  total_price : float;
  total_price_tax : option float;
  email : option string;
  credit_card : option CardDict.t;
  shipping_information : option ShippingInformation.t;
  transaction : option TransactionDict.t;
  paid : bool;
  product : ProductDict.t;
  shipping_price : float
}.
End OrderDict.

(** ** Saving rows *)

(** [Order.get_or_none(order_id)] followed by the [OrderNotFound] test. *)
Definition find_order (order_id : Z) (s : Store) : result Order.t :=
  match tbl_order s !! order_id with
  | Some order => Ok order
  | None => Raise OrderNotFound
  end.

(** [save()] of a row that has no key yet: an INSERT, which returns the
    new key. *)
Definition insert_product_order_quantity (poq : ProductOrderQuantity.t) : M Z :=
  λ w, if check_quantity (ProductOrderQuantity.quantity poq)
       then let k := next_id (tbl_product_order_quantity (db w)) in
            (Ok k, mkWorld (with_product_order_quantity <[k:=poq]> (db w)) (charged w))
       else (Raise IntegrityError, w).

Definition insert_order (order : Order.t) : M Z :=
  λ w, let k := next_id (tbl_order (db w)) in
       (Ok k, mkWorld (with_order <[k:=order]> (db w)) (charged w)).

Definition insert_shipping_information (si : ShippingInformation.t) : M Z :=
  λ w, let k := next_id (tbl_shipping_information (db w)) in
       (Ok k, mkWorld (with_shipping_information <[k:=si]> (db w)) (charged w)).

Definition insert_credit_card_details (cc : CreditCardDetails.t) : M Z :=
  λ w, if check_expiration_month (CreditCardDetails.expiration_month cc)
       then let k := next_id (tbl_credit_card_details (db w)) in
            (Ok k, mkWorld (with_credit_card_details <[k:=cc]> (db w)) (charged w))
       else (Raise IntegrityError, w).

(** [save()] of a row that has its key: an UPDATE of all its columns. *)
Definition update_order (k : Z) (order : Order.t) : M unit :=
  write (with_order <[k:=order]>).

Definition update_shipping_information (k : Z) (si : ShippingInformation.t) : M unit :=
  write (with_shipping_information <[k:=si]>).

Definition update_credit_card_details (k : Z) (cc : CreditCardDetails.t) : M unit :=
  λ w, if check_expiration_month (CreditCardDetails.expiration_month cc)
       then write (with_credit_card_details <[k:=cc]>) w
       else (Raise IntegrityError, w).

(** [save(force_insert=True)] of a Transaction: an INSERT under the key
    issued by the gateway, refused when the key is in use. *)
Definition insert_transaction (d : TransactionDict.t) : M unit :=
  λ w, match tbl_transaction (db w) !! TransactionDict.id d with
       | Some _ => (Raise IntegrityError, w)
       | None =>
           write (with_transaction
                    <[TransactionDict.id d :=
                        Transaction.mk (TransactionDict.success d)
                                       (TransactionDict.amount_charged d)]>) w
       end.

(** ** The catalogue

    [serialize_product] takes the key of the row beside the row, since the
    row does not hold it. [Product.select()] has no ORDER BY: the order of
    the list of [get_products] is the order in which the table is
    enumerated, and nothing below depends on it. *)
Module SerializedProduct.
Record t := mk {
  name : string;
  id : Z;
  in_stock : bool;
  description : option string;
  price : Qc;
  weight : option Z;
  image : string
}.
End SerializedProduct.

Definition serialize_product (k : Z) (product : Product.t) : SerializedProduct.t :=
  {| SerializedProduct.name := Product.name product;
     SerializedProduct.id := k;
     SerializedProduct.in_stock := Product.in_stock product;
     SerializedProduct.description := Product.description product;
     SerializedProduct.price := Product.price product;
     SerializedProduct.weight := Product.weight product;
     SerializedProduct.image := Product.image product |}.

Definition get_products (s : Store) : list SerializedProduct.t :=
  (λ kp, serialize_product kp.1 kp.2) <$> map_to_list (tbl_product s).

Definition with_product (f : gmap Z Product.t → gmap Z Product.t) (s : Store) : Store :=
  mkStore (f (tbl_product s)) (tbl_shipping_information s)
          (tbl_product_order_quantity s) (tbl_credit_card_details s)
          (tbl_transaction s) (tbl_order s) (in_transaction s).

(** The [Check] constraints of Product; a NULL weight passes its check. *)
Definition check_price (price : Qc) : bool := bool_decide (0 < price)%Qc.
Definition check_weight (weight : option Z) : bool :=
  match weight with
  | None => true
  | Some w => bool_decide (w > 0)
  end.

(** [save(force_insert=True)] of a Product: an INSERT under the given key,
    refused when the key is in use, or under a new key when [id] is
    [None]. *)
Definition add_product (name : string) (in_stock : bool)
    (description : option string) (price : Qc) (weight : option Z)
    (image : string) (id : option Z) : M unit :=
  λ w, let row := Product.mk name in_stock description price weight image in
       if check_price price && check_weight weight
       then match id with
            | None =>
                write (with_product <[next_id (tbl_product (db w)) := row]>) w
            | Some k =>
                match tbl_product (db w) !! k with
                | Some _ => (Raise IntegrityError, w)
                | None => write (with_product <[k := row]>) w
                end
            end
       else (Raise IntegrityError, w).

(** Whether a line item points to a product of the catalogue. *)
Definition product_referenced (s : Store) : bool :=
  existsb (λ kq, bool_decide (is_Some (tbl_product s
                                         !! ProductOrderQuantity.pid kq.2)))
          (map_to_list (tbl_product_order_quantity s)).

(** [Product.delete().execute()]. The foreign key of a line item to its
    product has no ON DELETE action: where the database enforces foreign
    keys ([foreign_keys], a setting of the connection in [extensions]), the
    DELETE is refused as a whole when a line item points to a product;
    where it does not, every product is deleted. *)
Definition drop_products (foreign_keys : bool) : M unit :=
  λ w, if foreign_keys && product_referenced (db w)
       then (Raise IntegrityError, w)
       else write (with_product (λ _, ∅)) w.

(** A call of one of the three writing operations. *)
Inductive request :=
  | AddOrder (product_id quantity : Z)
  | PutOrderShippingInformation
      (order_id : Z) (email country address postal_code city province : string)
  | PutOrderCreditCard
      (order_id : Z) (name : string)
      (number expiration_year cvv expiration_month : Z).

(** What a computation returned, if it did. *)
Definition returned {A} (r : result A) : option A :=
  match r with
  | Ok a => Some a
  | Raise _ => None
  end.

(** ** A small shop

    Concrete pricing functions, gateways and databases on which the
    operations are run below. *)
Module Sample.

(** The rates of two provinces; any other code is refused. *)
Definition tax (province : string) : result float :=
  if decide (province = "QC"%string) then Ok (py_float (Q2Qc (15 # 100)))
  else if decide (province = "ON"%string) then Ok (py_float (Q2Qc (13 # 100)))
  else Raise (PricingError province).

Definition shipping (weight : Z) : float :=
  if decide (weight ≤ 500) then py_float (Qc_of_Z 5)
  else py_float (Qc_of_Z 10).

(** A gateway that charges what it is asked. *)
Definition accepts (_ : list ChargeRequest.t) (req : ChargeRequest.t)
  : result TransactionDict.t :=
  Ok (TransactionDict.mk "tx-1" true (float_value (ChargeRequest.amount req))).

(** A gateway that answers, with an unsuccessful transaction. *)
Definition declines (_ : list ChargeRequest.t) (req : ChargeRequest.t)
  : result TransactionDict.t :=
  Ok (TransactionDict.mk "tx-declined" false 0%Qc).

(** A gateway that declines the first call and accepts the next ones. *)
Definition declines_once (calls : list ChargeRequest.t)
    (req : ChargeRequest.t) : result TransactionDict.t :=
  match calls with
  | [] => declines calls req
  | _ => accepts calls req
  end.

(** A gateway that times out on the first call and accepts the next
    ones. *)
Definition down_once (calls : list ChargeRequest.t) (req : ChargeRequest.t)
  : result TransactionDict.t :=
  match calls with
  | [] => Raise (GatewayError "timeout")
  | _ => accepts calls req
  end.

Definition chair : Product.t :=
  Product.mk "chair" true None (Qc_of_Z 10) (Some 400) "chair.png".

(** A product whose weight was never recorded. *)
Definition voucher : Product.t :=
  Product.mk "voucher" true None (Qc_of_Z 25) None "voucher.png".

Definition three_chairs : ProductOrderQuantity.t :=
  ProductOrderQuantity.mk 1 3.

Definition one_voucher : ProductOrderQuantity.t :=
  ProductOrderQuantity.mk 2 1.

Definition home : ShippingInformation.t :=
  ShippingInformation.mk "Canada" "201 rue des rosiers" "G7X 3Y9"
                         "Chicoutimi" "QC".

Definition card : CreditCardDetails.t :=
  CreditCardDetails.mk "John Doe" 4111111111111111 2027 123 9.

(** The catalogue, and no order. *)
Definition catalogue : Store :=
  mkStore {[ 1 := chair; 2 := voucher ]} ∅ ∅ ∅ ∅ ∅ false.

(** Order 1: three chairs, nothing else submitted. *)
Definition new_order : Order.t := Order.mk 1 None None None None false.
Definition ordered : Store :=
  mkStore {[ 1 := chair; 2 := voucher ]} ∅ {[ 1 := three_chairs ]} ∅ ∅
          {[ 1 := new_order ]} false.

(** Order 1 with its shipping information. *)
Definition shipped_order : Order.t :=
  Order.mk 1 (Some "john@example.com"%string) None (Some 1) None false.
Definition shipped : Store :=
  mkStore {[ 1 := chair; 2 := voucher ]} {[ 1 := home ]}
          {[ 1 := three_chairs ]} ∅ ∅ {[ 1 := shipped_order ]} false.

(** Order 1 with its shipping information and a card. *)
Definition carded_order : Order.t :=
  Order.mk 1 (Some "john@example.com"%string) (Some 1) (Some 1) None false.
Definition carded : Store :=
  mkStore {[ 1 := chair; 2 := voucher ]} {[ 1 := home ]}
          {[ 1 := three_chairs ]} {[ 1 := card ]} ∅
          {[ 1 := carded_order ]} false.

(** Order 1 for one voucher. *)
Definition voucher_ordered : Store :=
  mkStore {[ 1 := chair; 2 := voucher ]} ∅ {[ 1 := one_voucher ]} ∅ ∅
          {[ 1 := new_order ]} false.

Definition world (s : Store) : World := mkWorld s [].

(** A whole purchase. *)
Definition purchase : list request :=
  [ AddOrder 1 3;
    PutOrderShippingInformation 1 "john@example.com" "Canada"
      "201 rue des rosiers" "G7X 3Y9" "Chicoutimi" "QC";
    PutOrderCreditCard 1 "John Doe" 4111111111111111 2027 123 9 ].

(** A gateway that numbers its transactions. *)
Definition numbers (calls : list ChargeRequest.t) (req : ChargeRequest.t)
  : result TransactionDict.t :=
  Ok (TransactionDict.mk ("tx-" +:+ pretty (length calls)) true
                         (float_value (ChargeRequest.amount req))).

(** Order 1 with its shipping information, beside an older Transaction
    "tx-1" that no order is linked to. *)
Definition shipped_beside_transaction : Store :=
  mkStore {[ 1 := chair; 2 := voucher ]} {[ 1 := home ]}
          {[ 1 := three_chairs ]} ∅
          {[ "tx-1"%string := Transaction.mk true (Qc_of_Z 5) ]}
          {[ 1 := shipped_order ]} false.

(** Order 1 settled under the Transaction "tx-1". *)
Definition settled_order : Order.t :=
  Order.mk 1 (Some "john@example.com"%string) (Some 1) (Some 1)
           (Some "tx-1"%string) false.
Definition settled : Store :=
  mkStore {[ 1 := chair; 2 := voucher ]} {[ 1 := home ]}
          {[ 1 := three_chairs ]} {[ 1 := card ]}
          {[ "tx-1"%string := Transaction.mk true (Qc_of_Z 40) ]}
          {[ 1 := settled_order ]} false.

(** Order 1: three pens at 1.00 each, with shipping information. *)
Definition pen : Product.t :=
  Product.mk "pen" true None (Qc_of_Z 1) (Some 10) "pen.png".
Definition three_pens : ProductOrderQuantity.t :=
  ProductOrderQuantity.mk 1 3.
Definition pens_shipped : Store :=
  mkStore {[ 1 := pen ]} {[ 1 := home ]} {[ 1 := three_pens ]} ∅ ∅
          {[ 1 := shipped_order ]} false.

(** Shipping information, then a second order. *)
Definition shipping_then_order : list request :=
  [ PutOrderShippingInformation 1 "john@example.com" "Canada"
      "201 rue des rosiers" "G7X 3Y9" "Chicoutimi" "QC";
    AddOrder 2 1 ].

End Sample.

(** ** The workflow

    The pricing functions of [utils.taxes] and the gateway client
    [services.external.chargingapi.charge] are not part of this module:
    they are parameters. The pricing functions are pure.
    [calculate_tax] returns the rate of a province as a float, or raises
    for a province it does not know; [calculate_shipping_price] returns a
    number, taken as the float it is added as. The gateway answers a call,
    given the calls it has received before, either by raising or with the
    ["transaction"] dictionary. *)

Section Workflow.

Variable calculate_tax : string → result float.
Variable calculate_shipping_price : Z → float.
Variable charge : list ChargeRequest.t → ChargeRequest.t → result TransactionDict.t.

Open Scope py_scope.

(** The call of [charge]: the gateway sees the request whether or not it
    answers. *)
Definition call_charge (req : ChargeRequest.t) : M TransactionDict.t :=
  λ w, (charge (charged w) req, mkWorld (db w) (charged w ++ [req])).

Definition add_order (product_id quantity : Z) : M Z :=
  do _product <- query (λ s, fk (tbl_product s) product_id);
  do poq <- insert_product_order_quantity
              (ProductOrderQuantity.mk product_id quantity);
  do order <- insert_order (Order.mk poq None None None None false);
  ret order.

Definition card_dict (cc : CreditCardDetails.t) : CardDict.t :=
  {| CardDict.name := CreditCardDetails.name cc;
     CardDict.first_digits := first4 (py_str (CreditCardDetails.number cc));
     CardDict.last_digits := last4 (py_str (CreditCardDetails.number cc));
     CardDict.expiration_year := CreditCardDetails.expiration_year cc;
     CardDict.expiration_month := CreditCardDetails.expiration_month cc |}.

Definition transaction_dict (k : string) (t : Transaction.t) : TransactionDict.t :=
  {| TransactionDict.id := k;
     TransactionDict.success := Transaction.success t;
     TransactionDict.amount_charged := Transaction.amount_charged t |}.

(** The ["total_price_tax"] entry of the dictionary of [get_order]. *)
Definition with_tax (shipping_information : option ShippingInformation.t)
    (total_price : float) : result (option float) :=
  match shipping_information with
  | None => Ok None
  | Some si =>
      let? tax := calculate_tax (ShippingInformation.province si) in
      Ok (Some (float_add (float_mul tax total_price) total_price))
  end.

(** The entries of the dictionary are evaluated in the order in which
    they are written: the price with tax, which may raise in
    [calculate_tax], comes before the shipping price, which raises for a
    product without a weight. *)
Definition get_order (order_id : Z) (s : Store) : result OrderDict.t :=
  let? order := find_order order_id s in
  let? poq := fk (tbl_product_order_quantity s) (Order.product order) in
  let? pid := fk (tbl_product s) (ProductOrderQuantity.pid poq) in
  let total_price :=
    py_float (Product.price pid
              * Qc_of_Z (ProductOrderQuantity.quantity poq))%Qc in
  let? credit_card :=
    fk_null (tbl_credit_card_details s) (Order.credit_card order) in
  let? shipping_information :=
    fk_null (tbl_shipping_information s) (Order.shipping_information order) in
  let? transaction :=
    fk_null (tbl_transaction s) (Order.transaction order) in
  let? total_price_tax := with_tax (snd <$> shipping_information) total_price in
  let? total_weight :=
    py_mul (Product.weight pid) (ProductOrderQuantity.quantity poq) in
  Ok {| OrderDict.id := order_id;
        OrderDict.total_price := total_price;
        OrderDict.total_price_tax := total_price_tax;
        OrderDict.email := Order.email order;
        OrderDict.credit_card :=
          match credit_card with
          | None => None
          | Some (_, cc) => Some (card_dict cc)
          end;
        OrderDict.shipping_information :=
          match shipping_information with
          | None => None
          | Some (_, si) => Some si
          end;
        OrderDict.transaction :=
          match transaction with
          | None => None
          | Some (k, t) => Some (transaction_dict k t)
          end;
        OrderDict.paid := Order.paid order;
        OrderDict.product :=
          {| ProductDict.id := ProductOrderQuantity.pid poq;
             ProductDict.quantity := ProductOrderQuantity.quantity poq |};
        OrderDict.shipping_price := calculate_shipping_price total_weight |}.

Definition put_order_shipping_information
    (order_id : Z) (email country address postal_code city province : string)
  : M OrderDict.t :=
  do order <- query (find_order order_id);
  do si <- query (λ s, fk_null (tbl_shipping_information s)
                               (Order.shipping_information order));
  let fields :=
    ShippingInformation.mk country address postal_code city province in
  run match si with
      | None =>
          do k <- insert_shipping_information fields;
          update_order order_id
            (Order.set_email email (Order.set_shipping_information k order))
      | Some (k, _) =>
          run update_shipping_information k fields;
          update_order order_id (Order.set_email email order)
      end;
  query (get_order order_id).

(** The first [with db.manual_commit()] block of [put_order_credit_card]:
    between [db.begin()] and [db.commit()] the card is created and linked,
    or updated in place. The result is the [order] object as the rest of
    the function sees it. *)
Definition commit_credit_card
    (order_id : Z) (order : Order.t) (credit_card : option (Z * CreditCardDetails.t))
    (fields : CreditCardDetails.t)
  : M Order.t :=
  run begin;
  do order <- match credit_card with
              | None =>
                  do k <- insert_credit_card_details fields;
                  let order := Order.set_credit_card k order in
                  run update_order order_id order;
                  ret order
              | Some (k, _) =>
                  run update_credit_card_details k fields;
                  ret order
              end;
  run commit;
  ret order.

(** The second block: between [db.begin()] and [db.commit()] the
    Transaction is inserted and linked. *)
Definition commit_transaction
    (order_id : Z) (order : Order.t) (transaction_dict : TransactionDict.t)
  : M unit :=
  run begin;
  run insert_transaction transaction_dict;
  run update_order order_id
        (Order.set_transaction (TransactionDict.id transaction_dict) order);
  commit.

(** What [put_order_credit_card] does once the card is committed. *)
Definition settle
    (order_id : Z) (order : Order.t) (fields : CreditCardDetails.t)
  : M OrderDict.t :=
  do order_dict <- query (get_order order_id);
  do amount <- lift (py_add (OrderDict.total_price_tax order_dict)
                            (OrderDict.shipping_price order_dict));
  do transaction_dict <- call_charge (charge_request fields amount);
  run commit_transaction order_id order transaction_dict;
  query (get_order order_id).

Definition put_order_credit_card
    (order_id : Z) (name : string)
    (number expiration_year cvv expiration_month : Z)
  : M OrderDict.t :=
  do order <- query (find_order order_id);
  do credit_card <- query (λ s, fk_null (tbl_credit_card_details s)
                                        (Order.credit_card order));
  let fields :=
    CreditCardDetails.mk name number expiration_year cvv expiration_month in
  do order <- commit_credit_card order_id order credit_card fields;
  settle order_id order fields.

(** ** Sequences of calls

    A client of the core calls the three writing operations in any order
    and with any arguments; [serve] is the world that a sequence of calls
    leaves, whatever each call returned or raised. *)
Definition handle (r : request) (w : World) : World :=
  match r with
  | AddOrder product_id quantity => (add_order product_id quantity w).2
  | PutOrderShippingInformation order_id email country address postal_code
      city province =>
      (put_order_shipping_information order_id email country address
         postal_code city province w).2
  | PutOrderCreditCard order_id name number expiration_year cvv
      expiration_month =>
      (put_order_credit_card order_id name number expiration_year cvv
         expiration_month w).2
  end.

Definition serve (rs : list request) (w : World) : World :=
  foldl (λ w r, handle r w) w rs.

(** [paid_kept s s']: every order of [s] is an order of [s'] with the same
    [paid] flag, and the orders of [s'] that are not in [s] are unpaid. *)
Definition paid_kept (s s' : Store) : Prop :=
  (∀ k o, tbl_order s !! k = Some o →
     ∃ o', tbl_order s' !! k = Some o' ∧ Order.paid o' = Order.paid o) ∧
  (∀ k o', tbl_order s' !! k = Some o' → tbl_order s !! k = None →
     Order.paid o' = false).

(** ** Referential integrity of one order

    [linked s order poq product]: the line item of the order and its
    product are [poq] and [product], and every foreign key of the order
    that is set points to a row. *)
Definition resolves `{Countable K} {A} (t : gmap K A) (k : option K) : Prop :=
  match k with
  | None => True
  | Some k => is_Some (t !! k)
  end.

(** The row that a nullable foreign key points to, with its key. *)
Definition row_of `{Countable K} {A} (t : gmap K A) (k : option K)
  : option (K * A) :=
  match k with
  | None => None
  | Some k => (λ a, (k, a)) <$> t !! k
  end.

Record linked (s : Store) (order : Order.t)
    (poq : ProductOrderQuantity.t) (product : Product.t) : Prop := {
  linked_poq :
    tbl_product_order_quantity s !! Order.product order = Some poq;
  linked_product :
    tbl_product s !! ProductOrderQuantity.pid poq = Some product;
  linked_card :
    resolves (tbl_credit_card_details s) (Order.credit_card order);
  linked_shipping :
    resolves (tbl_shipping_information s) (Order.shipping_information order);
  linked_transaction :
    resolves (tbl_transaction s) (Order.transaction order)
}.

(** Every order of the store is linked. *)
Definition all_linked (s : Store) : Prop :=
  ∀ k order, tbl_order s !! k = Some order →
    ∃ poq product, linked s order poq product.

(** [grows s s']: the products are the same, the line items of [s] are
    line items of [s'], and the keys of the other tables are kept. *)
Record grows (s s' : Store) : Prop := {
  grows_product : tbl_product s' = tbl_product s;
  grows_product_order_quantity :
    ∀ k x, tbl_product_order_quantity s !! k = Some x →
           tbl_product_order_quantity s' !! k = Some x;
  grows_credit_card_details :
    ∀ k, is_Some (tbl_credit_card_details s !! k) →
         is_Some (tbl_credit_card_details s' !! k);
  grows_shipping_information :
    ∀ k, is_Some (tbl_shipping_information s !! k) →
         is_Some (tbl_shipping_information s' !! k);
  grows_transaction :
    ∀ k, is_Some (tbl_transaction s !! k) →
         is_Some (tbl_transaction s' !! k)
}.

(** Every order that has a transaction has shipping information. *)
Definition settled_with_shipping (s : Store) : Prop :=
  ∀ k order, tbl_order s !! k = Some order →
    is_Some (Order.transaction order) →
    is_Some (Order.shipping_information order).

(** The shipping row of an order, and the total price of a line item. *)
Definition shipping_row (s : Store) (order : Order.t)
  : option ShippingInformation.t :=
  Order.shipping_information order ≫= (tbl_shipping_information s !!.).

Definition total_price_of (product : Product.t) (poq : ProductOrderQuantity.t)
  : float :=
  py_float (Product.price product
            * Qc_of_Z (ProductOrderQuantity.quantity poq))%Qc.

(** The dictionary that [get_order] builds for an order whose line item,
    product, price with tax and total weight are known: the sections are
    read through the foreign keys of the order. *)
Definition order_dict (s : Store) (order_id : Z) (order : Order.t)
    (poq : ProductOrderQuantity.t) (product : Product.t)
    (total_price_tax : option float) (total_weight : Z)
  : OrderDict.t :=
  {| OrderDict.id := order_id;
     OrderDict.total_price := total_price_of product poq;
     OrderDict.total_price_tax := total_price_tax;
     OrderDict.email := Order.email order;
     OrderDict.credit_card :=
       card_dict <$> (Order.credit_card order ≫= (tbl_credit_card_details s !!.));
     OrderDict.shipping_information := shipping_row s order;
     OrderDict.transaction :=
       Order.transaction order ≫=
         (λ k, transaction_dict k <$> tbl_transaction s !! k);
     OrderDict.paid := Order.paid order;
     OrderDict.product :=
       {| ProductDict.id := ProductOrderQuantity.pid poq;
          ProductDict.quantity := ProductOrderQuantity.quantity poq |};
     OrderDict.shipping_price := calculate_shipping_price total_weight |}.

(** ** The stores that the writes lead to

    The key under which the shipping information (the card) of an order is
    saved: the one it is linked to, a new one when there is none. *)
Definition shipping_key (s : Store) (order : Order.t) : Z :=
  from_option id (next_id (tbl_shipping_information s))
              (Order.shipping_information order).

Definition card_key (s : Store) (order : Order.t) : Z :=
  from_option id (next_id (tbl_credit_card_details s))
              (Order.credit_card order).

Definition shipping_saved (s : Store) (order_id : Z) (order : Order.t)
    (email : string) (fields : ShippingInformation.t) : Store :=
  let k := shipping_key s order in
  with_order <[order_id := Order.set_email email
                             (Order.set_shipping_information k order)]>
    (with_shipping_information <[k := fields]> s).

Definition card_saved (s : Store) (order_id : Z) (order : Order.t)
    (fields : CreditCardDetails.t) : Store :=
  let k := card_key s order in
  with_order <[order_id := Order.set_credit_card k order]>
    (with_credit_card_details <[k := fields]> s).

Definition transaction_saved (s : Store) (order_id : Z) (order : Order.t)
    (d : TransactionDict.t) : Store :=
  with_order <[order_id := Order.set_transaction (TransactionDict.id d) order]>
    (with_transaction
       <[TransactionDict.id d :=
           Transaction.mk (TransactionDict.success d)
                          (TransactionDict.amount_charged d)]> s).

(** The number of [put_order_credit_card] calls in a sequence of calls. *)
Definition is_card_request (r : request) : bool :=
  match r with
  | PutOrderCreditCard _ _ _ _ _ _ => true
  | _ => false
  end.

Fixpoint card_requests (rs : list request) : nat :=
  match rs with
  | [] => 0%nat
  | r :: rs => ((if is_card_request r then 1 else 0) + card_requests rs)%nat
  end.

(** A province for which [calculate_tax] returns, and a call that submits
    no other province. *)
Definition taxable (province : string) : Prop :=
  ∃ tax, calculate_tax province = Ok tax.

Definition taxable_request (r : request) : Prop :=
  match r with
  | PutOrderShippingInformation _ _ _ _ _ _ province => taxable province
  | _ => True
  end.

(** The province of the shipping row of an order, if it has one, is one
    for which [calculate_tax] returns. *)
Definition shipping_taxable (s : Store) (order_id : Z) : Prop :=
  ∀ order si, tbl_order s !! order_id = Some order →
    shipping_row s order = Some si →
    taxable (ShippingInformation.province si).

(** [evolves o o']: the row [o'] of an order comes from its row [o] by
    setting links. The line item and the paid flag are the same, a card
    or shipping link that was set points to the same row, and a
    transaction link that was set is still set. *)
Record evolves (o o' : Order.t) : Prop := {
  evolves_product : Order.product o' = Order.product o;
  evolves_paid : Order.paid o' = Order.paid o;
  evolves_credit_card :
    ∀ k, Order.credit_card o = Some k → Order.credit_card o' = Some k;
  evolves_shipping_information :
    ∀ k, Order.shipping_information o = Some k →
         Order.shipping_information o' = Some k;
  evolves_transaction :
    is_Some (Order.transaction o) → is_Some (Order.transaction o')
}.

(** [rows_kept s s']: every order of [s] is an order of [s'] and has
    evolved, the line items and the Transactions of [s] are in [s'] as they
    were, and the products are the same. *)
Record rows_kept (s s' : Store) : Prop := {
  kept_order :
    ∀ j o, tbl_order s !! j = Some o →
           ∃ o', tbl_order s' !! j = Some o' ∧ evolves o o';
  kept_product_order_quantity :
    ∀ j q, tbl_product_order_quantity s !! j = Some q →
           tbl_product_order_quantity s' !! j = Some q;
  kept_transaction :
    ∀ k t, tbl_transaction s !! k = Some t → tbl_transaction s' !! k = Some t;
  kept_product : tbl_product s' = tbl_product s
}.

(** ** Basic facts *)

(** The float operations round as Python's do: [0.1 + 0.2] is
    [0.30000000000000004], the float above [0.3]. *)
Lemma float_add_rounds :
  float_add (py_float (Q2Qc (1 # 10))) (py_float (Q2Qc (2 # 10)))
  = S754_finite false 5404319552844596 (-54) ∧
  py_float (Q2Qc (3 # 10)) = S754_finite false 5404319552844595 (-54).
Proof. by vm_compute. Qed.

Lemma max_id_bound {A} (t : gmap Z A) (k : Z) :
  is_Some (t !! k) → ∃ m, max_id t = Some m ∧ k ≤ m.
Proof.
  intros [a Ha]. unfold max_id.
  assert (Hin : k ∈ (map_to_list t).*1).
  { apply list_elem_of_fmap. exists (k, a). split; [done|].
    by apply elem_of_map_to_list. }
  clear Ha. generalize dependent ((map_to_list t).*1). intros l Hin.
  induction Hin as [k l|k k' l Hin IH]; simpl.
  - destruct (foldr _ None l) as [m|]; simpl; eexists; split; eauto; lia.
  - destruct IH as (m & -> & Hm). simpl. eexists; split; eauto. lia.
Qed.

Lemma next_id_fresh {A} (t : gmap Z A) : t !! next_id t = None.
Proof.
  destruct (t !! next_id t) as [a|] eqn:Ha; [|done].
  destruct (max_id_bound t (next_id t)) as (m & Hm & Hle); [eauto|].
  unfold next_id in Hle. rewrite Hm in Hle. simpl in Hle. lia.
Qed.

Lemma find_order_Some order_id s order :
  tbl_order s !! order_id = Some order → find_order order_id s = Ok order.
Proof. unfold find_order. by intros ->. Qed.

Lemma find_order_None order_id s :
  tbl_order s !! order_id = None → find_order order_id s = Raise OrderNotFound.
Proof. unfold find_order. by intros ->. Qed.

Lemma fk_null_resolves `{Countable K} {A} (t : gmap K A) (k : option K) :
  resolves t k →
  fk_null t k = Ok (row_of t k).
Proof.
  destruct k as [k|]; simpl; [|done].
  intros [a Ha]. unfold fk. by rewrite Ha.
Qed.

Lemma fk_null_Ok `{Countable K} {A} (t : gmap K A) (k : option K) r :
  fk_null t k = Ok r →
  match k with
  | None => r = None
  | Some k => ∃ a, t !! k = Some a ∧ r = Some (k, a)
  end.
Proof.
  destruct k as [k|]; simpl.
  - unfold fk. destruct (t !! k) as [a|]; simpl; [|done].
    intros [= <-]. eauto.
  - by intros [= <-].
Qed.

Lemma snd_row_of s order :
  snd <$> row_of (tbl_shipping_information s) (Order.shipping_information order)
  = shipping_row s order.
Proof.
  unfold shipping_row. destruct (Order.shipping_information order) as [k|];
    simpl; [|done].
  by destruct (tbl_shipping_information s !! k).
Qed.

Lemma with_tax_None total_price : with_tax None total_price = Ok None.
Proof. done. Qed.

Lemma with_tax_Some si total_price tax :
  calculate_tax (ShippingInformation.province si) = Ok tax →
  with_tax (Some si) total_price
  = Ok (Some (float_add (float_mul tax total_price) total_price)).
Proof. intros E. unfold with_tax. by rewrite E. Qed.


(** The price with tax is there exactly when the shipping row is. *)
Lemma with_tax_Ok si total_price t :
  with_tax si total_price = Ok t →
  match si with
  | None => t = None
  | Some si =>
      ∃ tax, calculate_tax (ShippingInformation.province si) = Ok tax ∧
             t = Some (float_add (float_mul tax total_price) total_price)
  end.
Proof.
  destruct si as [si|]; simpl.
  - destruct (calculate_tax _) as [tax|e]; simpl; [|done].
    intros [= <-]. eauto.
  - by intros [= <-].
Qed.

(** For an order that is linked and whose product has a weight,
    [get_order] raises what [calculate_tax] raises, and else returns
    [order_dict]. *)
Lemma get_order_linked_tax s order_id order poq product w :
  tbl_order s !! order_id = Some order →
  linked s order poq product →
  Product.weight product = Some w →
  get_order order_id s
  = let? total_price_tax :=
      with_tax (shipping_row s order) (total_price_of product poq) in
    Ok (order_dict s order_id order poq product total_price_tax
          (w * ProductOrderQuantity.quantity poq)).
Proof.
  intros Ho [Hq Hp Hc Hs Ht] Hw. unfold get_order, order_dict.
  rewrite (find_order_Some _ _ _ Ho). simpl.
  unfold fk at 1. rewrite Hq. simpl.
  unfold fk at 1. rewrite Hp. simpl.
  rewrite !fk_null_resolves by done. simpl. rewrite snd_row_of.
  fold (total_price_of product poq).
  destruct (with_tax _ _) as [t|e]; simpl; [|done]. rewrite Hw. simpl.
  f_equal. unfold shipping_row.
  destruct (Order.credit_card order) as [kc|],
           (Order.shipping_information order) as [ks|],
           (Order.transaction order) as [kt|]; simpl in *;
    repeat match goal with
           | H : is_Some _ |- _ => destruct H as [? ->]
           end; simpl; reflexivity.
Qed.

Lemma get_order_linked s order_id order poq product w t :
  tbl_order s !! order_id = Some order →
  linked s order poq product →
  Product.weight product = Some w →
  with_tax (shipping_row s order) (total_price_of product poq) = Ok t →
  get_order order_id s
  = Ok (order_dict s order_id order poq product t
          (w * ProductOrderQuantity.quantity poq)).
Proof.
  intros Ho Hl Hw Ht. rewrite (get_order_linked_tax _ _ _ _ _ _ Ho Hl Hw).
  by rewrite Ht.
Qed.

(** [get_order] returns exactly for the orders that are linked, whose
    product has a weight and whose province, if any, [calculate_tax]
    knows, and then returns [order_dict]. *)
Lemma get_order_Ok s order_id v :
  get_order order_id s = Ok v →
  ∃ order poq product w t,
    tbl_order s !! order_id = Some order ∧
    linked s order poq product ∧
    Product.weight product = Some w ∧
    with_tax (shipping_row s order) (total_price_of product poq) = Ok t ∧
    v = order_dict s order_id order poq product t
          (w * ProductOrderQuantity.quantity poq).
Proof.
  intros Hv. pose proof Hv as Hv'. revert Hv'.
  unfold get_order at 1, find_order.
  destruct (tbl_order s !! order_id) as [order|] eqn:Ho; simpl; [|done].
  unfold fk at 1.
  destruct (tbl_product_order_quantity s !! Order.product order)
    as [poq|] eqn:Hq; simpl; [|done].
  unfold fk at 1.
  destruct (tbl_product s !! ProductOrderQuantity.pid poq)
    as [product|] eqn:Hp; simpl; [|done].
  destruct (fk_null (tbl_credit_card_details s) _) as [c|] eqn:Hc;
    simpl; [|done].
  destruct (fk_null (tbl_shipping_information s) _) as [si|] eqn:Hs;
    simpl; [|done].
  destruct (fk_null (tbl_transaction s) _) as [t|] eqn:Ht; simpl; [|done].
  destruct (with_tax _ _) as [tpt|] eqn:Htax; simpl; [|done].
  destruct (Product.weight product) as [w|] eqn:Hw; simpl; [|done].
  intros _.
  assert (Hl : linked s order poq product).
  { apply fk_null_Ok in Hc, Hs, Ht. split; try done.
    - destruct (Order.credit_card order); simpl; [|done].
      destruct Hc as (? & -> & _). eauto.
    - destruct (Order.shipping_information order); simpl; [|done].
      destruct Hs as (? & -> & _). eauto.
    - destruct (Order.transaction order); simpl; [|done].
      destruct Ht as (? & -> & _). eauto. }
  pose proof (get_order_linked_tax _ _ _ _ _ _ Ho Hl Hw) as E.
  rewrite Hv in E.
  destruct (with_tax (shipping_row s order) (total_price_of product poq))
    as [tpt'|e] eqn:Htax'; simpl in E; [|done].
  injection E as ->.
  exists order, poq, product, w, tpt'. by split_and!.
Qed.

(** *** The connection *)

Lemma set_in_transaction_idle s :
  in_transaction s = false → set_in_transaction false s = s.
Proof. destruct s. simpl. by intros ->. Qed.

Lemma get_order_set_in_transaction order_id b s :
  get_order order_id (set_in_transaction b s) = get_order order_id s.
Proof. reflexivity. Qed.

Lemma linked_set_in_transaction b s order poq product :
  linked s order poq product →
  linked (set_in_transaction b s) order poq product.
Proof. intros [Hq Hp Hc Hs Ht]. by split. Qed.

(** *** What each operation does on an existing order *)

Lemma put_order_shipping_information_run
    w order_id order email country address postal_code city province :
  tbl_order (db w) !! order_id = Some order →
  resolves (tbl_shipping_information (db w)) (Order.shipping_information order) →
  let s' := shipping_saved (db w) order_id order email
              (ShippingInformation.mk country address postal_code city province) in
  put_order_shipping_information order_id email country address postal_code
    city province w
  = (get_order order_id s', mkWorld s' (charged w)).
Proof.
  intros Ho Hs. unfold put_order_shipping_information, bind, query.
  rewrite (find_order_Some _ _ _ Ho). simpl.
  rewrite fk_null_resolves by done.
  unfold shipping_saved, shipping_key.
  destruct order as [p e c [k|] t pd]; simpl in *.
  - destruct Hs as [si ->]. simpl. reflexivity.
  - reflexivity.
Qed.

(** The first block, on a connection that is inside a transaction and on
    one that is not. *)
Lemma commit_credit_card_run w order_id order fields :
  tbl_order (db w) !! order_id = Some order →
  resolves (tbl_credit_card_details (db w)) (Order.credit_card order) →
  commit_credit_card order_id order
    (row_of (tbl_credit_card_details (db w)) (Order.credit_card order))
    fields w
  = if in_transaction (db w)
    then (Raise OperationalError, w)
    else if check_expiration_month (CreditCardDetails.expiration_month fields)
    then (Ok (Order.set_credit_card (card_key (db w) order) order),
          mkWorld (card_saved (db w) order_id order fields) (charged w))
    else (Raise IntegrityError,
          mkWorld (set_in_transaction true (db w)) (charged w)).
Proof.
  intros Ho Hc. unfold commit_credit_card, card_saved, card_key.
  unfold bind at 1, begin.
  destruct (in_transaction (db w)) eqn:Hi; [done|].
  destruct w as [s calls]. destruct s as [tp ts tq tc tt to i].
  simpl in *. subst i.
  destruct order as [p e [k|] si t pd]; simpl in *.
  - destruct Hc as [cc ->]. simpl.
    unfold bind, update_credit_card_details, write, ret, commit.
    simpl. destruct (check_expiration_month _); [|done]. simpl.
    do 2 f_equal. unfold with_order, with_credit_card_details,
      set_in_transaction. simpl.
    f_equal. symmetry. by apply insert_id.
  - unfold bind, insert_credit_card_details, update_order, write, ret, commit.
    simpl. destruct (check_expiration_month _); done.
Qed.

Lemma put_order_credit_card_run
    w order_id order name number expiration_year cvv expiration_month :
  tbl_order (db w) !! order_id = Some order →
  resolves (tbl_credit_card_details (db w)) (Order.credit_card order) →
  let fields :=
    CreditCardDetails.mk name number expiration_year cvv expiration_month in
  put_order_credit_card order_id name number expiration_year cvv
    expiration_month w
  = if in_transaction (db w)
    then (Raise OperationalError, w)
    else if check_expiration_month expiration_month
    then settle order_id (Order.set_credit_card (card_key (db w) order) order)
           fields (mkWorld (card_saved (db w) order_id order fields) (charged w))
    else (Raise IntegrityError,
          mkWorld (set_in_transaction true (db w)) (charged w)).
Proof.
  intros Ho Hc fields. unfold put_order_credit_card.
  unfold bind at 1, query at 1. rewrite (find_order_Some _ _ _ Ho).
  unfold bind at 1, query at 1. rewrite fk_null_resolves by done.
  unfold bind at 1. fold fields.
  rewrite (commit_credit_card_run _ _ _ fields Ho Hc). simpl.
  destruct (in_transaction (db w)); [done|].
  by destruct (check_expiration_month expiration_month).
Qed.

(** The rest of the function, on a connection that the first block has
    left outside a transaction. *)
Lemma settle_run w order_id order fields :
  in_transaction (db w) = false →
  settle order_id order fields w
  = match get_order order_id (db w) with
    | Raise e => (Raise e, w)
    | Ok d =>
        match OrderDict.total_price_tax d with
        | None => (Raise TypeError, w)
        | Some t =>
            let req :=
              charge_request fields
                (float_add t (OrderDict.shipping_price d)) in
            let calls := charged w ++ [req] in
            match charge (charged w) req with
            | Raise e => (Raise e, mkWorld (db w) calls)
            | Ok td =>
                match tbl_transaction (db w) !! TransactionDict.id td with
                | Some _ =>
                    (Raise IntegrityError,
                     mkWorld (set_in_transaction true (db w)) calls)
                | None =>
                    let s' := transaction_saved (db w) order_id order td in
                    (get_order order_id s', mkWorld s' calls)
                end
            end
        end
    end.
Proof.
  intros Hi. unfold settle, bind, query, lift.
  destruct (get_order order_id (db w)) as [d|e]; [|done].
  destruct (OrderDict.total_price_tax d) as [t|]; simpl; [|done].
  unfold call_charge, charge_request. simpl.
  destruct (charge _ _) as [td|e]; [|done].
  unfold commit_transaction, bind, begin. simpl. rewrite Hi.
  unfold write at 1. simpl. unfold insert_transaction. simpl.
  destruct (tbl_transaction (db w) !! TransactionDict.id td); [done|].
  unfold update_order, commit, write. simpl.
  destruct w as [s calls]. destruct s as [tp ts tq tc tt to i].
  simpl in *. by subst i.
Qed.

(** *** The writes keep an order linked *)

Lemma resolves_insert `{Countable K} {A} (t : gmap K A) (k : option K) j x :
  resolves t k → resolves (<[j:=x]> t) k.
Proof.
  destruct k as [k|]; simpl; [|done].
  intros Hk. apply lookup_insert_is_Some'. by right.
Qed.

Lemma linked_shipping_saved s order_id order poq product email fields :
  linked s order poq product →
  linked (shipping_saved s order_id order email fields)
         (Order.set_email email
            (Order.set_shipping_information (shipping_key s order) order))
         poq product.
Proof.
  intros [Hq Hp Hc Hs Ht]. split; simpl; try done.
  rewrite lookup_insert_eq. eauto.
Qed.

Lemma linked_card_saved s order_id order poq product fields :
  linked s order poq product →
  linked (card_saved s order_id order fields)
         (Order.set_credit_card (card_key s order) order) poq product.
Proof.
  intros [Hq Hp Hc Hs Ht]. split; simpl; try done.
  rewrite lookup_insert_eq. eauto.
Qed.

Lemma linked_transaction_saved s order_id order poq product d :
  linked s order poq product →
  linked (transaction_saved s order_id order d)
         (Order.set_transaction (TransactionDict.id d) order) poq product.
Proof.
  intros [Hq Hp Hc Hs Ht]. split; simpl; try done.
  rewrite lookup_insert_eq. eauto.
Qed.

(** ** Unknown orders *)

(** C4. When the identifier is not the key of an Order, [get_order],
    [put_order_shipping_information] and [put_order_credit_card] raise
    [OrderNotFound]: none returns a dictionary, the database is the one
    before the call and the gateway has received no call. *)
Theorem order_not_found
    (w : World) (order_id : Z)
    (email country address postal_code city province name : string)
    (number expiration_year cvv expiration_month : Z) :
  tbl_order (db w) !! order_id = None →
  get_order order_id (db w) = Raise OrderNotFound ∧
  put_order_shipping_information order_id email country address postal_code
    city province w = (Raise OrderNotFound, w) ∧
  put_order_credit_card order_id name number expiration_year cvv
    expiration_month w = (Raise OrderNotFound, w).
Proof.
  intros Ho. split_and!.
  - unfold get_order. by rewrite (find_order_None _ _ Ho).
  - unfold put_order_shipping_information, bind, query.
    by rewrite (find_order_None _ _ Ho).
  - unfold put_order_credit_card, bind, query.
    by rewrite (find_order_None _ _ Ho).
Qed.

(** ** The price with tax *)

(** C3, as the code has it. For an order whose links point to rows and
    whose product has a weight, [total_price] is the float of the price
    times the quantity of its line item. Without shipping information
    [get_order] returns, with [total_price_tax = None]. With shipping
    information, [calculate_tax] is applied to the province of the row
    and to nothing else: when it returns a rate, [get_order] returns with
    [total_price_tax = rate * total_price + total_price], the product and
    the sum being those of floats, in that order; when it raises,
    [get_order] raises the same exception. So [total_price_tax] is [None]
    exactly when the order has no shipping information. *)
Theorem total_price_tax_of_order
    (s : Store) (order_id : Z) (order : Order.t)
    (poq : ProductOrderQuantity.t) (product : Product.t) (wgt : Z) :
  tbl_order s !! order_id = Some order →
  linked s order poq product →
  Product.weight product = Some wgt →
  let total_price :=
    py_float (Product.price product
              * Qc_of_Z (ProductOrderQuantity.quantity poq))%Qc in
  match Order.shipping_information order with
  | None =>
      ∃ v, get_order order_id s = Ok v ∧
           OrderDict.total_price v = total_price ∧
           OrderDict.total_price_tax v = None
  | Some k =>
      ∃ si, tbl_shipping_information s !! k = Some si ∧
        match calculate_tax (ShippingInformation.province si) with
        | Ok rate =>
            ∃ v, get_order order_id s = Ok v ∧
                 OrderDict.total_price v = total_price ∧
                 OrderDict.total_price_tax v
                 = Some (float_add (float_mul rate total_price) total_price)
        | Raise e => get_order order_id s = Raise e
        end
  end ∧
  (∀ v, get_order order_id s = Ok v →
     (OrderDict.total_price_tax v = None ↔
      Order.shipping_information order = None)).
Proof.
  intros Ho Hl Hw total_price.
  pose proof (get_order_linked_tax _ _ _ _ _ _ Ho Hl Hw) as E.
  pose proof (linked_shipping _ _ _ _ Hl) as Hs.
  unfold shipping_row in E.
  destruct (Order.shipping_information order) as [k|] eqn:Hk; simpl in *.
  - destruct Hs as [si Hsi]. rewrite Hsi in E. simpl in E.
    fold total_price in E. split.
    + exists si. split; [done|].
      destruct (calculate_tax (ShippingInformation.province si)) as [rate|e];
        simpl in E; [|done].
      eexists. split; [exact E|]. done.
    + intros v Hv. rewrite Hv in E.
      destruct (calculate_tax (ShippingInformation.province si)) as [rate|e];
        simpl in E; [|done].
      injection E as ->. simpl. split; intros; discriminate.
  - simpl in E. split.
    + eexists. split; [exact E|]. done.
    + intros v Hv. rewrite Hv in E. injection E as ->. done.
Qed.

(** ** The masked card *)

Lemma substring_all s n :
  (String.length s ≤ n)%nat → String.substring 0 n s = s.
Proof.
  revert n. induction s as [|a s IH]; intros n Hn.
  - by destruct n.
  - destruct n as [|n]; simpl in *; [lia|]. rewrite IH; [done|lia].
Qed.

Lemma substring_length s m n :
  String.length (String.substring m n s)
  = Nat.min n (String.length s - m).
Proof.
  revert m n. induction s as [|a s IH]; intros m n.
  - destruct m, n; simpl; lia.
  - destruct m as [|m].
    + destruct n as [|n]; simpl; [done|]. rewrite IH. lia.
    + simpl. apply IH.
Qed.

Lemma substring_split s n :
  (String.substring 0 n s
   +:+ String.substring n (String.length s - n) s)%string = s.
Proof.
  revert n. induction s as [|a s IH]; intros n.
  - by destruct n.
  - destruct n as [|n]; simpl.
    + by rewrite substring_all.
    + change (String a (String.substring 0 n s
                        +:+ String.substring n (String.length s - n) s)
              = String a s).
      f_equal. apply IH.
Qed.

Lemma append_length (a b : string) :
  String.length (a +:+ b) = (String.length a + String.length b)%nat.
Proof.
  induction a as [|c a IH]; [done|].
  change (S (String.length (a +:+ b))
          = S (String.length a + String.length b)). by rewrite IH.
Qed.

Lemma append_assoc (a b c : string) : (a +:+ b +:+ c = (a +:+ b) +:+ c)%string.
Proof.
  induction a as [|x a IH]; [done|].
  change (String x (a +:+ b +:+ c) = String x ((a +:+ b) +:+ c)).
  by rewrite IH.
Qed.

(** The slice [s[:n]] of a string that begins with [n] characters [a] is
    [a], and the slice [s[-n:]] of a string that ends with [n] characters
    [b] is [b]. *)
Lemma substring_prefix (a x : string) n :
  String.length a = n → String.substring 0 n (a +:+ x) = a.
Proof.
  intros <-. induction a as [|c a IH].
  - simpl. by destruct x.
  - change (String c (String.substring 0 (String.length a) (a +:+ x))
            = String c a). by rewrite IH.
Qed.

Lemma substring_suffix (x b : string) n :
  String.length b = n →
  String.substring (String.length (x +:+ b) - n) n (x +:+ b) = b.
Proof.
  intros <-. rewrite append_length.
  replace (String.length x + String.length b - String.length b)%nat
    with (String.length x) by lia.
  induction x as [|c x IH].
  - by apply substring_all.
  - exact IH.
Qed.

(** What the two slices of [card_dict] are. *)
Lemma card_dict_slices (cc : CreditCardDetails.t) :
  let s := py_str (CreditCardDetails.number cc) in
  let d := card_dict cc in
  String.length (CardDict.first_digits d) = Nat.min 4 (String.length s) ∧
  String.length (CardDict.last_digits d) = Nat.min 4 (String.length s) ∧
  (∃ rest, s = (CardDict.first_digits d +:+ rest)%string) ∧
  (∃ start, s = (start +:+ CardDict.last_digits d)%string).
Proof.
  intros s d. unfold d, card_dict.
  cbn [CardDict.first_digits CardDict.last_digits]. fold s.
  unfold first4, last4.
  split_and!.
  - rewrite substring_length. lia.
  - rewrite substring_length. lia.
  - exists (String.substring 4 (String.length s - 4) s).
    by rewrite substring_split.
  - exists (String.substring 0 (String.length s - 4) s).
    destruct (decide (String.length s ≤ 4)%nat) as [Hle|Hgt].
    + replace (String.length s - 4)%nat with 0%nat by lia.
      rewrite (substring_all s 4) by done. by destruct s.
    + rewrite <- (substring_split s (String.length s - 4)) at 1.
      do 2 f_equal. lia.
Qed.

(** C7. In the dictionary that [get_order] returns for an order with a
    card, the card section holds the name, the expiration year and month
    of the card, and two slices of the decimal writing of its number,
    which no other number has: [first_digits] is its beginning and
    [last_digits] its end, each of four characters (of all of them when
    the number has fewer). For the
    number 4111111111111111 these are "4111" and "1111". Nothing else of
    the card is exposed: the section has no other entry, and a card with
    any other CVV and any other number that begins and ends with the same
    four characters gives the same dictionary. *)
Theorem credit_card_is_masked
    (s : Store) (order_id : Z) (order : Order.t) (k : Z)
    (cc cc' : CreditCardDetails.t) (v : OrderDict.t) :
  tbl_order s !! order_id = Some order →
  Order.credit_card order = Some k →
  tbl_credit_card_details s !! k = Some cc →
  get_order order_id s = Ok v →
  let digits := py_str (CreditCardDetails.number cc) in
  ∃ d,
    OrderDict.credit_card v = Some d ∧
    CardDict.name d = CreditCardDetails.name cc ∧
    CardDict.expiration_year d = CreditCardDetails.expiration_year cc ∧
    CardDict.expiration_month d = CreditCardDetails.expiration_month cc ∧
    String.length (CardDict.first_digits d)
    = Nat.min 4 (String.length digits) ∧
    String.length (CardDict.last_digits d)
    = Nat.min 4 (String.length digits) ∧
    (∃ rest, digits = (CardDict.first_digits d +:+ rest)%string) ∧
    (∃ start, digits = (start +:+ CardDict.last_digits d)%string) ∧
    (∀ n, py_str n = digits → n = CreditCardDetails.number cc) ∧
    (CreditCardDetails.number cc = 4111111111111111 →
     CardDict.first_digits d = "4111"%string ∧
     CardDict.last_digits d = "1111"%string) ∧
    (∀ first middle middle' last : string,
       String.length first = 4%nat →
       String.length last = 4%nat →
       digits = (first +:+ middle +:+ last)%string →
       py_str (CreditCardDetails.number cc')
       = (first +:+ middle' +:+ last)%string →
       CreditCardDetails.name cc' = CreditCardDetails.name cc →
       CreditCardDetails.expiration_year cc'
       = CreditCardDetails.expiration_year cc →
       CreditCardDetails.expiration_month cc'
       = CreditCardDetails.expiration_month cc →
       CardDict.first_digits d = first ∧
       CardDict.last_digits d = last ∧
       get_order order_id (with_credit_card_details <[k:=cc']> s) = Ok v).
Proof.
  intros Ho Hk Hcc Hv digits.
  destruct (get_order_Ok _ _ _ Hv)
    as (order' & poq & product & w & t & Ho' & Hl & Hw & Ht & ->).
  assert (order' = order) as -> by congruence.
  exists (card_dict cc).
  destruct (card_dict_slices cc) as (Hlf & Hll & Hpre & Hsuf).
  split_and!; try done.
  - unfold order_dict. simpl. rewrite Hk. simpl. by rewrite Hcc.
  - intros n E. by apply (inj pretty).
  - intros Hn. unfold card_dict. simpl. rewrite Hn. by vm_compute.
  - intros first middle middle' last Hf Hla Hd Hd' Hname Hyear Hmonth.
    assert (Hfirst : ∀ m, first4 (first +:+ m +:+ last) = first).
    { intros m. unfold first4. by apply substring_prefix. }
    assert (Hlast : ∀ m, last4 (first +:+ m +:+ last) = last).
    { intros m. unfold last4. rewrite append_assoc.
      by apply substring_suffix. }
    unfold card_dict at 1 2. cbn [CardDict.first_digits CardDict.last_digits].
    fold digits. rewrite Hd, Hfirst, Hlast. split_and!; try done.
    assert (Hl' : linked (with_credit_card_details <[k:=cc']> s)
                         order poq product).
    { destruct Hl as [Hq Hp Hc Hs Hx]. split; simpl; try done.
      by apply resolves_insert. }
    rewrite (get_order_linked (with_credit_card_details <[k:=cc']> s)
               _ _ _ _ _ t Ho Hl' Hw Ht). f_equal.
    unfold order_dict. simpl. rewrite Hk. simpl.
    rewrite lookup_insert_eq, Hcc. simpl.
    unfold card_dict. fold digits.
    by rewrite Hname, Hyear, Hmonth, Hd, Hd', !Hfirst, !Hlast.
Qed.

(** ** Products without a weight *)

Lemma with_tax_taxable row total_price :
  (∀ si, row = Some si → taxable (ShippingInformation.province si)) →
  ∃ t, with_tax row total_price = Ok t.
Proof.
  intros H. destruct row as [si|]; [|by eexists].
  destruct (H si eq_refl) as [tax Htax]. eexists. by apply with_tax_Some.
Qed.

Lemma get_order_linked_no_weight_tax s order_id order poq product :
  tbl_order s !! order_id = Some order →
  linked s order poq product →
  Product.weight product = None →
  get_order order_id s
  = let? _total_price_tax :=
      with_tax (shipping_row s order) (total_price_of product poq) in
    Raise TypeError.
Proof.
  intros Ho [Hq Hp Hc Hs Ht] Hw. unfold get_order.
  rewrite (find_order_Some _ _ _ Ho). simpl.
  unfold fk at 1. rewrite Hq. simpl.
  unfold fk at 1. rewrite Hp. simpl.
  rewrite !fk_null_resolves by done. simpl. rewrite snd_row_of.
  fold (total_price_of product poq).
  destruct (with_tax _ _); simpl; [|done]. by rewrite Hw.
Qed.

Lemma get_order_linked_no_weight s order_id order poq product t :
  tbl_order s !! order_id = Some order →
  linked s order poq product →
  Product.weight product = None →
  with_tax (shipping_row s order) (total_price_of product poq) = Ok t →
  get_order order_id s = Raise TypeError.
Proof.
  intros Ho Hl Hw Ht.
  rewrite (get_order_linked_no_weight_tax _ _ _ _ _ Ho Hl Hw). by rewrite Ht.
Qed.

Lemma get_order_no_weight s order_id order poq product :
  tbl_order s !! order_id = Some order →
  tbl_product_order_quantity s !! Order.product order = Some poq →
  tbl_product s !! ProductOrderQuantity.pid poq = Some product →
  Product.weight product = None →
  ∃ e, get_order order_id s = Raise e.
Proof.
  intros Ho Hq Hp Hw.
  destruct (get_order order_id s) as [v|e] eqn:Hv; [|eauto].
  destruct (get_order_Ok _ _ _ Hv)
    as (order' & poq' & product' & w & t & Ho' & [Hq' Hp' _ _ _] & Hw' & _).
  congruence.
Qed.

Lemma resolves_dec `{Countable K} {A} (t : gmap K A) (k : option K) :
  resolves t k ∨ fk_null t k = Raise DoesNotExist.
Proof.
  destruct k as [k|]; simpl; [|by left].
  unfold fk. destruct (t !! k); simpl; eauto.
Qed.

(** C9. For an order whose product has no weight, [get_order] returns no
    dictionary: it raises, and so do [put_order_shipping_information] and
    [put_order_credit_card], which call it; the gateway receives no call.
    When the foreign keys of the order point to rows and [calculate_tax]
    returns for the province read, the exception is the [TypeError] of
    the product of [None] by the quantity; [put_order_credit_card], on a
    connection outside a transaction, raises it after the card is
    committed (or, for an expiration month that the storage refuses,
    raises [IntegrityError]). *)
Theorem no_weight_no_dictionary
    (w : World) (order_id : Z) (order : Order.t)
    (poq : ProductOrderQuantity.t) (product : Product.t)
    (email country address postal_code city province name : string)
    (number expiration_year cvv expiration_month : Z) :
  tbl_order (db w) !! order_id = Some order →
  tbl_product_order_quantity (db w) !! Order.product order = Some poq →
  tbl_product (db w) !! ProductOrderQuantity.pid poq = Some product →
  Product.weight product = None →
  let shipped :=
    put_order_shipping_information order_id email country address postal_code
      city province w in
  let carded :=
    put_order_credit_card order_id name number expiration_year cvv
      expiration_month w in
  (∃ e, get_order order_id (db w) = Raise e) ∧
  (∃ e, shipped.1 = Raise e) ∧
  (∃ e, carded.1 = Raise e) ∧
  charged carded.2 = charged w ∧
  (linked (db w) order poq product →
   (taxable province → shipped.1 = Raise TypeError) ∧
   ((∀ si, shipping_row (db w) order = Some si →
           taxable (ShippingInformation.province si)) →
    get_order order_id (db w) = Raise TypeError ∧
    (in_transaction (db w) = false →
     carded.1 = (if check_expiration_month expiration_month
                 then Raise TypeError else Raise IntegrityError)))).
Proof.
  intros Ho Hq Hp Hw shipped carded.
  set (si := ShippingInformation.mk country address postal_code city province).
  set (cc := CreditCardDetails.mk name number expiration_year cvv
               expiration_month).
  assert (Ho1 : tbl_order (shipping_saved (db w) order_id order email si)
                  !! order_id
                = Some (Order.set_email email
                          (Order.set_shipping_information
                             (shipping_key (db w) order) order))).
  { unfold shipping_saved. simpl. by rewrite lookup_insert_eq. }
  assert (Ho2 : tbl_order (card_saved (db w) order_id order cc) !! order_id
                = Some (Order.set_credit_card (card_key (db w) order) order)).
  { unfold card_saved. simpl. by rewrite lookup_insert_eq. }
  assert (Hcarded : (∃ e, carded.1 = Raise e) ∧ charged carded.2 = charged w).
  { destruct (resolves_dec (tbl_credit_card_details (db w))
                (Order.credit_card order)) as [Hc|Hc].
    - destruct (get_order_no_weight _ _ _ poq product Ho2) as [e He];
        try done.
      unfold carded.
      rewrite (put_order_credit_card_run _ _ _ _ _ _ _ _ Ho Hc).
      destruct (in_transaction (db w)) eqn:Hi; [eauto|].
      destruct (check_expiration_month expiration_month); [|eauto].
      rewrite settle_run by exact Hi. simpl. fold cc. rewrite He. eauto.
    - unfold carded, put_order_credit_card.
      unfold bind, query. rewrite (find_order_Some _ _ _ Ho). rewrite Hc.
      eauto. }
  split_and!.
  - eapply get_order_no_weight; eauto.
  - destruct (resolves_dec (tbl_shipping_information (db w))
                (Order.shipping_information order)) as [Hs|Hs].
    + destruct (get_order_no_weight _ _ _ poq product Ho1) as [e He];
        try done.
      exists e. unfold shipped.
      by rewrite (put_order_shipping_information_run _ _ _ _ _ _ _ _ _ Ho Hs).
    + exists DoesNotExist. unfold shipped, put_order_shipping_information.
      unfold bind, query. rewrite (find_order_Some _ _ _ Ho). by rewrite Hs.
  - apply Hcarded.
  - apply Hcarded.
  - intros Hl. split.
    + intros [tax Htax].
      pose proof (linked_shipping_saved _ order_id _ _ _ email si Hl) as Hl1.
      unfold shipped.
      rewrite (put_order_shipping_information_run _ _ _ _ _ _ _ _ _ Ho
                 (linked_shipping _ _ _ _ Hl)).
      cbn [fst]. fold si.
      eapply (get_order_linked_no_weight _ _ _ _ _ _ Ho1 Hl1 Hw).
      unfold shipping_row, shipping_saved. simpl.
      rewrite lookup_insert_eq. by apply with_tax_Some.
    + intros Htaxable.
      destruct (with_tax_taxable _ (total_price_of product poq) Htaxable)
        as [t Ht].
      split; [by eapply get_order_linked_no_weight|].
      intros Hi.
      pose proof (linked_card_saved _ order_id _ _ _ cc Hl) as Hl2.
      unfold carded.
      rewrite (put_order_credit_card_run _ _ _ _ _ _ _ _ Ho
                 (linked_card _ _ _ _ Hl)), Hi.
      destruct (check_expiration_month expiration_month); [|done].
      rewrite settle_run by exact Hi. simpl. fold cc.
      by rewrite (get_order_linked_no_weight _ _ _ _ _ t Ho2 Hl2 Hw).
Qed.

(** ** Settlement *)

Lemma check_expiration_month_true m :
  1 ≤ m ≤ 12 → check_expiration_month m = true.
Proof.
  intros Hm. unfold check_expiration_month.
  rewrite !bool_decide_eq_true_2 by lia. done.
Qed.

Lemma check_expiration_month_false m :
  ¬ (1 ≤ m ≤ 12) → check_expiration_month m = false.
Proof.
  intros Hm. unfold check_expiration_month.
  destruct (decide (m < 13)) as [H13|H13].
  - rewrite (bool_decide_eq_false_2 (m > 0)) by lia. apply andb_false_r.
  - by rewrite (bool_decide_eq_false_2 (m < 13)).
Qed.

Lemma transaction_dict_eta d :
  transaction_dict (TransactionDict.id d)
    (Transaction.mk (TransactionDict.success d)
                    (TransactionDict.amount_charged d)) = d.
Proof. by destruct d. Qed.

(** The dictionary read back once a Transaction is saved shows it. *)
Lemma get_order_transaction_saved s order_id order d v :
  get_order order_id (transaction_saved s order_id order d) = Ok v →
  OrderDict.transaction v = Some d.
Proof.
  intros Hv.
  destruct (get_order_Ok _ _ _ Hv)
    as (order' & poq & product & w & t & Ho & _ & _ & _ & ->).
  unfold transaction_saved in Ho. simpl in Ho.
  rewrite lookup_insert_eq in Ho. injection Ho as <-.
  unfold order_dict, transaction_saved. simpl.
  rewrite lookup_insert_eq. simpl. by rewrite transaction_dict_eta.
Qed.

(** C10, as the code has it. Take an order without shipping information
    whose links point to rows, on a connection outside a transaction.
    When the expiration month is between 1 and 12,
    [put_order_credit_card] commits the card, linked to the order, and
    then raises [TypeError]: the gateway receives no call, no Transaction
    is stored and the transaction link of the order is the one before the
    call; when the product has a weight the dictionary read after the
    commit has [total_price_tax = None], and it is the sum with
    [shipping_price] that raises. When the month is not between 1 and 12
    the storage refuses the card: the call raises [IntegrityError] inside
    the first block, no card is stored or linked, and the gateway receives
    no call. *)
Theorem card_without_shipping
    (w : World) (order_id : Z) (order : Order.t)
    (poq : ProductOrderQuantity.t) (product : Product.t) (name : string)
    (number expiration_year cvv expiration_month : Z) :
  tbl_order (db w) !! order_id = Some order →
  linked (db w) order poq product →
  Order.shipping_information order = None →
  in_transaction (db w) = false →
  let fields :=
    CreditCardDetails.mk name number expiration_year cvv expiration_month in
  let k := card_key (db w) order in
  let r := put_order_credit_card order_id name number expiration_year cvv
             expiration_month w in
  (1 ≤ expiration_month ≤ 12 →
   r.1 = Raise TypeError ∧
   commit_credit_card order_id order
     (row_of (tbl_credit_card_details (db w)) (Order.credit_card order))
     fields w
   = (Ok (Order.set_credit_card k order), mkWorld (db r.2) (charged w)) ∧
   tbl_order (db r.2) !! order_id = Some (Order.set_credit_card k order) ∧
   tbl_credit_card_details (db r.2) !! k = Some fields ∧
   tbl_transaction (db r.2) = tbl_transaction (db w) ∧
   charged r.2 = charged w ∧
   (∀ wgt, Product.weight product = Some wgt →
      ∃ d, get_order order_id (db r.2) = Ok d ∧
           OrderDict.total_price_tax d = None ∧
           py_add (OrderDict.total_price_tax d) (OrderDict.shipping_price d)
           = Raise TypeError)) ∧
  (¬ (1 ≤ expiration_month ≤ 12) →
   r.1 = Raise IntegrityError ∧
   tbl_order (db r.2) = tbl_order (db w) ∧
   tbl_credit_card_details (db r.2) = tbl_credit_card_details (db w) ∧
   tbl_transaction (db r.2) = tbl_transaction (db w) ∧
   charged r.2 = charged w).
Proof.
  intros Ho Hl Hs Hi fields k r.
  pose proof (linked_card _ _ _ _ Hl) as Hc.
  split.
  - intros Hm.
    pose proof (check_expiration_month_true _ Hm) as Hck.
    pose proof (linked_card_saved _ order_id _ _ _ fields Hl) as Hl1.
    assert (Ho1 : tbl_order (card_saved (db w) order_id order fields)
                    !! order_id
                  = Some (Order.set_credit_card k order)).
    { unfold card_saved. simpl. by rewrite lookup_insert_eq. }
    assert (Ht : with_tax
                   (shipping_row (card_saved (db w) order_id order fields)
                      (Order.set_credit_card k order))
                   (total_price_of product poq) = Ok None).
    { unfold shipping_row. simpl. by rewrite Hs. }
    assert (Hr : r = (Raise TypeError,
                      mkWorld (card_saved (db w) order_id order fields)
                              (charged w))).
    { unfold r. rewrite (put_order_credit_card_run _ _ _ _ _ _ _ _ Ho Hc).
      rewrite Hi, Hck, settle_run by exact Hi. simpl. fold fields.
      destruct (Product.weight product) as [wgt|] eqn:Hw.
      - by rewrite (get_order_linked _ _ _ _ _ _ _ Ho1 Hl1 Hw Ht).
      - by rewrite (get_order_linked_no_weight _ _ _ _ _ _ Ho1 Hl1 Hw Ht). }
    rewrite Hr. simpl. split_and!; try done.
    + rewrite (commit_credit_card_run _ _ _ fields Ho Hc). simpl.
      by rewrite Hi, Hck.
    + unfold card_saved. simpl. by rewrite lookup_insert_eq.
    + intros wgt Hw. eexists. split.
      * exact (get_order_linked _ _ _ _ _ _ _ Ho1 Hl1 Hw Ht).
      * done.
  - intros Hm. unfold r.
    rewrite (put_order_credit_card_run _ _ _ _ _ _ _ _ Ho Hc).
    by rewrite Hi, (check_expiration_month_false _ Hm).
Qed.

Lemma total_price_tax_Some s order_id order d t :
  tbl_order s !! order_id = Some order →
  get_order order_id s = Ok d →
  OrderDict.total_price_tax d = Some t →
  is_Some (Order.shipping_information order).
Proof.
  intros Ho Hd Ht.
  destruct (get_order_Ok _ _ _ Hd)
    as (o & poq & product & ? & tpt & Ho' & _ & _ & Htax & ->).
  assert (o = order) as -> by congruence.
  simpl in Ht. subst tpt. unfold shipping_row in Htax.
  destruct (Order.shipping_information order); [eauto|discriminate].
Qed.

(** What a call of [put_order_credit_card] that returns has done. *)
Lemma put_order_credit_card_Ok
    w w' order_id order name number expiration_year cvv expiration_month v :
  tbl_order (db w) !! order_id = Some order →
  put_order_credit_card order_id name number expiration_year cvv
    expiration_month w = (Ok v, w') →
  let fields :=
    CreditCardDetails.mk name number expiration_year cvv expiration_month in
  let order1 := Order.set_credit_card (card_key (db w) order) order in
  let s1 := card_saved (db w) order_id order fields in
  ∃ d t td,
    in_transaction (db w) = false ∧
    resolves (tbl_credit_card_details (db w)) (Order.credit_card order) ∧
    check_expiration_month expiration_month = true ∧
    get_order order_id s1 = Ok d ∧
    OrderDict.total_price_tax d = Some t ∧
    charge (charged w)
      (charge_request fields (float_add t (OrderDict.shipping_price d)))
    = Ok td ∧
    tbl_transaction s1 !! TransactionDict.id td = None ∧
    w' = mkWorld (transaction_saved s1 order_id order1 td)
           (charged w
            ++ [charge_request fields
                  (float_add t (OrderDict.shipping_price d))]) ∧
    get_order order_id (db w') = Ok v.
Proof.
  intros Ho Hr fields order1 s1.
  destruct (resolves_dec (tbl_credit_card_details (db w))
              (Order.credit_card order)) as [Hc|Hc].
  2:{ unfold put_order_credit_card, bind, query in Hr.
      rewrite (find_order_Some _ _ _ Ho), Hc in Hr. discriminate. }
  rewrite (put_order_credit_card_run _ _ _ _ _ _ _ _ Ho Hc) in Hr.
  destruct (in_transaction (db w)) eqn:Hi; [discriminate|].
  destruct (check_expiration_month expiration_month) eqn:Hck; [|discriminate].
  rewrite settle_run in Hr by exact Hi. cbn [db charged] in Hr.
  fold fields s1 order1 in Hr.
  destruct (get_order order_id s1) as [d|e] eqn:Hd; [|discriminate].
  destruct (OrderDict.total_price_tax d) as [t|] eqn:Ht; [|discriminate].
  destruct (charge _ _) as [td|e] eqn:Htd; [|discriminate].
  destruct (tbl_transaction s1 !! TransactionDict.id td) eqn:Hfresh;
    [discriminate|].
  cbv zeta in Hr. injection Hr as Hv <-. exists d, t, td. by split_and!.
Qed.

(** C1, as the code has it. When [put_order_credit_card] returns for an
    order, the gateway has received exactly one more call, whose amount is
    [total_price_tax + shipping_price] of the dictionary that [get_order]
    builds once the card is committed, and the dictionary returned, which
    is the one [get_order] builds afterwards, has as its transaction
    section the dictionary that the gateway answered: the same id, the
    same success flag (true when the gateway reports a successful charge)
    and the same amount charged. Such an order has shipping information. *)
Theorem settlement_charges_amount_due
    (w w' : World) (order_id : Z) (order : Order.t) (name : string)
    (number expiration_year cvv expiration_month : Z) (v : OrderDict.t) :
  tbl_order (db w) !! order_id = Some order →
  put_order_credit_card order_id name number expiration_year cvv
    expiration_month w = (Ok v, w') →
  let fields :=
    CreditCardDetails.mk name number expiration_year cvv expiration_month in
  let order1 := Order.set_credit_card (card_key (db w) order) order in
  ∃ s1 d t td,
    commit_credit_card order_id order
      (row_of (tbl_credit_card_details (db w)) (Order.credit_card order))
      fields w
    = (Ok order1, mkWorld s1 (charged w)) ∧
    get_order order_id s1 = Ok d ∧
    OrderDict.total_price_tax d = Some t ∧
    charged w'
    = charged w
      ++ [charge_request fields (float_add t (OrderDict.shipping_price d))] ∧
    charge (charged w)
      (charge_request fields (float_add t (OrderDict.shipping_price d)))
    = Ok td ∧
    get_order order_id (db w') = Ok v ∧
    OrderDict.transaction v = Some td ∧
    is_Some (Order.shipping_information order).
Proof.
  intros Ho Hr fields order1.
  destruct (put_order_credit_card_Ok _ _ _ _ _ _ _ _ _ _ Ho Hr)
    as (d & t & td & Hi & Hc & Hck & Hd & Ht & Htd & Hfresh & Hw' & Hv).
  exists (card_saved (db w) order_id order fields), d, t, td.
  split_and!; try done.
  - rewrite (commit_credit_card_run _ _ _ fields Ho Hc). simpl.
    by rewrite Hi, Hck.
  - by rewrite Hw'.
  - rewrite Hw' in Hv. simpl in Hv.
    by apply get_order_transaction_saved in Hv.
  - eapply (total_price_tax_Some _ order_id order1); [|exact Hd|exact Ht].
    unfold card_saved. simpl. by rewrite lookup_insert_eq.
Qed.

(** Saving a card changes neither the price with tax nor the shipping
    price of the order. *)
Lemma get_order_card_saved s order_id order fields d :
  tbl_order s !! order_id = Some order →
  get_order order_id s = Ok d →
  ∃ d', get_order order_id (card_saved s order_id order fields) = Ok d' ∧
        OrderDict.total_price_tax d' = OrderDict.total_price_tax d ∧
        OrderDict.shipping_price d' = OrderDict.shipping_price d.
Proof.
  intros Ho Hd.
  destruct (get_order_Ok _ _ _ Hd)
    as (order' & poq & product & w & t & Ho' & Hl & Hw & Ht & ->).
  assert (order' = order) as -> by congruence.
  eexists. split.
  - apply (get_order_linked (card_saved s order_id order fields) order_id
             (Order.set_credit_card (card_key s order) order) poq product w t).
    + unfold card_saved. simpl. by rewrite lookup_insert_eq.
    + by apply linked_card_saved.
    + done.
    + exact Ht.
  - done.
Qed.

(** C2, as the code has it. Take an order for which [get_order] returns,
    with shipping information, on a connection outside a transaction, and
    two calls of [put_order_credit_card] with cards that the storage
    accepts. If the gateway raises on the
    first call, the call raises that exception, the order keeps the card
    of that call, its transaction link and the Transaction table are the
    ones before the call. If the gateway then answers the second call with
    a transaction under an unused id, the second call returns, exactly one
    Transaction has been added, under that id, and the order is linked to
    it and to the same card row, which holds the second card. *)
Theorem gateway_raises_then_second_attempt
    (w : World) (order_id : Z) (order : Order.t) (d : OrderDict.t) (t : float)
    (e : exn) (td : TransactionDict.t)
    (name1 : string) (number1 expiration_year1 cvv1 expiration_month1 : Z)
    (name2 : string) (number2 expiration_year2 cvv2 expiration_month2 : Z) :
  tbl_order (db w) !! order_id = Some order →
  get_order order_id (db w) = Ok d →
  OrderDict.total_price_tax d = Some t →
  in_transaction (db w) = false →
  1 ≤ expiration_month1 ≤ 12 →
  1 ≤ expiration_month2 ≤ 12 →
  let fields1 := CreditCardDetails.mk name1 number1 expiration_year1 cvv1
                   expiration_month1 in
  let fields2 := CreditCardDetails.mk name2 number2 expiration_year2 cvv2
                   expiration_month2 in
  let amount := float_add t (OrderDict.shipping_price d) in
  let k := card_key (db w) order in
  charge (charged w) (charge_request fields1 amount) = Raise e →
  charge (charged w ++ [charge_request fields1 amount])
         (charge_request fields2 amount) = Ok td →
  tbl_transaction (db w) !! TransactionDict.id td = None →
  let first := put_order_credit_card order_id name1 number1 expiration_year1
                 cvv1 expiration_month1 w in
  let second := put_order_credit_card order_id name2 number2 expiration_year2
                  cvv2 expiration_month2 first.2 in
  first.1 = Raise e ∧
  tbl_order (db first.2) !! order_id = Some (Order.set_credit_card k order) ∧
  tbl_credit_card_details (db first.2) !! k = Some fields1 ∧
  tbl_transaction (db first.2) = tbl_transaction (db w) ∧
  (∃ v, second.1 = Ok v ∧ OrderDict.transaction v = Some td) ∧
  tbl_transaction (db second.2)
  = <[TransactionDict.id td :=
        Transaction.mk (TransactionDict.success td)
                       (TransactionDict.amount_charged td)]>
      (tbl_transaction (db w)) ∧
  size (tbl_transaction (db second.2)) = S (size (tbl_transaction (db w))) ∧
  tbl_order (db second.2) !! order_id
  = Some (Order.set_transaction (TransactionDict.id td)
            (Order.set_credit_card k order)) ∧
  tbl_credit_card_details (db second.2) !! k = Some fields2 ∧
  charged second.2
  = charged w ++ [charge_request fields1 amount; charge_request fields2 amount].
Proof.
  intros Ho Hd Ht Hi Hm1 Hm2 fields1 fields2 amount k He Htd Hfresh first second.
  pose proof (check_expiration_month_true _ Hm1) as Hck1.
  pose proof (check_expiration_month_true _ Hm2) as Hck2.
  assert (Hc : resolves (tbl_credit_card_details (db w))
                 (Order.credit_card order)).
  { destruct (get_order_Ok _ _ _ Hd) as (o & ? & ? & ? & ? & Ho' & Hl & _).
    assert (o = order) as -> by congruence. by destruct Hl. }
  set (order1 := Order.set_credit_card k order).
  set (s1 := card_saved (db w) order_id order fields1).
  set (w1 := mkWorld s1 (charged w ++ [charge_request fields1 amount])).
  destruct (get_order_card_saved _ _ _ fields1 _ Ho Hd)
    as (d1 & Hd1 & Ht1 & Hp1). fold s1 in Hd1.
  assert (Hfirst : first = (Raise e, w1)).
  { unfold first.
    rewrite (put_order_credit_card_run _ _ _ _ _ _ _ _ Ho Hc), Hi, Hck1.
    rewrite settle_run by exact Hi. cbn [db charged]. fold fields1 s1. rewrite Hd1.
    rewrite Ht1, Ht, Hp1. cbv zeta. fold amount. by rewrite He. }
  assert (Ho1 : tbl_order (db w1) !! order_id = Some order1).
  { unfold w1, s1, card_saved. simpl. by rewrite lookup_insert_eq. }
  assert (Hk1 : tbl_credit_card_details (db w1) !! k = Some fields1).
  { unfold w1, s1, card_saved. simpl. by rewrite lookup_insert_eq. }
  assert (Hc1 : resolves (tbl_credit_card_details (db w1))
                  (Order.credit_card order1)).
  { simpl. fold k. rewrite lookup_insert_eq. eauto. }
  set (s2 := card_saved (db w1) order_id order1 fields2).
  destruct (get_order_card_saved _ _ _ fields2 _ Ho1 Hd1)
    as (d2 & Hd2 & Ht2 & Hp2). fold s2 in Hd2.
  assert (Hkey : card_key (db w1) order1 = k) by done.
  assert (Horder : Order.set_credit_card k order1 = order1) by done.
  set (s3 := transaction_saved s2 order_id order1 td).
  assert (Hsecond : second
                    = (get_order order_id s3,
                       mkWorld s3 (charged w1 ++ [charge_request fields2 amount]))).
  { unfold second. rewrite Hfirst. cbn [snd].
    rewrite (put_order_credit_card_run _ _ _ _ _ _ _ _ Ho1 Hc1).
    change (in_transaction (db w1)) with (in_transaction (db w)).
    rewrite Hi, Hck2.
    rewrite settle_run by exact Hi. cbn [db charged]. fold fields2.
    rewrite Hkey, Horder. fold s2. rewrite Hd2.
    rewrite Ht2, Ht1, Ht, Hp2, Hp1. cbv zeta. fold amount.
    change (charged w1) with (charged w ++ [charge_request fields1 amount]).
    rewrite Htd.
    change (tbl_transaction s2) with (tbl_transaction (db w)).
    by rewrite Hfresh. }
  assert (Hl3 : ∃ v, get_order order_id s3 = Ok v).
  { destruct (get_order_Ok _ _ _ Hd2)
      as (o & poq & product & wgt & tpt & Ho2 & Hl2 & Hw2 & Htax2 & _).
    assert (o = order1) as ->.
    { unfold s2, card_saved in Ho2. simpl in Ho2.
      rewrite lookup_insert_eq in Ho2. by injection Ho2 as <-. }
    eexists.
    apply (get_order_linked s3 order_id
             (Order.set_transaction (TransactionDict.id td) order1)
             poq product wgt tpt);
      [|by apply linked_transaction_saved|done|exact Htax2].
    unfold s3, transaction_saved. simpl. by rewrite lookup_insert_eq. }
  rewrite Hfirst, Hsecond. cbn [fst snd db charged].
  split_and!; try done.
  - destruct Hl3 as [v Hv]. exists v. split; [done|].
    by apply get_order_transaction_saved in Hv.
  - unfold s3, transaction_saved. simpl. by rewrite map_size_insert_None.
  - unfold s3, transaction_saved. simpl. by rewrite lookup_insert_eq.
  - unfold s3, transaction_saved, s2, card_saved. simpl.
    by rewrite lookup_insert_eq.
  - unfold w1. simpl. by rewrite <- app_assoc.
Qed.

(** ** Shipping information submitted twice *)


(** ** New orders *)

Lemma check_quantity_true quantity :
  quantity > 0 → check_quantity quantity = true.
Proof. intros Hq. unfold check_quantity. by rewrite bool_decide_eq_true_2. Qed.

Lemma add_order_run w product_id quantity :
  add_order product_id quantity w
  = match tbl_product (db w) !! product_id with
    | None => (Raise DoesNotExist, w)
    | Some _ =>
        if check_quantity quantity
        then let kq := next_id (tbl_product_order_quantity (db w)) in
             let ko := next_id (tbl_order (db w)) in
             (Ok ko,
              mkWorld
                (with_order <[ko := Order.mk kq None None None None false]>
                   (with_product_order_quantity
                      <[kq := ProductOrderQuantity.mk product_id quantity]>
                      (db w)))
                (charged w))
        else (Raise IntegrityError, w)
    end.
Proof.
  unfold add_order, bind, query, fk.
  destruct (tbl_product (db w) !! product_id); [|done]. simpl.
  unfold insert_product_order_quantity. simpl.
  destruct (check_quantity quantity); done.
Qed.

(** The part of C5 that the code has: for an existing product with a weight
    and a quantity above 0, [add_order] returns the key of an order for
    which [get_order] returns, with that product id, that quantity, and
    the float of the price of the product times the quantity as
    [total_price]. *)
Lemma add_order_then_get_order w product_id quantity product wgt :
  tbl_product (db w) !! product_id = Some product →
  Product.weight product = Some wgt →
  quantity > 0 →
  ∃ order_id w' v,
    add_order product_id quantity w = (Ok order_id, w') ∧
    get_order order_id (db w') = Ok v ∧
    OrderDict.product v = ProductDict.mk product_id quantity ∧
    OrderDict.total_price v
    = py_float (Product.price product * Qc_of_Z quantity)%Qc.
Proof.
  intros Hp Hw Hq. rewrite add_order_run, Hp, (check_quantity_true _ Hq).
  do 3 eexists. split; [reflexivity|]. simpl.
  split; [|split].
  - eapply (get_order_linked _ _ (Order.mk _ None None None None false)
              (ProductOrderQuantity.mk product_id quantity) product _ None);
      [|split; simpl|exact Hw|reflexivity]; try done.
    + simpl. by rewrite lookup_insert_eq.
    + by rewrite lookup_insert_eq.
  - done.
  - done.
Qed.

(** For a product without a weight the new order cannot be read. *)
Lemma add_order_then_get_order_no_weight w product_id quantity product :
  tbl_product (db w) !! product_id = Some product →
  Product.weight product = None →
  quantity > 0 →
  ∃ order_id w',
    add_order product_id quantity w = (Ok order_id, w') ∧
    get_order order_id (db w') = Raise TypeError.
Proof.
  intros Hp Hw Hq. rewrite add_order_run, Hp, (check_quantity_true _ Hq).
  do 2 eexists. split; [reflexivity|]. simpl.
  eapply (get_order_linked_no_weight _ _
            (Order.mk _ None None None None false)
            (ProductOrderQuantity.mk product_id quantity) product None);
    [|split; simpl|exact Hw|reflexivity]; try done.
  - simpl. by rewrite lookup_insert_eq.
  - by rewrite lookup_insert_eq.
Qed.

(** ** The paid flag *)

Lemma paid_kept_refl s : paid_kept s s.
Proof. split; [eauto|]. intros k o' Ho' Hn. congruence. Qed.

Lemma paid_kept_trans s1 s2 s3 :
  paid_kept s1 s2 → paid_kept s2 s3 → paid_kept s1 s3.
Proof.
  intros [H12 N12] [H23 N23]. split.
  - intros k o Ho. destruct (H12 _ _ Ho) as (o2 & Ho2 & E2).
    destruct (H23 _ _ Ho2) as (o3 & Ho3 & E3). exists o3. split; congruence.
  - intros k o3 Ho3 Hn.
    destruct (tbl_order s2 !! k) as [o2|] eqn:Ho2.
    + destruct (H23 _ _ Ho2) as (o3' & Ho3' & E3).
      assert (o3' = o3) as -> by congruence.
      rewrite E3. eauto.
    + eauto.
Qed.

Lemma paid_kept_same s s' : tbl_order s' = tbl_order s → paid_kept s s'.
Proof.
  intros E. split.
  - intros k o Ho. exists o. by rewrite E.
  - intros k o' Ho' Hn. congruence.
Qed.

Lemma paid_kept_update s s' k o o' :
  tbl_order s !! k = Some o →
  Order.paid o' = Order.paid o →
  tbl_order s' = <[k := o']> (tbl_order s) →
  paid_kept s s'.
Proof.
  intros Ho Hp E. split.
  - intros j oj Hj. rewrite E. destruct (decide (k = j)) as [->|Hne].
    + rewrite lookup_insert_eq. exists o'. split; congruence.
    + rewrite lookup_insert_ne by done. eauto.
  - intros j oj Hj Hn. rewrite E in Hj. destruct (decide (k = j)) as [->|Hne].
    + congruence.
    + rewrite lookup_insert_ne in Hj by done. congruence.
Qed.

Lemma paid_kept_insert s s' k o' :
  tbl_order s !! k = None →
  Order.paid o' = false →
  tbl_order s' = <[k := o']> (tbl_order s) →
  paid_kept s s'.
Proof.
  intros Ho Hp E. split.
  - intros j oj Hj. rewrite E. destruct (decide (k = j)) as [->|Hne].
    + congruence.
    + rewrite lookup_insert_ne by done. eauto.
  - intros j oj Hj Hn. rewrite E in Hj. destruct (decide (k = j)) as [->|Hne].
    + rewrite lookup_insert_eq in Hj. congruence.
    + rewrite lookup_insert_ne in Hj by done. congruence.
Qed.

Lemma add_order_paid_kept w product_id quantity :
  paid_kept (db w) (db (add_order product_id quantity w).2).
Proof.
  rewrite add_order_run.
  destruct (tbl_product (db w) !! product_id); [|apply paid_kept_refl].
  destruct (check_quantity quantity); [|apply paid_kept_refl].
  eapply paid_kept_insert; [apply next_id_fresh| |reflexivity]. done.
Qed.

Lemma put_order_shipping_information_paid_kept
    w order_id email country address postal_code city province :
  paid_kept (db w)
    (db (put_order_shipping_information order_id email country address
           postal_code city province w).2).
Proof.
  destruct (tbl_order (db w) !! order_id) as [order|] eqn:Ho.
  - destruct (resolves_dec (tbl_shipping_information (db w))
                (Order.shipping_information order)) as [Hs|Hs].
    + rewrite (put_order_shipping_information_run _ _ _ _ _ _ _ _ _ Ho Hs).
      eapply paid_kept_update; [exact Ho| |reflexivity]. done.
    + unfold put_order_shipping_information, bind, query.
      rewrite (find_order_Some _ _ _ Ho), Hs. apply paid_kept_refl.
  - unfold put_order_shipping_information, bind, query.
    rewrite (find_order_None _ _ Ho). apply paid_kept_refl.
Qed.

Lemma put_order_credit_card_paid_kept
    w order_id name number expiration_year cvv expiration_month :
  paid_kept (db w)
    (db (put_order_credit_card order_id name number expiration_year cvv
           expiration_month w).2).
Proof.
  destruct (tbl_order (db w) !! order_id) as [order|] eqn:Ho.
  - destruct (resolves_dec (tbl_credit_card_details (db w))
                (Order.credit_card order)) as [Hc|Hc].
    + rewrite (put_order_credit_card_run _ _ _ _ _ _ _ _ Ho Hc).
      destruct (in_transaction (db w)) eqn:Hi; [apply paid_kept_refl|].
      destruct (check_expiration_month expiration_month);
        [|exact (paid_kept_refl (db w))].
      set (fields := CreditCardDetails.mk _ _ _ _ _).
      set (s1 := card_saved (db w) order_id order fields).
      assert (H1 : paid_kept (db w) s1).
      { eapply paid_kept_update; [exact Ho| |reflexivity]. done. }
      rewrite settle_run by exact Hi. cbn [db charged].
      destruct (get_order order_id s1) as [d|e]; [|exact H1].
      destruct (OrderDict.total_price_tax d) as [t|]; [|exact H1].
      cbv zeta. destruct (charge _ _) as [td|e]; [|exact H1].
      destruct (tbl_transaction s1 !! TransactionDict.id td); [exact H1|].
      cbn [snd db]. eapply paid_kept_trans; [exact H1|].
      eapply (paid_kept_update s1 _ order_id
                (Order.set_credit_card (card_key (db w) order) order)
                (Order.set_transaction (TransactionDict.id td)
                   (Order.set_credit_card (card_key (db w) order) order)));
        [|done|reflexivity].
      unfold s1, card_saved. simpl. by rewrite lookup_insert_eq.
    + unfold put_order_credit_card, bind, query.
      rewrite (find_order_Some _ _ _ Ho), Hc. apply paid_kept_refl.
  - unfold put_order_credit_card, bind, query.
    rewrite (find_order_None _ _ Ho). apply paid_kept_refl.
Qed.

Lemma serve_paid_kept rs w : paid_kept (db w) (db (serve rs w)).
Proof.
  revert w. induction rs as [|r rs IH]; intros w; simpl.
  - apply paid_kept_refl.
  - eapply paid_kept_trans; [|apply IH].
    destruct r; simpl.
    + apply add_order_paid_kept.
    + apply put_order_shipping_information_paid_kept.
    + apply put_order_credit_card_paid_kept.
Qed.

(** C8. Whatever sequence of [add_order], [put_order_shipping_information]
    and [put_order_credit_card] calls is served, the orders that existed
    keep their [paid] flag and the orders created by the sequence have
    [paid = false]; so when no order is paid at the start no order is paid
    at the end, and [get_order] reports [paid = false] for every order,
    whatever its transaction section says. *)
Theorem paid_is_never_set (rs : list request) (w : World) :
  (∀ k o, tbl_order (db w) !! k = Some o →
     ∃ o', tbl_order (db (serve rs w)) !! k = Some o' ∧
           Order.paid o' = Order.paid o) ∧
  (∀ k o', tbl_order (db (serve rs w)) !! k = Some o' →
     tbl_order (db w) !! k = None → Order.paid o' = false) ∧
  ((∀ k o, tbl_order (db w) !! k = Some o → Order.paid o = false) →
   (∀ k o', tbl_order (db (serve rs w)) !! k = Some o' →
      Order.paid o' = false) ∧
   (∀ k v, get_order k (db (serve rs w)) = Ok v → OrderDict.paid v = false)).
Proof.
  destruct (serve_paid_kept rs w) as [Hold Hnew].
  split_and!; [done..|].
  intros Hw.
  assert (Hall : ∀ k o', tbl_order (db (serve rs w)) !! k = Some o' →
                         Order.paid o' = false).
  { intros k o' Ho'. destruct (tbl_order (db w) !! k) as [o|] eqn:Ho.
    - destruct (Hold _ _ Ho) as (o'' & Ho'' & E).
      assert (o'' = o') as -> by congruence. rewrite E. eauto.
    - eauto. }
  split; [done|].
  intros k v Hv.
  destruct (get_order_Ok _ _ _ Hv) as (o & ? & ? & ? & ? & Ho & _ & _ & _ & ->).
  simpl. eauto.
Qed.

(** ** Referential integrity is an invariant

    None of the three operations deletes a row or writes a key that points
    nowhere: when every order is linked before a sequence of calls, every
    order is linked after it. *)

Lemma grows_refl s : grows s s.
Proof. by split. Qed.

Lemma grows_trans s1 s2 s3 : grows s1 s2 → grows s2 s3 → grows s1 s3.
Proof.
  intros [P1 Q1 C1 S1 T1] [P2 Q2 C2 S2 T2]. split; eauto. congruence.
Qed.

Lemma linked_grows s s' order poq product :
  grows s s' → linked s order poq product → linked s' order poq product.
Proof.
  intros [P Q C S T] [Hq Hp Hc Hs Ht]. split.
  - eauto.
  - by rewrite P.
  - destruct (Order.credit_card order); simpl in *; eauto.
  - destruct (Order.shipping_information order); simpl in *; eauto.
  - destruct (Order.transaction order); simpl in *; eauto.
Qed.

Lemma all_linked_write s s' k o' :
  all_linked s →
  grows s s' →
  tbl_order s' = <[k := o']> (tbl_order s) →
  (∃ poq product, linked s' o' poq product) →
  all_linked s'.
Proof.
  intros Hall Hg E Hnew j o Hj. rewrite E in Hj.
  destruct (decide (k = j)) as [->|Hne].
  - rewrite lookup_insert_eq in Hj. by injection Hj as <-.
  - rewrite lookup_insert_ne in Hj by done.
    destruct (Hall _ _ Hj) as (poq & product & Hl).
    exists poq, product. by eapply linked_grows.
Qed.

Lemma grows_set_in_transaction b s : grows s (set_in_transaction b s).
Proof. by split. Qed.

Lemma all_linked_set_in_transaction b s :
  all_linked s → all_linked (set_in_transaction b s).
Proof.
  intros Hall k order Hk. destruct (Hall k order Hk) as (poq & product & Hl).
  exists poq, product. by apply linked_set_in_transaction.
Qed.

Lemma grows_shipping_saved s order_id order email fields :
  grows s (shipping_saved s order_id order email fields).
Proof.
  split; simpl; try done.
  intros k Hk. apply lookup_insert_is_Some'. by right.
Qed.

Lemma grows_card_saved s order_id order fields :
  grows s (card_saved s order_id order fields).
Proof.
  split; simpl; try done.
  intros k Hk. apply lookup_insert_is_Some'. by right.
Qed.

Lemma grows_transaction_saved s order_id order d :
  grows s (transaction_saved s order_id order d).
Proof.
  split; simpl; try done.
  intros k Hk. apply lookup_insert_is_Some'. by right.
Qed.

Lemma add_order_all_linked w product_id quantity :
  all_linked (db w) → all_linked (db (add_order product_id quantity w).2).
Proof.
  intros Hall. rewrite add_order_run.
  destruct (tbl_product (db w) !! product_id) as [product|] eqn:Hp; [|done].
  destruct (check_quantity quantity); [|done]. cbn [snd db].
  set (kq := next_id (tbl_product_order_quantity (db w))).
  set (s1 := with_product_order_quantity
               <[kq := ProductOrderQuantity.mk product_id quantity]> (db w)).
  assert (Hg : grows (db w) s1).
  { split; simpl; try done. intros k x Hk.
    rewrite lookup_insert_ne; [done|]. intros E.
    rewrite <- E in Hk. unfold kq in Hk. by rewrite next_id_fresh in Hk. }
  eapply (all_linked_write (db w)); [done| |reflexivity|].
  - split; simpl; try done; apply Hg.
  - exists (ProductOrderQuantity.mk product_id quantity), product.
    split; simpl; try done. by rewrite lookup_insert_eq.
Qed.

Lemma put_order_shipping_information_all_linked
    w order_id email country address postal_code city province :
  all_linked (db w) →
  all_linked
    (db (put_order_shipping_information order_id email country address
           postal_code city province w).2).
Proof.
  intros Hall.
  destruct (tbl_order (db w) !! order_id) as [order|] eqn:Ho.
  - destruct (Hall _ _ Ho) as (poq & product & Hl).
    rewrite (put_order_shipping_information_run _ _ _ _ _ _ _ _ _ Ho
               (linked_shipping _ _ _ _ Hl)).
    cbn [snd db].
    eapply (all_linked_write (db w)); [done| |reflexivity|].
    + apply grows_shipping_saved.
    + exists poq, product. by apply linked_shipping_saved.
  - unfold put_order_shipping_information, bind, query.
    by rewrite (find_order_None _ _ Ho).
Qed.

Lemma put_order_credit_card_all_linked
    w order_id name number expiration_year cvv expiration_month :
  all_linked (db w) →
  all_linked
    (db (put_order_credit_card order_id name number expiration_year cvv
           expiration_month w).2).
Proof.
  intros Hall.
  destruct (tbl_order (db w) !! order_id) as [order|] eqn:Ho.
  - destruct (Hall _ _ Ho) as (poq & product & Hl).
    rewrite (put_order_credit_card_run _ _ _ _ _ _ _ _ Ho
               (linked_card _ _ _ _ Hl)).
    destruct (in_transaction (db w)) eqn:Hi; [done|].
    destruct (check_expiration_month expiration_month);
      [|by apply all_linked_set_in_transaction].
    set (fields := CreditCardDetails.mk _ _ _ _ _).
    set (order1 := Order.set_credit_card (card_key (db w) order) order).
    set (s1 := card_saved (db w) order_id order fields).
    pose proof (linked_card_saved _ order_id _ _ _ fields Hl) as Hl1.
    fold order1 s1 in Hl1.
    assert (H1 : all_linked s1).
    { eapply (all_linked_write (db w)); [done| |reflexivity|].
      - apply grows_card_saved.
      - by exists poq, product. }
    rewrite settle_run by exact Hi. cbn [db charged].
    destruct (get_order order_id s1) as [d|e]; [|exact H1].
    destruct (OrderDict.total_price_tax d) as [t|]; [|exact H1].
    cbv zeta. destruct (charge _ _) as [td|e]; [|exact H1].
    destruct (tbl_transaction s1 !! TransactionDict.id td);
      [by apply all_linked_set_in_transaction|].
    cbn [snd db].
    eapply (all_linked_write s1); [done| |reflexivity|].
    + apply grows_transaction_saved.
    + exists poq, product. by apply linked_transaction_saved.
  - unfold put_order_credit_card, bind, query.
    by rewrite (find_order_None _ _ Ho).
Qed.

Lemma serve_all_linked rs w :
  all_linked (db w) → all_linked (db (serve rs w)).
Proof.
  revert w. induction rs as [|r rs IH]; intros w Hall; simpl; [done|].
  apply IH. destruct r; simpl.
  - by apply add_order_all_linked.
  - by apply put_order_shipping_information_all_linked.
  - by apply put_order_credit_card_all_linked.
Qed.

(** ** Only orders with shipping information are settled

    A Transaction is linked only after [get_order] has returned a price
    with tax: in the stores that the operations build from a store without
    orders, an order without shipping information has no transaction. *)

Lemma settled_with_shipping_write s s' k o' :
  settled_with_shipping s →
  tbl_order s' = <[k := o']> (tbl_order s) →
  (is_Some (Order.transaction o') → is_Some (Order.shipping_information o')) →
  settled_with_shipping s'.
Proof.
  intros Hinv E Hnew j o Hj. rewrite E in Hj.
  destruct (decide (k = j)) as [->|Hne].
  - rewrite lookup_insert_eq in Hj. by injection Hj as <-.
  - rewrite lookup_insert_ne in Hj by done. eauto.
Qed.

Lemma add_order_settled_with_shipping w product_id quantity :
  settled_with_shipping (db w) →
  settled_with_shipping (db (add_order product_id quantity w).2).
Proof.
  intros Hinv. rewrite add_order_run.
  destruct (tbl_product (db w) !! product_id); [|done].
  destruct (check_quantity quantity); [|done]. cbn [snd db].
  eapply (settled_with_shipping_write (db w)); [done|reflexivity|].
  simpl. by intros [? [=]].
Qed.

Lemma put_order_shipping_information_settled_with_shipping
    w order_id email country address postal_code city province :
  settled_with_shipping (db w) →
  settled_with_shipping
    (db (put_order_shipping_information order_id email country address
           postal_code city province w).2).
Proof.
  intros Hinv.
  destruct (tbl_order (db w) !! order_id) as [order|] eqn:Ho.
  - destruct (resolves_dec (tbl_shipping_information (db w))
                (Order.shipping_information order)) as [Hs|Hs].
    + rewrite (put_order_shipping_information_run _ _ _ _ _ _ _ _ _ Ho Hs).
      cbn [snd db].
      eapply (settled_with_shipping_write (db w)); [done|reflexivity|].
      simpl. eauto.
    + unfold put_order_shipping_information, bind, query.
      by rewrite (find_order_Some _ _ _ Ho), Hs.
  - unfold put_order_shipping_information, bind, query.
    by rewrite (find_order_None _ _ Ho).
Qed.

Lemma put_order_credit_card_settled_with_shipping
    w order_id name number expiration_year cvv expiration_month :
  settled_with_shipping (db w) →
  settled_with_shipping
    (db (put_order_credit_card order_id name number expiration_year cvv
           expiration_month w).2).
Proof.
  intros Hinv.
  destruct (tbl_order (db w) !! order_id) as [order|] eqn:Ho.
  - destruct (resolves_dec (tbl_credit_card_details (db w))
                (Order.credit_card order)) as [Hc|Hc].
    + rewrite (put_order_credit_card_run _ _ _ _ _ _ _ _ Ho Hc).
      destruct (in_transaction (db w)) eqn:Hi; [done|].
      destruct (check_expiration_month expiration_month); [|exact Hinv].
      set (fields := CreditCardDetails.mk _ _ _ _ _).
      set (order1 := Order.set_credit_card (card_key (db w) order) order).
      set (s1 := card_saved (db w) order_id order fields).
      assert (Ho1 : tbl_order s1 !! order_id = Some order1).
      { unfold s1, card_saved. simpl. by rewrite lookup_insert_eq. }
      assert (H1 : settled_with_shipping s1).
      { eapply (settled_with_shipping_write (db w)); [done|reflexivity|].
        simpl. eauto. }
      rewrite settle_run by exact Hi. cbn [db charged].
      destruct (get_order order_id s1) as [d|e] eqn:Hd; [|exact H1].
      destruct (OrderDict.total_price_tax d) as [t|] eqn:Ht; [|exact H1].
      cbv zeta. destruct (charge _ _) as [td|e]; [|exact H1].
      destruct (tbl_transaction s1 !! TransactionDict.id td); [exact H1|].
      cbn [snd db].
      eapply (settled_with_shipping_write s1); [done|reflexivity|].
      intros _. simpl.
      exact (total_price_tax_Some _ _ _ _ _ Ho1 Hd Ht).
    + unfold put_order_credit_card, bind, query.
      by rewrite (find_order_Some _ _ _ Ho), Hc.
  - unfold put_order_credit_card, bind, query.
    by rewrite (find_order_None _ _ Ho).
Qed.

Lemma serve_settled_with_shipping rs w :
  settled_with_shipping (db w) → settled_with_shipping (db (serve rs w)).
Proof.
  revert w. induction rs as [|r rs IH]; intros w Hinv; simpl; [done|].
  apply IH. destruct r; simpl.
  - by apply add_order_settled_with_shipping.
  - by apply put_order_shipping_information_settled_with_shipping.
  - by apply put_order_credit_card_settled_with_shipping.
Qed.

(** ** The catalogue *)

Lemma product_referenced_true s k poq :
  tbl_product_order_quantity s !! k = Some poq →
  is_Some (tbl_product s !! ProductOrderQuantity.pid poq) →
  product_referenced s = true.
Proof.
  intros Hk Hp. unfold product_referenced. apply existsb_exists.
  exists (k, poq). split.
  - apply list_elem_of_In. by apply elem_of_map_to_list.
  - simpl. by apply bool_decide_eq_true_2.
Qed.

Lemma product_referenced_false s :
  (∀ k poq, tbl_product_order_quantity s !! k = Some poq →
            tbl_product s !! ProductOrderQuantity.pid poq = None) →
  product_referenced s = false.
Proof.
  intros Hnone. destruct (product_referenced s) eqn:E; [|done].
  unfold product_referenced in E. apply existsb_exists in E.
  destruct E as ([k poq] & Hin & Hp).
  apply list_elem_of_In, elem_of_map_to_list in Hin.
  apply bool_decide_eq_true_1 in Hp. simpl in Hp.
  rewrite (Hnone _ _ Hin) in Hp. by destruct Hp.
Qed.

Lemma get_products_insert s k row :
  tbl_product s !! k = None →
  get_products (with_product <[k := row]> s)
  ≡ₚ serialize_product k row :: get_products s.
Proof.
  intros Hk. unfold get_products. simpl.
  by rewrite (map_to_list_insert _ _ _ Hk).
Qed.

(** A product that passes the checks and whose key is free is added to the
    catalogue: [add_product] returns, the new row is stored under the
    given key (under a new one when none is given), [get_products] lists
    it beside the products listed before, and nothing else is written. *)
Theorem add_product_is_listed
    (w : World) (name : string) (in_stock : bool) (description : option string)
    (price : Qc) (weight : option Z) (image : string) (id : option Z) :
  (0 < price)%Qc →
  (∀ wv, weight = Some wv → wv > 0) →
  (∀ k, id = Some k → tbl_product (db w) !! k = None) →
  let k := from_option (λ k, k) (next_id (tbl_product (db w))) id in
  let row := Product.mk name in_stock description price weight image in
  let r := add_product name in_stock description price weight image id w in
  r.1 = Ok tt ∧
  tbl_product (db w) !! k = None ∧
  r.2 = mkWorld (with_product <[k := row]> (db w)) (charged w) ∧
  get_products (db r.2) ≡ₚ serialize_product k row :: get_products (db w).
Proof.
  intros Hprice Hweight Hid k row r.
  assert (Hk : tbl_product (db w) !! k = None).
  { unfold k. destruct id as [j|]; simpl; [by apply Hid|apply next_id_fresh]. }
  assert (Hr : r = (Ok tt, mkWorld (with_product <[k := row]> (db w)) (charged w))).
  { unfold r, add_product, check_price, check_weight.
    rewrite bool_decide_eq_true_2 by done.
    assert (match weight with
            | Some wv => bool_decide (wv > 0)
            | None => true
            end = true) as ->.
    { destruct weight as [wv|]; [|done]. apply bool_decide_eq_true_2. eauto. }
    simpl. unfold k in *. destruct id as [j|]; simpl in *; [|done].
    by rewrite Hk. }
  rewrite Hr. simpl. split_and!; try done.
  by apply get_products_insert.
Qed.

(** A product with a price that is not above 0, with a weight that is not
    above 0, or under a key in use is refused: [add_product] raises
    [IntegrityError] and writes nothing. *)
Theorem add_product_refused
    (w : World) (name : string) (in_stock : bool) (description : option string)
    (price : Qc) (weight : option Z) (image : string) (id : option Z) :
  (price ≤ 0)%Qc ∨
  (∃ wv, weight = Some wv ∧ wv ≤ 0) ∨
  (∃ k, id = Some k ∧ is_Some (tbl_product (db w) !! k)) →
  add_product name in_stock description price weight image id w
  = (Raise IntegrityError, w).
Proof.
  intros H. unfold add_product, check_price, check_weight.
  destruct H as [Hp|[(wv & -> & Hw)|(k & -> & [row Hk])]].
  - rewrite bool_decide_eq_false_2; [done|]. by apply Qcle_not_lt.
  - rewrite (bool_decide_eq_false_2 (wv > 0)) by lia.
    by rewrite andb_false_r.
  - destruct (_ && _); [|done]. by rewrite Hk.
Qed.

(** Where foreign keys are not enforced, or no line item points to a
    product, [drop_products] returns and empties the catalogue:
    [get_products] is empty, the other tables are the ones before, and
    [add_order] then raises [DoesNotExist] for every product id and writes
    nothing. *)
Theorem drop_products_empties_catalogue
    (w : World) (foreign_keys : bool) (product_id quantity : Z) :
  foreign_keys = false ∨
  (∀ k poq, tbl_product_order_quantity (db w) !! k = Some poq →
            tbl_product (db w) !! ProductOrderQuantity.pid poq = None) →
  let r := drop_products foreign_keys w in
  r.1 = Ok tt ∧
  r.2 = mkWorld (with_product (λ _, ∅) (db w)) (charged w) ∧
  get_products (db r.2) = [] ∧
  add_order product_id quantity r.2 = (Raise DoesNotExist, r.2).
Proof.
  intros H r.
  assert (Hr : r = (Ok tt, mkWorld (with_product (λ _, ∅) (db w)) (charged w))).
  { unfold r, drop_products. destruct H as [->|H]; [done|].
    by rewrite (product_referenced_false _ H), andb_false_r. }
  rewrite Hr. cbn [fst snd]. split_and!.
  - done.
  - done.
  - unfold get_products. simpl. by rewrite map_to_list_empty.
  - rewrite add_order_run. simpl. by rewrite lookup_empty.
Qed.

(** Where foreign keys are enforced and a line item points to a product,
    [drop_products] raises [IntegrityError] and deletes nothing. *)
Theorem drop_products_refused
    (w : World) (k : Z) (poq : ProductOrderQuantity.t) :
  tbl_product_order_quantity (db w) !! k = Some poq →
  is_Some (tbl_product (db w) !! ProductOrderQuantity.pid poq) →
  drop_products true w = (Raise IntegrityError, w).
Proof.
  intros Hk Hp. unfold drop_products.
  by rewrite (product_referenced_true _ _ _ Hk Hp).
Qed.

(** Where foreign keys are not enforced, [drop_products] leaves the orders
    and their line items in place without their products: [get_order]
    then raises [DoesNotExist] for every order that has its line item. *)
Theorem drop_products_breaks_orders
    (w : World) (order_id : Z) (order : Order.t) (poq : ProductOrderQuantity.t) :
  tbl_order (db w) !! order_id = Some order →
  tbl_product_order_quantity (db w) !! Order.product order = Some poq →
  let r := drop_products false w in
  r.1 = Ok tt ∧
  tbl_order (db r.2) !! order_id = Some order ∧
  get_order order_id (db r.2) = Raise DoesNotExist.
Proof.
  intros Ho Hq r. unfold r, drop_products. simpl. split_and!; try done.
  unfold get_order. rewrite (find_order_Some _ _ order); [|done]. simpl.
  unfold fk at 1. simpl. rewrite Hq. simpl.
  unfold fk at 1. simpl. by rewrite lookup_empty.
Qed.

(** ** More on new orders *)

(** [add_order] is all or nothing. For an unknown product it raises
    [DoesNotExist], for a known product and a quantity that is not above 0
    it raises [IntegrityError], and in both cases it writes nothing; else
    it returns a key that was not the key of an order, after adding one
    line item and one order under keys that were free, so that no row
    that existed is changed. *)
Theorem add_order_all_or_nothing (w : World) (product_id quantity : Z) :
  let r := add_order product_id quantity w in
  (tbl_product (db w) !! product_id = None → r = (Raise DoesNotExist, w)) ∧
  (is_Some (tbl_product (db w) !! product_id) → quantity ≤ 0 →
   r = (Raise IntegrityError, w)) ∧
  (is_Some (tbl_product (db w) !! product_id) → quantity > 0 →
   ∃ order_id poq_id,
     r.1 = Ok order_id ∧
     tbl_order (db w) !! order_id = None ∧
     tbl_product_order_quantity (db w) !! poq_id = None ∧
     r.2 = mkWorld
             (with_order
                <[order_id := Order.mk poq_id None None None None false]>
                (with_product_order_quantity
                   <[poq_id := ProductOrderQuantity.mk product_id quantity]>
                   (db w)))
             (charged w) ∧
     (∀ j o, tbl_order (db w) !! j = Some o →
             tbl_order (db r.2) !! j = Some o) ∧
     (∀ j q, tbl_product_order_quantity (db w) !! j = Some q →
             tbl_product_order_quantity (db r.2) !! j = Some q)).
Proof.
  intros r. unfold r. rewrite add_order_run. split_and!.
  - by intros ->.
  - intros [p ->] Hq. unfold check_quantity.
    by rewrite bool_decide_eq_false_2 by lia.
  - intros [p ->] Hq. rewrite (check_quantity_true _ Hq).
    exists (next_id (tbl_order (db w))),
           (next_id (tbl_product_order_quantity (db w))).
    cbn [fst snd db]. split_and!; try done; try apply next_id_fresh.
    + intros j o Hj. simpl. rewrite lookup_insert_ne; [done|].
      intros E. rewrite <- E in Hj. by rewrite next_id_fresh in Hj.
    + intros j q Hj. simpl. rewrite lookup_insert_ne; [done|].
      intros E. rewrite <- E in Hj. by rewrite next_id_fresh in Hj.
Qed.

(** [get_order] reads the order, its line item, its product and the rows
    its foreign keys point to, and nothing else. *)
Lemma get_order_ext s s' order_id order :
  tbl_order s !! order_id = Some order →
  tbl_order s' !! order_id = Some order →
  tbl_product_order_quantity s' !! Order.product order
  = tbl_product_order_quantity s !! Order.product order →
  tbl_product s' = tbl_product s →
  fk_null (tbl_credit_card_details s') (Order.credit_card order)
  = fk_null (tbl_credit_card_details s) (Order.credit_card order) →
  fk_null (tbl_shipping_information s') (Order.shipping_information order)
  = fk_null (tbl_shipping_information s) (Order.shipping_information order) →
  fk_null (tbl_transaction s') (Order.transaction order)
  = fk_null (tbl_transaction s) (Order.transaction order) →
  get_order order_id s' = get_order order_id s.
Proof.
  intros Ho Ho' Hq Hp Hc Hs Ht. unfold get_order.
  rewrite (find_order_Some _ _ _ Ho), (find_order_Some _ _ _ Ho'). simpl.
  rewrite Hc, Hs, Ht. unfold fk. by rewrite Hq, Hp.
Qed.

Lemma get_order_after_add_order w product_id quantity order_id order :
  tbl_order (db w) !! order_id = Some order →
  is_Some (tbl_product_order_quantity (db w) !! Order.product order) →
  get_order order_id (db (add_order product_id quantity w).2)
  = get_order order_id (db w).
Proof.
  intros Ho [q Hq]. rewrite add_order_run.
  destruct (tbl_product (db w) !! product_id); [|done].
  destruct (check_quantity quantity); [|done]. cbn [snd db].
  apply (get_order_ext _ _ _ order); simpl; try done.
  - rewrite lookup_insert_ne; [done|].
    intros E. rewrite <- E in Ho. by rewrite next_id_fresh in Ho.
  - rewrite lookup_insert_ne; [done|].
    intros E. rewrite <- E in Hq. by rewrite next_id_fresh in Hq.
Qed.

(** Whatever [add_order] does, the dictionary of an order that existed
    with its line item is the one before. *)
Theorem add_order_keeps_dictionaries
    (w : World) (product_id quantity order_id : Z) (order : Order.t) :
  tbl_order (db w) !! order_id = Some order →
  is_Some (tbl_product_order_quantity (db w) !! Order.product order) →
  get_order order_id (db (add_order product_id quantity w).2)
  = get_order order_id (db w).
Proof. apply get_order_after_add_order. Qed.

(** Two orders made one after the other have different keys, and making
    the second does not change the dictionary of the first. *)
Theorem add_order_twice
    (w : World) (product_id1 quantity1 product_id2 quantity2 : Z) :
  is_Some (tbl_product (db w) !! product_id1) →
  is_Some (tbl_product (db w) !! product_id2) →
  quantity1 > 0 →
  quantity2 > 0 →
  let first := add_order product_id1 quantity1 w in
  let second := add_order product_id2 quantity2 first.2 in
  ∃ k1 k2,
    first.1 = Ok k1 ∧ second.1 = Ok k2 ∧ k1 ≠ k2 ∧
    get_order k1 (db second.2) = get_order k1 (db first.2).
Proof.
  intros [p1 Hp1] [p2 Hp2] Hq1 Hq2 first second.
  set (k1 := next_id (tbl_order (db w))).
  set (kq1 := next_id (tbl_product_order_quantity (db w))).
  set (o1 := Order.mk kq1 None None None None false).
  assert (Hfirst : first
    = (Ok k1,
       mkWorld (with_order <[k1 := o1]>
                  (with_product_order_quantity
                     <[kq1 := ProductOrderQuantity.mk product_id1 quantity1]>
                     (db w)))
               (charged w))).
  { unfold first. by rewrite add_order_run, Hp1, (check_quantity_true _ Hq1). }
  assert (Ho1 : tbl_order (db first.2) !! k1 = Some o1).
  { rewrite Hfirst. simpl. by rewrite lookup_insert_eq. }
  assert (Hq : is_Some (tbl_product_order_quantity (db first.2)
                          !! Order.product o1)).
  { rewrite Hfirst. simpl. rewrite lookup_insert_eq. eauto. }
  exists k1, (next_id (tbl_order (db first.2))). split_and!.
  - by rewrite Hfirst.
  - unfold second. rewrite add_order_run.
    assert (tbl_product (db first.2) !! product_id2 = Some p2) as ->.
    { by rewrite Hfirst. }
    by rewrite (check_quantity_true _ Hq2).
  - intros E. rewrite E in Ho1. by rewrite next_id_fresh in Ho1.
  - unfold second. by apply (get_order_after_add_order _ _ _ _ o1).
Qed.

(** ** More on shipping information *)

Lemma put_order_shipping_information_dangling
    w order_id order email country address postal_code city province :
  tbl_order (db w) !! order_id = Some order →
  fk_null (tbl_shipping_information (db w)) (Order.shipping_information order)
  = Raise DoesNotExist →
  put_order_shipping_information order_id email country address postal_code
    city province w = (Raise DoesNotExist, w).
Proof.
  intros Ho Hs. unfold put_order_shipping_information, bind, query.
  by rewrite (find_order_Some _ _ _ Ho), Hs.
Qed.

(** [put_order_shipping_information] writes the row of the order and its
    shipping row, and nothing else: the gateway is not called, the other
    tables and the other orders are the ones before, a shipping row under
    another key is the one before, and the order keeps its line item, its
    card, its transaction and its paid flag. *)
Theorem put_order_shipping_information_frame
    (w : World) (order_id : Z)
    (email country address postal_code city province : string) :
  let r := put_order_shipping_information order_id email country address
             postal_code city province w in
  charged r.2 = charged w ∧
  tbl_product (db r.2) = tbl_product (db w) ∧
  tbl_product_order_quantity (db r.2) = tbl_product_order_quantity (db w) ∧
  tbl_credit_card_details (db r.2) = tbl_credit_card_details (db w) ∧
  tbl_transaction (db r.2) = tbl_transaction (db w) ∧
  (∀ j, j ≠ order_id → tbl_order (db r.2) !! j = tbl_order (db w) !! j) ∧
  (∀ order, tbl_order (db w) !! order_id = Some order →
     (∀ j, j ≠ shipping_key (db w) order →
           tbl_shipping_information (db r.2) !! j
           = tbl_shipping_information (db w) !! j) ∧
     ∃ order', tbl_order (db r.2) !! order_id = Some order' ∧
               Order.product order' = Order.product order ∧
               Order.credit_card order' = Order.credit_card order ∧
               Order.transaction order' = Order.transaction order ∧
               Order.paid order' = Order.paid order).
Proof.
  intros r. unfold r.
  destruct (tbl_order (db w) !! order_id) as [order|] eqn:Ho.
  - destruct (resolves_dec (tbl_shipping_information (db w))
                (Order.shipping_information order)) as [Hs|Hs].
    + rewrite (put_order_shipping_information_run _ _ _ _ _ _ _ _ _ Ho Hs).
      cbn [snd db charged]. unfold shipping_saved. simpl.
      split_and!; try done.
      * intros j Hj. by rewrite lookup_insert_ne.
      * intros o [= <-]. split.
        -- intros j Hj. by rewrite lookup_insert_ne.
        -- eexists. rewrite lookup_insert_eq. split; [done|]. done.
    + rewrite (put_order_shipping_information_dangling _ _ _ _ _ _ _ _ _ Ho Hs).
      simpl. split_and!; try done.
      intros o [= <-]. split; [done|]. exists order. by rewrite Ho.
  - unfold put_order_shipping_information, bind, query.
    rewrite (find_order_None _ _ Ho). simpl. split_and!; done.
Qed.

(** Submitting the same shipping information a second time changes
    nothing: the second call leaves the world of the first and gives the
    same result. *)
Theorem put_order_shipping_information_idempotent
    (w : World) (order_id : Z)
    (email country address postal_code city province : string) :
  let first := put_order_shipping_information order_id email country address
                 postal_code city province w in
  put_order_shipping_information order_id email country address postal_code
    city province first.2 = first.
Proof.
  intros first. unfold first.
  destruct (tbl_order (db w) !! order_id) as [order|] eqn:Ho.
  - destruct (resolves_dec (tbl_shipping_information (db w))
                (Order.shipping_information order)) as [Hs|Hs].
    + rewrite (put_order_shipping_information_run _ _ _ _ _ _ _ _ _ Ho Hs).
      cbn [snd].
      set (fields := ShippingInformation.mk _ _ _ _ _).
      set (k := shipping_key (db w) order).
      set (order1 := Order.set_email email
                       (Order.set_shipping_information k order)).
      set (s1 := shipping_saved (db w) order_id order email fields).
      assert (Ho1 : tbl_order s1 !! order_id = Some order1).
      { unfold s1, shipping_saved. simpl. by rewrite lookup_insert_eq. }
      assert (Hs1 : resolves (tbl_shipping_information s1)
                      (Order.shipping_information order1)).
      { simpl. fold k. rewrite lookup_insert_eq. eauto. }
      rewrite (put_order_shipping_information_run
                 (mkWorld s1 (charged w)) _ _ _ _ _ _ _ _ Ho1 Hs1).
      cbn [db charged]. fold fields.
      assert (shipping_saved s1 order_id order1 email fields = s1) as ->; [|done].
      unfold shipping_saved at 1.
      change (shipping_key s1 order1) with k.
      change (Order.set_email email (Order.set_shipping_information k order1))
        with order1.
      unfold s1, shipping_saved, with_order, with_shipping_information. simpl.
      fold k order1. by rewrite !insert_insert_eq.
    + by rewrite !(put_order_shipping_information_dangling _ _ _ _ _ _ _ _ _ Ho Hs).
  - unfold put_order_shipping_information, bind, query.
    rewrite (find_order_None _ _ Ho). simpl.
    by rewrite (find_order_None _ _ Ho).
Qed.

(** For an order that [get_order] can read,
    [put_order_shipping_information] saves the submitted email and
    shipping information, whatever it then returns. When [calculate_tax]
    returns a rate for the submitted province, the call returns the
    dictionary that [get_order] returned before the call, with the
    submitted email, the submitted shipping information and
    [rate * total_price + total_price] as price with tax; every other
    field is the one before. When [calculate_tax] raises for the
    province, the call raises the same exception, after its writes. *)
Theorem shipping_information_is_shown
    (w : World) (order_id : Z) (v0 : OrderDict.t)
    (email country address postal_code city province : string) :
  get_order order_id (db w) = Ok v0 →
  let fields :=
    ShippingInformation.mk country address postal_code city province in
  let r := put_order_shipping_information order_id email country address
             postal_code city province w in
  match calculate_tax province with
  | Ok rate =>
      r.1 = Ok {| OrderDict.id := OrderDict.id v0;
                  OrderDict.total_price := OrderDict.total_price v0;
                  OrderDict.total_price_tax :=
                    Some (float_add
                            (float_mul rate (OrderDict.total_price v0))
                            (OrderDict.total_price v0));
                  OrderDict.email := Some email;
                  OrderDict.credit_card := OrderDict.credit_card v0;
                  OrderDict.shipping_information := Some fields;
                  OrderDict.transaction := OrderDict.transaction v0;
                  OrderDict.paid := OrderDict.paid v0;
                  OrderDict.product := OrderDict.product v0;
                  OrderDict.shipping_price := OrderDict.shipping_price v0 |}
  | Raise e => r.1 = Raise e
  end ∧
  ∃ order k,
    tbl_order (db r.2) !! order_id = Some order ∧
    Order.email order = Some email ∧
    Order.shipping_information order = Some k ∧
    tbl_shipping_information (db r.2) !! k = Some fields.
Proof.
  intros Hv0 fields r.
  destruct (get_order_Ok _ _ _ Hv0)
    as (order & poq & product & wgt & t0 & Ho & Hl & Hw & Ht0 & ->).
  unfold r.
  rewrite (put_order_shipping_information_run _ _ _ _ _ _ _ _ _ Ho
             (linked_shipping _ _ _ _ Hl)).
  cbn [fst snd db]. fold fields.
  pose proof (linked_shipping_saved _ order_id _ _ _ email fields Hl) as Hl1.
  assert (Ho1 : tbl_order (shipping_saved (db w) order_id order email fields)
                  !! order_id
                = Some (Order.set_email email
                          (Order.set_shipping_information
                             (shipping_key (db w) order) order))).
  { unfold shipping_saved. simpl. by rewrite lookup_insert_eq. }
  assert (Hk1 : tbl_shipping_information
                  (shipping_saved (db w) order_id order email fields)
                  !! shipping_key (db w) order = Some fields).
  { unfold shipping_saved. simpl. by rewrite lookup_insert_eq. }
  split.
  - rewrite (get_order_linked_tax _ _ _ _ _ _ Ho1 Hl1 Hw).
    assert (shipping_row (shipping_saved (db w) order_id order email fields)
              (Order.set_email email
                 (Order.set_shipping_information
                    (shipping_key (db w) order) order)) = Some fields) as ->.
    { unfold shipping_row. simpl. exact Hk1. }
    unfold with_tax. change (ShippingInformation.province fields) with province.
    destruct (calculate_tax province) as [rate|e]; simpl; [|done].
    f_equal. unfold order_dict, shipping_row, shipping_saved. simpl.
    by rewrite lookup_insert_eq.
  - eexists _, _. split; [exact Ho1|]. split_and!; [done|done|exact Hk1].
Qed.

(** ** More on settlement *)

Lemma set_in_transaction_open s :
  in_transaction s = true → set_in_transaction true s = s.
Proof. destruct s. simpl. by intros ->. Qed.

(** A card whose expiration month is not between 1 and 12 is refused by
    the storage before anything else happens: on a connection outside a
    transaction [put_order_credit_card] raises [IntegrityError], no row is
    written and the gateway is not called; the exception leaves the first
    block before its [db.commit()], so the connection stays inside the
    transaction that the block opened. On a connection that is inside a
    transaction the call raises [OperationalError] at [db.begin()] and
    changes nothing. *)
Theorem card_refused_by_storage
    (w : World) (order_id : Z) (order : Order.t) (name : string)
    (number expiration_year cvv expiration_month : Z) :
  tbl_order (db w) !! order_id = Some order →
  resolves (tbl_credit_card_details (db w)) (Order.credit_card order) →
  ¬ (1 ≤ expiration_month ≤ 12) →
  let r := put_order_credit_card order_id name number expiration_year cvv
             expiration_month w in
  r.1 = (if in_transaction (db w)
         then Raise OperationalError else Raise IntegrityError) ∧
  db r.2 = set_in_transaction true (db w) ∧
  charged r.2 = charged w.
Proof.
  intros Ho Hc Hm r. unfold r.
  rewrite (put_order_credit_card_run _ _ _ _ _ _ _ _ Ho Hc).
  rewrite (check_expiration_month_false _ Hm).
  destruct (in_transaction (db w)) eqn:Hi; cbn [fst snd db charged].
  - by rewrite set_in_transaction_open.
  - done.
Qed.

(** What [put_order_credit_card] does up to the insertion of the
    Transaction, for an order that [get_order] can read with a price with
    tax, a card that the storage accepts and a connection outside a
    transaction. *)
Lemma put_order_credit_card_charges
    w order_id order d t name number expiration_year cvv expiration_month :
  tbl_order (db w) !! order_id = Some order →
  get_order order_id (db w) = Ok d →
  OrderDict.total_price_tax d = Some t →
  in_transaction (db w) = false →
  1 ≤ expiration_month ≤ 12 →
  let fields :=
    CreditCardDetails.mk name number expiration_year cvv expiration_month in
  let req := charge_request fields (float_add t (OrderDict.shipping_price d)) in
  let s1 := card_saved (db w) order_id order fields in
  let order1 := Order.set_credit_card (card_key (db w) order) order in
  put_order_credit_card order_id name number expiration_year cvv
    expiration_month w
  = match charge (charged w) req with
    | Raise e => (Raise e, mkWorld s1 (charged w ++ [req]))
    | Ok td =>
        match tbl_transaction (db w) !! TransactionDict.id td with
        | Some _ =>
            (Raise IntegrityError,
             mkWorld (set_in_transaction true s1) (charged w ++ [req]))
        | None =>
            (get_order order_id (transaction_saved s1 order_id order1 td),
             mkWorld (transaction_saved s1 order_id order1 td)
                     (charged w ++ [req]))
        end
    end.
Proof.
  intros Ho Hd Ht Hi Hm fields req s1 order1.
  assert (Hc : resolves (tbl_credit_card_details (db w))
                 (Order.credit_card order)).
  { destruct (get_order_Ok _ _ _ Hd) as (o & ? & ? & ? & ? & Ho' & Hl & _).
    assert (o = order) as -> by congruence. by destruct Hl. }
  destruct (get_order_card_saved _ _ _ fields _ Ho Hd)
    as (d1 & Hd1 & Ht1 & Hp1). fold s1 in Hd1.
  rewrite (put_order_credit_card_run _ _ _ _ _ _ _ _ Ho Hc), Hi.
  rewrite (check_expiration_month_true _ Hm), settle_run by exact Hi.
  cbn [db charged]. fold fields s1 order1. rewrite Hd1, Ht1, Ht, Hp1.
  cbv zeta. fold req. done.
Qed.

(** The dictionary read back once the card and the Transaction are saved
    is the one before with these two sections replaced. *)
Lemma get_order_settled s order_id order d fields td :
  tbl_order s !! order_id = Some order →
  get_order order_id s = Ok d →
  get_order order_id
    (transaction_saved (card_saved s order_id order fields) order_id
       (Order.set_credit_card (card_key s order) order) td)
  = Ok {| OrderDict.id := OrderDict.id d;
          OrderDict.total_price := OrderDict.total_price d;
          OrderDict.total_price_tax := OrderDict.total_price_tax d;
          OrderDict.email := OrderDict.email d;
          OrderDict.credit_card := Some (card_dict fields);
          OrderDict.shipping_information := OrderDict.shipping_information d;
          OrderDict.transaction := Some td;
          OrderDict.paid := OrderDict.paid d;
          OrderDict.product := OrderDict.product d;
          OrderDict.shipping_price := OrderDict.shipping_price d |}.
Proof.
  intros Ho Hd.
  destruct (get_order_Ok _ _ _ Hd)
    as (o & poq & product & wgt & t & Ho' & Hl & Hw & Ht & ->).
  assert (o = order) as -> by congruence.
  set (order1 := Order.set_credit_card (card_key s order) order).
  set (s1 := card_saved s order_id order fields).
  assert (Hl3 : linked (transaction_saved s1 order_id order1 td)
                  (Order.set_transaction (TransactionDict.id td) order1)
                  poq product).
  { by apply linked_transaction_saved, linked_card_saved. }
  assert (Ho3 : tbl_order (transaction_saved s1 order_id order1 td) !! order_id
                = Some (Order.set_transaction (TransactionDict.id td) order1)).
  { unfold transaction_saved. simpl. by rewrite lookup_insert_eq. }
  rewrite (get_order_linked _ _ _ _ _ _ t Ho3 Hl3 Hw Ht). f_equal.
  unfold order_dict, transaction_saved, s1, card_saved. simpl.
  rewrite !lookup_insert_eq. simpl. by rewrite transaction_dict_eta.
Qed.

(** On a connection outside a transaction, [put_order_credit_card]
    returns for an order that [get_order] reads with a price with tax, a
    card that the storage accepts and a gateway that answers with a
    transaction under an unused id, whether or not the order had a
    transaction before. The gateway has received one call, for
    the price with tax plus the shipping price; the Transaction is stored
    and the order linked to it; the dictionary returned is the one before
    with the masked card and the transaction of the gateway. *)
Theorem put_order_credit_card_settles
    (w : World) (order_id : Z) (order : Order.t) (d : OrderDict.t) (t : float)
    (td : TransactionDict.t) (name : string)
    (number expiration_year cvv expiration_month : Z) :
  tbl_order (db w) !! order_id = Some order →
  get_order order_id (db w) = Ok d →
  OrderDict.total_price_tax d = Some t →
  in_transaction (db w) = false →
  1 ≤ expiration_month ≤ 12 →
  let fields :=
    CreditCardDetails.mk name number expiration_year cvv expiration_month in
  let req := charge_request fields (float_add t (OrderDict.shipping_price d)) in
  charge (charged w) req = Ok td →
  tbl_transaction (db w) !! TransactionDict.id td = None →
  let r := put_order_credit_card order_id name number expiration_year cvv
             expiration_month w in
  r.1 = Ok {| OrderDict.id := OrderDict.id d;
              OrderDict.total_price := OrderDict.total_price d;
              OrderDict.total_price_tax := OrderDict.total_price_tax d;
              OrderDict.email := OrderDict.email d;
              OrderDict.credit_card := Some (card_dict fields);
              OrderDict.shipping_information := OrderDict.shipping_information d;
              OrderDict.transaction := Some td;
              OrderDict.paid := OrderDict.paid d;
              OrderDict.product := OrderDict.product d;
              OrderDict.shipping_price := OrderDict.shipping_price d |} ∧
  charged r.2 = charged w ++ [req] ∧
  tbl_transaction (db r.2)
  = <[TransactionDict.id td :=
        Transaction.mk (TransactionDict.success td)
                       (TransactionDict.amount_charged td)]>
      (tbl_transaction (db w)) ∧
  tbl_order (db r.2) !! order_id
  = Some (Order.set_transaction (TransactionDict.id td)
            (Order.set_credit_card (card_key (db w) order) order)) ∧
  in_transaction (db r.2) = false.
Proof.
  intros Ho Hd Ht Hi Hm fields req Htd Hfresh r. unfold r.
  rewrite (put_order_credit_card_charges _ _ _ _ _ _ _ _ _ _ Ho Hd Ht Hi Hm).
  fold fields req. rewrite Htd, Hfresh. cbn [fst snd db charged].
  split_and!.
  - by apply get_order_settled.
  - done.
  - done.
  - unfold transaction_saved. simpl. by rewrite lookup_insert_eq.
  - exact Hi.
Qed.

(** When the gateway answers with a transaction whose id is already the
    key of a Transaction, the call raises [IntegrityError] after the
    gateway has been called: the card is saved, and neither the
    Transaction table nor the transaction link of the order records the
    charge. The exception leaves the second block before its
    [db.commit()]: the connection, which was outside a transaction, stays
    inside the one that the block opened. *)
Theorem duplicate_transaction_id
    (w : World) (order_id : Z) (order : Order.t) (d : OrderDict.t) (t : float)
    (td : TransactionDict.t) (name : string)
    (number expiration_year cvv expiration_month : Z) :
  tbl_order (db w) !! order_id = Some order →
  get_order order_id (db w) = Ok d →
  OrderDict.total_price_tax d = Some t →
  in_transaction (db w) = false →
  1 ≤ expiration_month ≤ 12 →
  let fields :=
    CreditCardDetails.mk name number expiration_year cvv expiration_month in
  let req := charge_request fields (float_add t (OrderDict.shipping_price d)) in
  charge (charged w) req = Ok td →
  is_Some (tbl_transaction (db w) !! TransactionDict.id td) →
  let r := put_order_credit_card order_id name number expiration_year cvv
             expiration_month w in
  r.1 = Raise IntegrityError ∧
  charged r.2 = charged w ++ [req] ∧
  tbl_transaction (db r.2) = tbl_transaction (db w) ∧
  tbl_order (db r.2) !! order_id
  = Some (Order.set_credit_card (card_key (db w) order) order) ∧
  tbl_credit_card_details (db r.2) !! card_key (db w) order = Some fields ∧
  in_transaction (db r.2) = true.
Proof.
  intros Ho Hd Ht Hi Hm fields req Htd [row Hrow] r. unfold r.
  rewrite (put_order_credit_card_charges _ _ _ _ _ _ _ _ _ _ Ho Hd Ht Hi Hm).
  fold fields req. rewrite Htd, Hrow. cbn [fst snd db charged].
  unfold card_saved. simpl. by rewrite !lookup_insert_eq.
Qed.

(** Nothing prevents an order from being settled twice: on a connection
    outside a transaction, when the gateway answers two calls of
    [put_order_credit_card] with transactions under different unused ids,
    it has been called twice, both Transactions are stored, and the order
    is linked to the second. *)
Theorem settled_twice
    (w : World) (order_id : Z) (order : Order.t) (d : OrderDict.t) (t : float)
    (td1 td2 : TransactionDict.t)
    (name1 : string) (number1 expiration_year1 cvv1 expiration_month1 : Z)
    (name2 : string) (number2 expiration_year2 cvv2 expiration_month2 : Z) :
  tbl_order (db w) !! order_id = Some order →
  get_order order_id (db w) = Ok d →
  OrderDict.total_price_tax d = Some t →
  in_transaction (db w) = false →
  1 ≤ expiration_month1 ≤ 12 →
  1 ≤ expiration_month2 ≤ 12 →
  let fields1 := CreditCardDetails.mk name1 number1 expiration_year1 cvv1
                   expiration_month1 in
  let fields2 := CreditCardDetails.mk name2 number2 expiration_year2 cvv2
                   expiration_month2 in
  let amount := float_add t (OrderDict.shipping_price d) in
  charge (charged w) (charge_request fields1 amount) = Ok td1 →
  charge (charged w ++ [charge_request fields1 amount])
         (charge_request fields2 amount) = Ok td2 →
  tbl_transaction (db w) !! TransactionDict.id td1 = None →
  tbl_transaction (db w) !! TransactionDict.id td2 = None →
  TransactionDict.id td1 ≠ TransactionDict.id td2 →
  let first := put_order_credit_card order_id name1 number1 expiration_year1
                 cvv1 expiration_month1 w in
  let second := put_order_credit_card order_id name2 number2 expiration_year2
                  cvv2 expiration_month2 first.2 in
  (∃ v1, first.1 = Ok v1 ∧ OrderDict.transaction v1 = Some td1) ∧
  (∃ v2, second.1 = Ok v2 ∧ OrderDict.transaction v2 = Some td2) ∧
  charged second.2
  = charged w ++ [charge_request fields1 amount; charge_request fields2 amount] ∧
  tbl_transaction (db second.2) !! TransactionDict.id td1
  = Some (Transaction.mk (TransactionDict.success td1)
                         (TransactionDict.amount_charged td1)) ∧
  tbl_transaction (db second.2) !! TransactionDict.id td2
  = Some (Transaction.mk (TransactionDict.success td2)
                         (TransactionDict.amount_charged td2)) ∧
  size (tbl_transaction (db second.2))
  = S (S (size (tbl_transaction (db w)))) ∧
  Order.transaction <$> tbl_order (db second.2) !! order_id
  = Some (Some (TransactionDict.id td2)).
Proof.
  intros Ho Hd Ht Hi Hm1 Hm2 fields1 fields2 amount Htd1 Htd2 Hf1 Hf2 Hne
         first second.
  set (k := card_key (db w) order).
  set (order1 := Order.set_credit_card k order).
  set (s1 := card_saved (db w) order_id order fields1).
  set (order3 := Order.set_transaction (TransactionDict.id td1) order1).
  set (s3 := transaction_saved s1 order_id order1 td1).
  set (w3 := mkWorld s3 (charged w ++ [charge_request fields1 amount])).
  assert (Hfirst : first = (get_order order_id s3, w3)).
  { unfold first.
    rewrite (put_order_credit_card_charges _ _ _ _ _ _ _ _ _ _ Ho Hd Ht Hi Hm1).
    fold fields1 amount. by rewrite Htd1, Hf1. }
  pose proof (get_order_settled _ _ _ _ fields1 td1 Ho Hd) as Hd3.
  fold k order1 s1 s3 in Hd3.
  assert (Ho3 : tbl_order (db w3) !! order_id = Some order3).
  { unfold w3, s3, transaction_saved. simpl. by rewrite lookup_insert_eq. }
  assert (Hf2' : tbl_transaction (db w3) !! TransactionDict.id td2 = None).
  { unfold w3, s3, transaction_saved. simpl.
    by rewrite lookup_insert_ne. }
  set (order4 := Order.set_credit_card (card_key (db w3) order3) order3).
  set (s4 := card_saved (db w3) order_id order3 fields2).
  set (s5 := transaction_saved s4 order_id order4 td2).
  assert (Hsecond : second
            = (get_order order_id s5,
               mkWorld s5 (charged w3 ++ [charge_request fields2 amount]))).
  { unfold second. rewrite Hfirst. cbn [snd].
    rewrite (put_order_credit_card_charges w3 _ _ _ t _ _ _ _ _ Ho3 Hd3 Ht
               Hi Hm2).
    cbn [OrderDict.shipping_price]. fold fields2 amount.
    change (charged w3) with (charged w ++ [charge_request fields1 amount]).
    by rewrite Htd2, Hf2'. }
  pose proof (get_order_settled _ _ _ _ fields2 td2 Ho3 Hd3) as Hd5.
  fold order4 s4 s5 in Hd5.
  rewrite Hfirst, Hsecond. cbn [fst snd db charged].
  split_and!.
  - eexists. split; [exact Hd3|done].
  - eexists. split; [exact Hd5|done].
  - unfold w3. simpl. by rewrite <- app_assoc.
  - unfold s5, transaction_saved. simpl.
    rewrite lookup_insert_ne by done. by rewrite lookup_insert_eq.
  - unfold s5, transaction_saved. simpl. by rewrite lookup_insert_eq.
  - unfold s5, transaction_saved. simpl.
    rewrite map_size_insert_None; [|by rewrite lookup_insert_ne].
    by rewrite map_size_insert_None.
  - unfold s5, transaction_saved. simpl. by rewrite lookup_insert_eq.
Qed.

(** The card of an order that exists, on a connection outside a
    transaction, whatever the gateway does next; the connection is left
    inside a transaction only by a gateway answer under an id in use. *)
Lemma put_order_credit_card_card
    w order_id order name number expiration_year cvv expiration_month :
  tbl_order (db w) !! order_id = Some order →
  resolves (tbl_credit_card_details (db w)) (Order.credit_card order) →
  in_transaction (db w) = false →
  1 ≤ expiration_month ≤ 12 →
  let k := card_key (db w) order in
  let r := put_order_credit_card order_id name number expiration_year cvv
             expiration_month w in
  tbl_credit_card_details (db r.2)
  = <[k := CreditCardDetails.mk name number expiration_year cvv
             expiration_month]> (tbl_credit_card_details (db w)) ∧
  (∃ order', tbl_order (db r.2) !! order_id = Some order' ∧
             Order.credit_card order' = Some k) ∧
  (in_transaction (db r.2) = true →
   ∃ req td, charged r.2 = charged w ++ [req] ∧
             charge (charged w) req = Ok td ∧
             is_Some (tbl_transaction (db w) !! TransactionDict.id td)).
Proof.
  intros Ho Hc Hi Hm k r. unfold r.
  rewrite (put_order_credit_card_run _ _ _ _ _ _ _ _ Ho Hc), Hi.
  rewrite (check_expiration_month_true _ Hm), settle_run by exact Hi.
  cbn [db charged].
  set (fields := CreditCardDetails.mk _ _ _ _ _).
  set (s1 := card_saved (db w) order_id order fields).
  assert (H1 : tbl_credit_card_details s1
               = <[k := fields]> (tbl_credit_card_details (db w)) ∧
               ∃ order', tbl_order s1 !! order_id = Some order' ∧
                         Order.credit_card order' = Some k).
  { unfold s1, card_saved. simpl. split; [done|].
    eexists. rewrite lookup_insert_eq. done. }
  assert (Hi1 : in_transaction s1 = false) by exact Hi.
  destruct H1 as [H1 H2].
  destruct (get_order order_id s1) as [d|e];
    [|split_and!; [done|done|cbn [snd db]; congruence]].
  destruct (OrderDict.total_price_tax d) as [t|];
    [|split_and!; [done|done|cbn [snd db]; congruence]].
  cbv zeta. destruct (charge _ _) as [td|e] eqn:Htd;
    [|split_and!; [done|done|cbn [snd db]; congruence]].
  destruct (tbl_transaction s1 !! TransactionDict.id td) eqn:Hrow.
  - split_and!; [done|done|]. intros _. eexists _, td.
    split; [reflexivity|]. split; [exact Htd|]. eauto.
  - cbn [snd db]. unfold transaction_saved. simpl. split_and!; [done| |].
    + eexists. rewrite lookup_insert_eq. done.
    + congruence.
Qed.

(** Two submissions of a card for an order, with cards that the storage
    accepts, on a connection outside a transaction. After the first
    submission the order is linked to a card row that holds the first
    card, whatever the gateway did. If the first call has left the
    connection outside a transaction, the second submission overwrites
    that row with the second card and adds no card row. The first call
    leaves the connection inside a transaction only when the gateway
    answered it under an id in use: then the second call raises
    [OperationalError] at [db.begin()], writes nothing, and the row still
    holds the first card. *)
Theorem credit_card_resubmitted
    (w : World) (order_id : Z) (order : Order.t)
    (name1 : string) (number1 expiration_year1 cvv1 expiration_month1 : Z)
    (name2 : string) (number2 expiration_year2 cvv2 expiration_month2 : Z) :
  tbl_order (db w) !! order_id = Some order →
  resolves (tbl_credit_card_details (db w)) (Order.credit_card order) →
  in_transaction (db w) = false →
  1 ≤ expiration_month1 ≤ 12 →
  1 ≤ expiration_month2 ≤ 12 →
  let k := card_key (db w) order in
  let first := put_order_credit_card order_id name1 number1 expiration_year1
                 cvv1 expiration_month1 w in
  let second := put_order_credit_card order_id name2 number2 expiration_year2
                  cvv2 expiration_month2 first.2 in
  Order.credit_card <$> tbl_order (db first.2) !! order_id = Some (Some k) ∧
  tbl_credit_card_details (db first.2) !! k
  = Some (CreditCardDetails.mk name1 number1 expiration_year1 cvv1
            expiration_month1) ∧
  (in_transaction (db first.2) = false →
   Order.credit_card <$> tbl_order (db second.2) !! order_id = Some (Some k) ∧
   tbl_credit_card_details (db second.2) !! k
   = Some (CreditCardDetails.mk name2 number2 expiration_year2 cvv2
             expiration_month2) ∧
   dom (tbl_credit_card_details (db second.2))
   = dom (tbl_credit_card_details (db first.2)) ∧
   size (tbl_credit_card_details (db second.2))
   = size (tbl_credit_card_details (db first.2))) ∧
  (in_transaction (db first.2) = true →
   (∃ req td, charged first.2 = charged w ++ [req] ∧
              charge (charged w) req = Ok td ∧
              is_Some (tbl_transaction (db w) !! TransactionDict.id td)) ∧
   second = (Raise OperationalError, first.2)).
Proof.
  intros Ho Hc Hi Hm1 Hm2 k first second.
  destruct (put_order_credit_card_card w order_id order name1 number1
              expiration_year1 cvv1 expiration_month1 Ho Hc Hi Hm1)
    as (Hcc1 & (o1 & Ho1 & Hk1) & Hstuck).
  fold k first in Hcc1, Ho1, Hk1, Hstuck.
  assert (Hc1 : resolves (tbl_credit_card_details (db first.2))
                  (Order.credit_card o1)).
  { rewrite Hk1, Hcc1. simpl. rewrite lookup_insert_eq. eauto. }
  split_and!.
  - by rewrite Ho1, <- Hk1.
  - by rewrite Hcc1, lookup_insert_eq.
  - intros Hi1.
    destruct (put_order_credit_card_card first.2 order_id o1 name2 number2
                expiration_year2 cvv2 expiration_month2 Ho1 Hc1 Hi1 Hm2)
      as (Hcc2 & (o2 & Ho2 & Hk2) & _). fold second in Hcc2, Ho2, Hk2.
    assert (Hkey : card_key (db first.2) o1 = k).
    { unfold card_key at 1. by rewrite Hk1. }
    rewrite Hkey in Hcc2, Hk2.
    rewrite Ho2, Hcc2, Hcc1. simpl. rewrite Hk2.
    rewrite !lookup_insert_eq, insert_insert_eq, !dom_insert_L.
    split_and!; try done.
    rewrite <- (insert_insert_eq (tbl_credit_card_details (db w)) k
                  (CreditCardDetails.mk name2 number2 expiration_year2 cvv2
                     expiration_month2)
                  (CreditCardDetails.mk name1 number1 expiration_year1 cvv1
                     expiration_month1)) at 1.
    apply map_size_insert_Some. rewrite lookup_insert_eq. eauto.
  - intros Hi1. split; [by apply Hstuck|].
    unfold second.
    rewrite (put_order_credit_card_run _ _ _ _ _ _ _ _ Ho1 Hc1).
    by rewrite Hi1.
Qed.

(** ** Rows are kept

    None of the three operations deletes a row, changes a line item or a
    stored Transaction, or clears a link of an order. *)

Lemma evolves_refl o : evolves o o.
Proof. by split. Qed.

Lemma evolves_trans o1 o2 o3 : evolves o1 o2 → evolves o2 o3 → evolves o1 o3.
Proof.
  intros [P1 D1 C1 S1 T1] [P2 D2 C2 S2 T2]. split; eauto; congruence.
Qed.

Lemma rows_kept_refl s : rows_kept s s.
Proof. split; eauto using evolves_refl. Qed.

Lemma rows_kept_trans s1 s2 s3 :
  rows_kept s1 s2 → rows_kept s2 s3 → rows_kept s1 s3.
Proof.
  intros [O1 Q1 T1 P1] [O2 Q2 T2 P2]. split; eauto; [|congruence].
  intros j o Ho. destruct (O1 _ _ Ho) as (o2 & Ho2 & E2).
  destruct (O2 _ _ Ho2) as (o3 & Ho3 & E3).
  exists o3. split; [done|]. by eapply evolves_trans.
Qed.

Lemma rows_kept_set_in_transaction b s s' :
  rows_kept s s' → rows_kept s (set_in_transaction b s').
Proof. intros [O Q T P]. by split. Qed.

Lemma rows_kept_write s s' k o o' :
  tbl_order s !! k = Some o →
  evolves o o' →
  tbl_order s' = <[k := o']> (tbl_order s) →
  tbl_product_order_quantity s' = tbl_product_order_quantity s →
  (∀ j t, tbl_transaction s !! j = Some t → tbl_transaction s' !! j = Some t) →
  tbl_product s' = tbl_product s →
  rows_kept s s'.
Proof.
  intros Ho He Eo Eq Ht Ep. split; [|by rewrite Eq|done|done].
  intros j oj Hj. rewrite Eo. destruct (decide (k = j)) as [->|Hne].
  - rewrite lookup_insert_eq. exists o'. split; [done|]. congruence.
  - rewrite lookup_insert_ne by done. eauto using evolves_refl.
Qed.

Lemma rows_kept_shipping_saved s order_id order email fields :
  tbl_order s !! order_id = Some order →
  rows_kept s (shipping_saved s order_id order email fields).
Proof.
  intros Ho. eapply rows_kept_write; [exact Ho| |reflexivity|done..].
  split; simpl; try done.
  intros k Hk. unfold shipping_key. by rewrite Hk.
Qed.

Lemma rows_kept_card_saved s order_id order fields :
  tbl_order s !! order_id = Some order →
  rows_kept s (card_saved s order_id order fields).
Proof.
  intros Ho. eapply rows_kept_write; [exact Ho| |reflexivity|done..].
  split; simpl; try done.
  intros k Hk. unfold card_key. by rewrite Hk.
Qed.

Lemma rows_kept_transaction_saved s order_id order td :
  tbl_order s !! order_id = Some order →
  tbl_transaction s !! TransactionDict.id td = None →
  rows_kept s (transaction_saved s order_id order td).
Proof.
  intros Ho Hfresh.
  eapply rows_kept_write; [exact Ho| |reflexivity|done| |done].
  - split; simpl; eauto.
  - intros j t Hj. simpl. rewrite lookup_insert_ne; [done|]. congruence.
Qed.

Lemma add_order_rows_kept w product_id quantity :
  rows_kept (db w) (db (add_order product_id quantity w).2).
Proof.
  rewrite add_order_run.
  destruct (tbl_product (db w) !! product_id); [|apply rows_kept_refl].
  destruct (check_quantity quantity); [|apply rows_kept_refl].
  cbn [snd db]. split; simpl; try done.
  - intros j o Hj. exists o. split; [|apply evolves_refl].
    rewrite lookup_insert_ne; [done|].
    intros E. rewrite <- E in Hj. by rewrite next_id_fresh in Hj.
  - intros j q Hj. rewrite lookup_insert_ne; [done|].
    intros E. rewrite <- E in Hj. by rewrite next_id_fresh in Hj.
Qed.

Lemma put_order_shipping_information_rows_kept
    w order_id email country address postal_code city province :
  rows_kept (db w)
    (db (put_order_shipping_information order_id email country address
           postal_code city province w).2).
Proof.
  destruct (tbl_order (db w) !! order_id) as [order|] eqn:Ho.
  - destruct (resolves_dec (tbl_shipping_information (db w))
                (Order.shipping_information order)) as [Hs|Hs].
    + rewrite (put_order_shipping_information_run _ _ _ _ _ _ _ _ _ Ho Hs).
      by apply rows_kept_shipping_saved.
    + rewrite (put_order_shipping_information_dangling _ _ _ _ _ _ _ _ _ Ho Hs).
      apply rows_kept_refl.
  - unfold put_order_shipping_information, bind, query.
    rewrite (find_order_None _ _ Ho). apply rows_kept_refl.
Qed.

Lemma put_order_credit_card_rows_kept
    w order_id name number expiration_year cvv expiration_month :
  rows_kept (db w)
    (db (put_order_credit_card order_id name number expiration_year cvv
           expiration_month w).2).
Proof.
  destruct (tbl_order (db w) !! order_id) as [order|] eqn:Ho.
  - destruct (resolves_dec (tbl_credit_card_details (db w))
                (Order.credit_card order)) as [Hc|Hc].
    + rewrite (put_order_credit_card_run _ _ _ _ _ _ _ _ Ho Hc).
      destruct (in_transaction (db w)) eqn:Hi; [apply rows_kept_refl|].
      destruct (check_expiration_month expiration_month);
        [|apply rows_kept_set_in_transaction, rows_kept_refl].
      set (fields := CreditCardDetails.mk _ _ _ _ _).
      set (order1 := Order.set_credit_card (card_key (db w) order) order).
      set (s1 := card_saved (db w) order_id order fields).
      pose proof (rows_kept_card_saved _ _ _ fields Ho) as H1. fold s1 in H1.
      assert (Ho1 : tbl_order s1 !! order_id = Some order1).
      { unfold s1, card_saved. simpl. by rewrite lookup_insert_eq. }
      rewrite settle_run by exact Hi. cbn [db charged].
      destruct (get_order order_id s1) as [d|e]; [|exact H1].
      destruct (OrderDict.total_price_tax d) as [t|]; [|exact H1].
      cbv zeta. destruct (charge _ _) as [td|e]; [|exact H1].
      destruct (tbl_transaction s1 !! TransactionDict.id td) eqn:Hfresh;
        [by apply rows_kept_set_in_transaction|].
      cbn [snd db]. eapply rows_kept_trans; [exact H1|].
      by apply rows_kept_transaction_saved.
    + unfold put_order_credit_card, bind, query.
      rewrite (find_order_Some _ _ _ Ho), Hc. apply rows_kept_refl.
  - unfold put_order_credit_card, bind, query.
    rewrite (find_order_None _ _ Ho). apply rows_kept_refl.
Qed.

Lemma serve_rows_kept rs w : rows_kept (db w) (db (serve rs w)).
Proof.
  revert w. induction rs as [|r rs IH]; intros w; simpl.
  - apply rows_kept_refl.
  - eapply rows_kept_trans; [|apply IH].
    destruct r; simpl.
    + apply add_order_rows_kept.
    + apply put_order_shipping_information_rows_kept.
    + apply put_order_credit_card_rows_kept.
Qed.

(** Whatever sequence of calls is served: every order is still there,
    with the same line item and the same paid flag, linked to the same
    card row and the same shipping row if it was linked to one, and with
    a transaction if it had one; every line item and every stored
    Transaction is unchanged; the products are the same. *)
Theorem rows_are_kept (rs : list request) (w : World) :
  rows_kept (db w) (db (serve rs w)).
Proof. apply serve_rows_kept. Qed.

(** ** Orders stay readable *)

Lemma put_order_credit_card_shipping
    w order_id name number expiration_year cvv expiration_month :
  let r := put_order_credit_card order_id name number expiration_year cvv
             expiration_month w in
  tbl_shipping_information (db r.2) = tbl_shipping_information (db w) ∧
  ∀ j o', tbl_order (db r.2) !! j = Some o' →
    ∃ o, tbl_order (db w) !! j = Some o ∧
         Order.shipping_information o' = Order.shipping_information o.
Proof.
  intros r. unfold r.
  assert (Hsame : ∀ s', tbl_shipping_information s'
                        = tbl_shipping_information (db w) →
                        tbl_order s' = tbl_order (db w) →
            tbl_shipping_information s' = tbl_shipping_information (db w) ∧
            ∀ j o', tbl_order s' !! j = Some o' →
              ∃ o, tbl_order (db w) !! j = Some o ∧
                   Order.shipping_information o'
                   = Order.shipping_information o).
  { intros s' Hs Ho. split; [done|]. intros j o' Hj. exists o'.
    by rewrite <- Ho. }
  destruct (tbl_order (db w) !! order_id) as [order|] eqn:Ho.
  2:{ unfold put_order_credit_card, bind, query.
      rewrite (find_order_None _ _ Ho). by apply Hsame. }
  destruct (resolves_dec (tbl_credit_card_details (db w))
              (Order.credit_card order)) as [Hc|Hc].
  2:{ unfold put_order_credit_card, bind, query.
      rewrite (find_order_Some _ _ _ Ho), Hc. by apply Hsame. }
  rewrite (put_order_credit_card_run _ _ _ _ _ _ _ _ Ho Hc).
  destruct (in_transaction (db w)) eqn:Hi; [by apply Hsame|].
  destruct (check_expiration_month expiration_month); [|by apply Hsame].
  set (fields := CreditCardDetails.mk _ _ _ _ _).
  set (order1 := Order.set_credit_card (card_key (db w) order) order).
  set (s1 := card_saved (db w) order_id order fields).
  assert (H1 : tbl_shipping_information s1 = tbl_shipping_information (db w) ∧
               ∀ j o', tbl_order s1 !! j = Some o' →
                 ∃ o, tbl_order (db w) !! j = Some o ∧
                      Order.shipping_information o'
                      = Order.shipping_information o).
  { split; [done|]. intros j o' Hj. unfold s1, card_saved in Hj.
    simpl in Hj. destruct (decide (order_id = j)) as [<-|Hne].
    - rewrite lookup_insert_eq in Hj. injection Hj as <-. by exists order.
    - rewrite lookup_insert_ne in Hj by done. by exists o'. }
  rewrite settle_run by exact Hi. cbn [db charged].
  destruct (get_order order_id s1) as [d|e]; [|exact H1].
  destruct (OrderDict.total_price_tax d) as [t|]; [|exact H1].
  cbv zeta. destruct (charge _ _) as [td|e]; [|exact H1].
  destruct (tbl_transaction s1 !! TransactionDict.id td); [exact H1|].
  cbn [snd db]. split; [done|]. intros j o' Hj.
  unfold transaction_saved in Hj. simpl in Hj.
  destruct (decide (order_id = j)) as [<-|Hne].
  - rewrite lookup_insert_eq in Hj. injection Hj as <-. by exists order.
  - rewrite !lookup_insert_ne in Hj by done. by exists o'.
Qed.

(** A call that submits no province unknown to [calculate_tax] keeps the
    province of the shipping row of every order known to it. *)
Lemma handle_shipping_taxable r w order_id :
  taxable_request r →
  shipping_taxable (db w) order_id →
  shipping_taxable (db (handle r w)) order_id.
Proof.
  intros Hr Hinv.
  destruct r as [product_id quantity
                |order_id' email country address postal_code city province
                |order_id' name number expiration_year cvv expiration_month];
    simpl.
  - rewrite add_order_run.
    destruct (tbl_product (db w) !! product_id); [|done].
    destruct (check_quantity quantity); [|done]. cbn [snd db].
    intros order si Ho Hsi. simpl in Ho.
    destruct (decide (next_id (tbl_order (db w)) = order_id)) as [E|Hne].
    + rewrite E, lookup_insert_eq in Ho. injection Ho as <-. discriminate.
    + rewrite lookup_insert_ne in Ho by done. by apply (Hinv order si).
  - destruct (tbl_order (db w) !! order_id') as [order'|] eqn:Ho'.
    2:{ unfold put_order_shipping_information, bind, query.
        by rewrite (find_order_None _ _ Ho'). }
    destruct (resolves_dec (tbl_shipping_information (db w))
                (Order.shipping_information order')) as [Hs|Hs].
    2:{ unfold put_order_shipping_information, bind, query.
        by rewrite (find_order_Some _ _ _ Ho'), Hs. }
    rewrite (put_order_shipping_information_run _ _ _ _ _ _ _ _ _ Ho' Hs).
    cbn [snd db]. intros order si Ho Hsi.
    unfold shipping_saved in Ho, Hsi. unfold shipping_row in Hsi.
    simpl in Ho, Hsi.
    destruct (decide (order_id' = order_id)) as [E|Hne].
    + rewrite E, lookup_insert_eq in Ho. injection Ho as <-.
      simpl in Hsi. rewrite lookup_insert_eq in Hsi. by injection Hsi as <-.
    + rewrite lookup_insert_ne in Ho by done.
      destruct (Order.shipping_information order) as [j|] eqn:Hj;
        simpl in Hsi; [|done].
      destruct (decide (shipping_key (db w) order' = j)) as [<-|Hnk].
      * rewrite lookup_insert_eq in Hsi. by injection Hsi as <-.
      * rewrite lookup_insert_ne in Hsi by done.
        apply (Hinv order si Ho). unfold shipping_row. by rewrite Hj.
  - destruct (put_order_credit_card_shipping w order_id' name number
                expiration_year cvv expiration_month) as [Ht Hos].
    intros order si Ho Hsi.
    destruct (Hos _ _ Ho) as (o & Ho0 & E).
    apply (Hinv o si Ho0). unfold shipping_row in *. by rewrite <- E, <- Ht.
Qed.

Lemma serve_shipping_taxable rs w order_id :
  Forall taxable_request rs →
  shipping_taxable (db w) order_id →
  shipping_taxable (db (serve rs w)) order_id.
Proof.
  intros Hrs. revert w. induction Hrs as [|r rs Hr Hrs IH]; intros w Hinv;
    simpl; [done|].
  apply IH. by apply handle_shipping_taxable.
Qed.

(** When every order is linked, an order that [get_order] could read can
    still be read after any sequence of calls that submit no province
    unknown to [calculate_tax], and its dictionary shows the same id,
    product, quantity, total price, shipping price and paid flag. *)
Theorem readable_orders_stay_readable
    (rs : list request) (w : World) (order_id : Z) (v : OrderDict.t) :
  all_linked (db w) →
  Forall taxable_request rs →
  get_order order_id (db w) = Ok v →
  ∃ v', get_order order_id (db (serve rs w)) = Ok v' ∧
        OrderDict.id v' = OrderDict.id v ∧
        OrderDict.product v' = OrderDict.product v ∧
        OrderDict.total_price v' = OrderDict.total_price v ∧
        OrderDict.shipping_price v' = OrderDict.shipping_price v ∧
        OrderDict.paid v' = OrderDict.paid v.
Proof.
  intros Hall Hrs Hv.
  destruct (get_order_Ok _ _ _ Hv)
    as (order & poq & product & wgt & t & Ho & Hl & Hw & Ht & ->).
  assert (Hinv : shipping_taxable (db w) order_id).
  { intros o si Ho' Hsi. assert (o = order) as -> by congruence.
    rewrite Hsi in Ht. apply with_tax_Ok in Ht as (tax & Htax & _).
    by exists tax. }
  pose proof (serve_shipping_taxable rs w order_id Hrs Hinv) as Hinv'.
  destruct (serve_rows_kept rs w) as [HO HQ HT HP].
  destruct (HO _ _ Ho) as (order' & Ho' & He).
  destruct (serve_all_linked rs w Hall _ _ Ho') as (poq' & product' & Hl').
  assert (poq' = poq) as ->.
  { destruct Hl as [Hq _ _ _ _], Hl' as [Hq' _ _ _ _].
    rewrite (evolves_product _ _ He) in Hq'.
    rewrite (HQ _ _ Hq) in Hq'. congruence. }
  assert (product' = product) as ->.
  { destruct Hl as [_ Hp _ _ _], Hl' as [_ Hp' _ _ _].
    rewrite HP in Hp'. congruence. }
  destruct (with_tax_taxable (shipping_row (db (serve rs w)) order')
              (total_price_of product poq) (λ si, Hinv' order' si Ho'))
    as [t' Ht'].
  eexists. split; [exact (get_order_linked _ _ _ _ _ _ _ Ho' Hl' Hw Ht')|].
  unfold order_dict. simpl. split_and!; try done.
  apply (evolves_paid _ _ He).
Qed.

(** ** Calls of the gateway *)

Lemma handle_gateway r w :
  ∃ calls,
    charged (handle r w) = charged w ++ calls ∧
    (length calls ≤ (if is_card_request r then 1 else 0))%nat ∧
    (size (tbl_transaction (db (handle r w)))
     ≤ size (tbl_transaction (db w)) + length calls)%nat.
Proof.
  assert (Hsame : ∀ w', charged w' = charged w →
            tbl_transaction (db w') = tbl_transaction (db w) →
            ∃ calls,
              charged w' = charged w ++ calls ∧
              (length calls ≤ (if is_card_request r then 1 else 0))%nat ∧
              (size (tbl_transaction (db w'))
               ≤ size (tbl_transaction (db w)) + length calls)%nat).
  { intros w' Hc Ht. exists []. rewrite Hc, Ht, app_nil_r. simpl.
    split_and!; [done|lia|lia]. }
  destruct r as [product_id quantity
                |order_id email country address postal_code city province
                |order_id name number expiration_year cvv expiration_month];
    simpl.
  - apply Hsame; rewrite add_order_run;
      destruct (tbl_product (db w) !! product_id); try done;
      destruct (check_quantity quantity); done.
  - destruct (tbl_order (db w) !! order_id) as [order|] eqn:Ho.
    + destruct (resolves_dec (tbl_shipping_information (db w))
                  (Order.shipping_information order)) as [Hs|Hs].
      * by apply Hsame;
          rewrite (put_order_shipping_information_run _ _ _ _ _ _ _ _ _ Ho Hs).
      * by apply Hsame;
          rewrite (put_order_shipping_information_dangling
                     _ _ _ _ _ _ _ _ _ Ho Hs).
    + apply Hsame; unfold put_order_shipping_information, bind, query;
        by rewrite (find_order_None _ _ Ho).
  - destruct (tbl_order (db w) !! order_id) as [order|] eqn:Ho.
    + destruct (resolves_dec (tbl_credit_card_details (db w))
                  (Order.credit_card order)) as [Hc|Hc].
      * rewrite (put_order_credit_card_run _ _ _ _ _ _ _ _ Ho Hc).
        destruct (in_transaction (db w)) eqn:Hi; [by apply Hsame|].
        destruct (check_expiration_month expiration_month);
          [|by apply Hsame].
        rewrite settle_run by exact Hi. cbn [db charged].
        set (fields := CreditCardDetails.mk _ _ _ _ _).
        set (s1 := card_saved (db w) order_id order fields).
        destruct (get_order order_id s1) as [d|e]; [|by apply Hsame].
        destruct (OrderDict.total_price_tax d) as [t|]; [|by apply Hsame].
        cbv zeta.
        set (req := charge_request fields
                      (float_add t (OrderDict.shipping_price d))).
        destruct (charge _ _) as [td|e].
        -- destruct (tbl_transaction s1 !! TransactionDict.id td) eqn:Hfresh.
           ++ exists [req]. simpl. split_and!; [done|lia|lia].
           ++ exists [req]. cbn [snd db charged]. split; [done|].
              split; [simpl; lia|].
              unfold transaction_saved. simpl.
              rewrite map_size_insert_None by exact Hfresh. simpl. lia.
        -- exists [req]. simpl. split_and!; [done|lia|lia].
      * apply Hsame; unfold put_order_credit_card, bind, query;
          by rewrite (find_order_Some _ _ _ Ho), Hc.
    + apply Hsame; unfold put_order_credit_card, bind, query;
        by rewrite (find_order_None _ _ Ho).
Qed.

(** The gateway is called at most once for each call of
    [put_order_credit_card], and never by the other operations; the calls
    it has received are kept in order, and no Transaction is stored
    without a call: after any sequence of calls the list of charges is the
    one before followed by at most as many charges as the sequence has
    card submissions, and the Transaction table has grown by at most the
    number of new charges. *)
Theorem serve_gateway_calls (rs : list request) (w : World) :
  ∃ calls,
    charged (serve rs w) = charged w ++ calls ∧
    (length calls ≤ card_requests rs)%nat ∧
    (size (tbl_transaction (db (serve rs w)))
     ≤ size (tbl_transaction (db w)) + length calls)%nat.
Proof.
  revert w. induction rs as [|r rs IH]; intros w; simpl.
  - exists []. rewrite app_nil_r. simpl. split_and!; [done|lia|lia].
  - destruct (handle_gateway r w) as (c1 & E1 & L1 & S1).
    destruct (IH (handle r w)) as (c2 & E2 & L2 & S2).
    exists (c1 ++ c2). rewrite E2, E1, app_assoc, length_app.
    split_and!; [done|lia|lia].
Qed.

(** ** The invariants, for any sequence of calls *)

(** When every order is linked (its line item, its product and the rows
    of the links that are set exist), every order is linked after any
    sequence of calls: the operations never leave a dangling key. *)
Theorem referential_integrity_is_kept (rs : list request) (w : World) :
  all_linked (db w) → all_linked (db (serve rs w)).
Proof. apply serve_all_linked. Qed.

(** When every order with a transaction has shipping information, this
    holds after any sequence of calls: an order is settled only once it
    has shipping information. *)
Theorem only_shipped_orders_are_settled (rs : list request) (w : World) :
  settled_with_shipping (db w) → settled_with_shipping (db (serve rs w)).
Proof. apply serve_settled_with_shipping. Qed.

(** ** The sections of the dictionary *)

(** In the dictionary that [get_order] returns for an order, the id is the
    one asked for, the email and the paid flag are those of the order,
    the product section is the line item, and each of the card, shipping
    and transaction sections is empty exactly when the link of the order
    is not set; otherwise the shipping section is the row linked, the
    transaction section is the stored Transaction with its key as id, and
    the card section is made from the card linked. *)
Theorem get_order_sections
    (s : Store) (order_id : Z) (order : Order.t) (v : OrderDict.t) :
  tbl_order s !! order_id = Some order →
  get_order order_id s = Ok v →
  OrderDict.id v = order_id ∧
  OrderDict.email v = Order.email order ∧
  OrderDict.paid v = Order.paid order ∧
  (∃ poq, tbl_product_order_quantity s !! Order.product order = Some poq ∧
          OrderDict.product v
          = ProductDict.mk (ProductOrderQuantity.pid poq)
                           (ProductOrderQuantity.quantity poq)) ∧
  match Order.credit_card order with
  | None => OrderDict.credit_card v = None
  | Some k => ∃ cc, tbl_credit_card_details s !! k = Some cc ∧
                    OrderDict.credit_card v = Some (card_dict cc)
  end ∧
  match Order.shipping_information order with
  | None => OrderDict.shipping_information v = None
  | Some k => ∃ si, tbl_shipping_information s !! k = Some si ∧
                    OrderDict.shipping_information v = Some si
  end ∧
  match Order.transaction order with
  | None => OrderDict.transaction v = None
  | Some k => ∃ t, tbl_transaction s !! k = Some t ∧
                   OrderDict.transaction v
                   = Some (TransactionDict.mk k (Transaction.success t)
                             (Transaction.amount_charged t))
  end.
Proof.
  intros Ho Hv.
  destruct (get_order_Ok _ _ _ Hv)
    as (o & poq & product & wgt & tpt & Ho' & [Hq Hp Hc Hs Ht] & Hw & _ & ->).
  assert (o = order) as -> by congruence.
  unfold order_dict, shipping_row. simpl. split_and!; try done.
  - by exists poq.
  - destruct (Order.credit_card order) as [k|]; simpl in *; [|done].
    destruct Hc as [cc Hcc]. exists cc. by rewrite Hcc.
  - destruct (Order.shipping_information order) as [k|]; simpl in *; [|done].
    destruct Hs as [si Hsi]. exists si. by rewrite Hsi.
  - destruct (Order.transaction order) as [k|]; simpl in *; [|done].
    destruct Ht as [t Ht]. exists t. by rewrite Ht.
Qed.

(** ** The slices of the card number *)

(** [first_digits] is the beginning and [last_digits] the end of the
    decimal writing of the card number, each of four characters, or of all
    the characters when the number has fewer: a number of at most four
    characters is shown whole in both fields. *)
Theorem masked_digits_are_slices (cc : CreditCardDetails.t) :
  let s := py_str (CreditCardDetails.number cc) in
  let d := card_dict cc in
  String.length (CardDict.first_digits d) = Nat.min 4 (String.length s) ∧
  String.length (CardDict.last_digits d) = Nat.min 4 (String.length s) ∧
  (∃ rest, s = (CardDict.first_digits d +:+ rest)%string) ∧
  (∃ start, s = (start +:+ CardDict.last_digits d)%string) ∧
  ((String.length s ≤ 4)%nat →
   CardDict.first_digits d = s ∧ CardDict.last_digits d = s).
Proof.
  intros s d. unfold d, card_dict.
  cbn [CardDict.first_digits CardDict.last_digits]. fold s.
  unfold first4, last4.
  split_and!.
  - rewrite substring_length. lia.
  - rewrite substring_length. lia.
  - exists (String.substring 4 (String.length s - 4) s).
    by rewrite substring_split.
  - exists (String.substring 0 (String.length s - 4) s).
    destruct (decide (String.length s ≤ 4)%nat) as [Hle|Hgt].
    + replace (String.length s - 4)%nat with 0%nat by lia.
      rewrite (substring_all s 4) by done. by destruct s.
    + rewrite <- (substring_split s (String.length s - 4)) at 1.
      do 2 f_equal. lia.
  - intros Hle. replace (String.length s - 4)%nat with 0%nat by lia.
    by rewrite (substring_all s 4).
Qed.

(** For an existing product with a weight and a quantity above 0, the
    order that [add_order] makes can be read at once: [get_order] returns
    for the key returned, with that key as id, the product id and the
    quantity given, the float of the price of the product times the
    quantity, the shipping price of the weight times the quantity, no
    price with tax, no email, empty card, shipping and transaction
    sections, and [paid = false]. *)
Theorem new_order_dictionary
    (w : World) (product_id quantity : Z) (product : Product.t) (wgt : Z) :
  tbl_product (db w) !! product_id = Some product →
  Product.weight product = Some wgt →
  quantity > 0 →
  let r := add_order product_id quantity w in
  ∃ order_id,
    r.1 = Ok order_id ∧
    get_order order_id (db r.2)
    = Ok {| OrderDict.id := order_id;
            OrderDict.total_price :=
              py_float (Product.price product * Qc_of_Z quantity)%Qc;
            OrderDict.total_price_tax := None;
            OrderDict.email := None;
            OrderDict.credit_card := None;
            OrderDict.shipping_information := None;
            OrderDict.transaction := None;
            OrderDict.paid := false;
            OrderDict.product := ProductDict.mk product_id quantity;
            OrderDict.shipping_price :=
              calculate_shipping_price (wgt * quantity) |}.
Proof.
  intros Hp Hw Hq r. unfold r.
  rewrite add_order_run, Hp, (check_quantity_true _ Hq).
  eexists. split; [reflexivity|]. cbn [snd db].
  erewrite (get_order_linked _ _ (Order.mk _ None None None None false)
              (ProductOrderQuantity.mk product_id quantity) product wgt None);
    [reflexivity| |split; simpl|exact Hw|reflexivity]; try done.
  - simpl. by rewrite lookup_insert_eq.
  - by rewrite lookup_insert_eq.
Qed.

(** ** A whole purchase *)

(** On a connection outside a transaction, an order made for a product
    with a weight, then given shipping information for a province whose
    rate [calculate_tax] returns, then a card that the storage accepts,
    with a gateway that answers under an unused id: the gateway receives
    one call, for the float of the price of the product times the
    quantity, plus the rate times it, plus the shipping price of the
    weight times the quantity, these operations being those of floats in
    that order; and [get_order] then returns the complete dictionary. *)
Theorem purchase_settles
    (w : World) (product_id quantity : Z) (product : Product.t) (wgt : Z)
    (email country address postal_code city province name : string)
    (number expiration_year cvv expiration_month : Z) (rate : float)
    (td : TransactionDict.t) :
  tbl_product (db w) !! product_id = Some product →
  Product.weight product = Some wgt →
  quantity > 0 →
  calculate_tax province = Ok rate →
  in_transaction (db w) = false →
  1 ≤ expiration_month ≤ 12 →
  let order_id := next_id (tbl_order (db w)) in
  let shipping :=
    ShippingInformation.mk country address postal_code city province in
  let card :=
    CreditCardDetails.mk name number expiration_year cvv expiration_month in
  let total := py_float (Product.price product * Qc_of_Z quantity)%Qc in
  let amount :=
    float_add (float_add (float_mul rate total) total)
              (calculate_shipping_price (wgt * quantity)) in
  charge (charged w) (charge_request card amount) = Ok td →
  tbl_transaction (db w) !! TransactionDict.id td = None →
  let w' :=
    serve [ AddOrder product_id quantity;
            PutOrderShippingInformation order_id email country address
              postal_code city province;
            PutOrderCreditCard order_id name number expiration_year cvv
              expiration_month ] w in
  (add_order product_id quantity w).1 = Ok order_id ∧
  charged w' = charged w ++ [charge_request card amount] ∧
  get_order order_id (db w')
  = Ok {| OrderDict.id := order_id;
          OrderDict.total_price := total;
          OrderDict.total_price_tax :=
            Some (float_add (float_mul rate total) total);
          OrderDict.email := Some email;
          OrderDict.credit_card := Some (card_dict card);
          OrderDict.shipping_information := Some shipping;
          OrderDict.transaction := Some td;
          OrderDict.paid := false;
          OrderDict.product := ProductDict.mk product_id quantity;
          OrderDict.shipping_price :=
            calculate_shipping_price (wgt * quantity) |}.
Proof.
  intros Hp Hw Hq Hrate Hi Hm order_id shipping card total amount Htd Hfresh
         w'.
  set (kq := next_id (tbl_product_order_quantity (db w))).
  set (poq := ProductOrderQuantity.mk product_id quantity).
  set (o1 := Order.mk kq None None None None false).
  set (s1 := with_order <[order_id := o1]>
               (with_product_order_quantity <[kq := poq]> (db w))).
  assert (H1 : add_order product_id quantity w
               = (Ok order_id, mkWorld s1 (charged w))).
  { by rewrite add_order_run, Hp, (check_quantity_true _ Hq). }
  assert (Ho1 : tbl_order s1 !! order_id = Some o1).
  { unfold s1. simpl. by rewrite lookup_insert_eq. }
  assert (Hl1 : linked s1 o1 poq product).
  { split; simpl; try done. by rewrite lookup_insert_eq. }
  set (k := shipping_key s1 o1).
  set (o2 := Order.set_email email (Order.set_shipping_information k o1)).
  set (s2 := shipping_saved s1 order_id o1 email shipping).
  assert (H2 : put_order_shipping_information order_id email country address
                 postal_code city province (mkWorld s1 (charged w))
               = (get_order order_id s2, mkWorld s2 (charged w))).
  { by rewrite (put_order_shipping_information_run
                  (mkWorld s1 (charged w)) _ _ _ _ _ _ _ _ Ho1
                  (linked_shipping _ _ _ _ Hl1)). }
  assert (Ho2 : tbl_order s2 !! order_id = Some o2).
  { unfold s2, shipping_saved. simpl. by rewrite lookup_insert_eq. }
  pose proof (linked_shipping_saved _ order_id _ _ _ email shipping Hl1) as Hl2.
  fold k o2 s2 in Hl2.
  assert (Hr2 : shipping_row s2 o2 = Some shipping).
  { unfold shipping_row, s2, shipping_saved. simpl. fold k.
    by rewrite lookup_insert_eq. }
  assert (Ht2 : with_tax (shipping_row s2 o2) (total_price_of product poq)
                = Ok (Some (float_add (float_mul rate total) total))).
  { rewrite Hr2. by apply with_tax_Some. }
  pose proof (get_order_linked _ _ _ _ _ _ _ Ho2 Hl2 Hw Ht2) as Hd2.
  set (d2 := order_dict s2 order_id o2 poq product
               (Some (float_add (float_mul rate total) total))
               (wgt * ProductOrderQuantity.quantity poq)) in Hd2.
  pose proof (put_order_credit_card_charges (mkWorld s2 (charged w)) order_id
                o2 d2 _ name number expiration_year cvv expiration_month
                Ho2 Hd2 eq_refl Hi Hm) as H3.
  cbn [db charged] in H3. fold card in H3.
  change (OrderDict.shipping_price d2)
    with (calculate_shipping_price (wgt * quantity)) in H3.
  fold amount in H3. rewrite Htd in H3.
  change (tbl_transaction s2) with (tbl_transaction (db w)) in H3.
  rewrite Hfresh in H3.
  assert (Hw' : w' = mkWorld
                       (transaction_saved (card_saved s2 order_id o2 card)
                          order_id
                          (Order.set_credit_card (card_key s2 o2) o2) td)
                       (charged w ++ [charge_request card amount])).
  { unfold w', serve. simpl. rewrite H1. cbn [snd]. rewrite H2. cbn [snd].
    by rewrite H3. }
  split; [by rewrite H1|]. rewrite Hw'. cbn [db charged]. split; [done|].
  rewrite (get_order_settled _ _ _ _ card td Ho2 Hd2). f_equal.
  unfold d2, order_dict. simpl. by rewrite Hr2.
Qed.

(** A product added to the catalogue with a weight can be ordered and the
    order read: after [add_product] under a free key, [add_order] for that
    key and a quantity above 0 returns an order for which [get_order]
    returns that product id and quantity, with the float of the price
    given times the quantity as total price. *)
Theorem added_product_can_be_ordered
    (w : World) (name : string) (in_stock : bool) (description : option string)
    (price : Qc) (wgt : Z) (image : string) (k quantity : Z) :
  (0 < price)%Qc →
  wgt > 0 →
  tbl_product (db w) !! k = None →
  quantity > 0 →
  let added :=
    add_product name in_stock description price (Some wgt) image (Some k) w in
  added.1 = Ok tt ∧
  ∃ order_id w' v,
    add_order k quantity added.2 = (Ok order_id, w') ∧
    get_order order_id (db w') = Ok v ∧
    OrderDict.product v = ProductDict.mk k quantity ∧
    OrderDict.total_price v = py_float (price * Qc_of_Z quantity)%Qc.
Proof.
  intros Hprice Hwgt Hk Hq added.
  assert (Ha : added
               = (Ok tt,
                  mkWorld (with_product
                             <[k := Product.mk name in_stock description price
                                      (Some wgt) image]> (db w))
                          (charged w))).
  { unfold added, add_product, check_price, check_weight.
    rewrite !bool_decide_eq_true_2 by done. simpl. by rewrite Hk. }
  rewrite Ha. cbn [fst snd]. split; [done|].
  apply (add_order_then_get_order _ k quantity
           (Product.mk name in_stock description price (Some wgt) image) wgt);
    [|done|done].
  simpl. by rewrite lookup_insert_eq.
Qed.

End Workflow.

(** ** The theorems on the small shop *)

Lemma order_not_found_witness :
  get_order Sample.tax Sample.shipping 7 Sample.shipped = Raise OrderNotFound ∧
  put_order_shipping_information Sample.tax Sample.shipping 7
    "jane@example.com" "Canada" "12 rue Racine" "G7H 1R4" "Saguenay" "QC"
    (Sample.world Sample.shipped)
  = (Raise OrderNotFound, Sample.world Sample.shipped) ∧
  put_order_credit_card Sample.tax Sample.shipping Sample.accepts 7
    "John Doe" 4111111111111111 2027 123 9 (Sample.world Sample.shipped)
  = (Raise OrderNotFound, Sample.world Sample.shipped).
Proof.
  apply (order_not_found Sample.tax Sample.shipping Sample.accepts
           (Sample.world Sample.shipped) 7).
  vm_compute. reflexivity.
Defined.

Lemma linked_shipped :
  linked Sample.shipped Sample.shipped_order Sample.three_chairs Sample.chair.
Proof. split; vm_compute; eauto. Qed.

Lemma total_price_tax_of_order_witness :
  ∃ v, get_order Sample.tax Sample.shipping 1 Sample.shipped = Ok v ∧
       OrderDict.total_price v = py_float (Qc_of_Z 10 * Qc_of_Z 3)%Qc ∧
       OrderDict.total_price_tax v
       = Some (float_add
                 (float_mul (py_float (Q2Qc (15 # 100)))
                    (py_float (Qc_of_Z 10 * Qc_of_Z 3)%Qc))
                 (py_float (Qc_of_Z 10 * Qc_of_Z 3)%Qc)).
Proof.
  destruct (total_price_tax_of_order Sample.tax Sample.shipping
              Sample.shipped 1 Sample.shipped_order Sample.three_chairs
              Sample.chair 400 eq_refl linked_shipped eq_refl) as [H _].
  cbn [Order.shipping_information Sample.shipped_order] in H.
  destruct H as (si & Hsi & H).
  vm_compute in Hsi. injection Hsi as <-.
  exact H.
Defined.

(** C3, as stated, fails for three pens at 1.00 each shipped to a
    province with the rate 0.15: [get_order] reports 3.45, the float of
    [0.15 * 3.0 + 3.0], where [3.0 * (1 + 0.15)] is the float below it,
    and the exact product of 3.0 by one plus the rate is neither. *)
Lemma total_price_tax_is_not_the_product :
  ∃ v rate,
    get_order Sample.tax Sample.shipping 1 Sample.pens_shipped = Ok v ∧
    Sample.tax "QC" = Ok rate ∧
    OrderDict.total_price_tax v
    = Some (S754_finite false 7768709357214106 (-51)) ∧
    float_mul (OrderDict.total_price v) (float_add (py_float 1%Qc) rate)
    = S754_finite false 7768709357214105 (-51) ∧
    OrderDict.total_price_tax v
    ≠ Some (float_mul (OrderDict.total_price v)
              (float_add (py_float 1%Qc) rate)) ∧
    float_value <$> OrderDict.total_price_tax v
    ≠ Some (float_value (OrderDict.total_price v) * (1 + float_value rate))%Qc.
Proof.
  eexists _, _. split; [vm_compute; reflexivity|].
  split; [vm_compute; reflexivity|].
  split; [vm_compute; reflexivity|].
  split; [vm_compute; reflexivity|].
  split.
  - vm_compute. discriminate.
  - intros E. apply (f_equal (fmap this)) in E. vm_compute in E.
    discriminate E.
Qed.

Lemma credit_card_is_masked_witness :
  ∃ v d,
    get_order Sample.tax Sample.shipping 1 Sample.carded = Ok v ∧
    OrderDict.credit_card v = Some d ∧
    CardDict.first_digits d = "4111"%string ∧
    CardDict.last_digits d = "1111"%string ∧
    get_order Sample.tax Sample.shipping 1
      (with_credit_card_details
         <[1 := CreditCardDetails.mk "John Doe" 4111222233331111 2027 999 9]>
         Sample.carded) = Ok v.
Proof.
  destruct (get_order Sample.tax Sample.shipping 1 Sample.carded)
    as [v|e] eqn:Hv; [|vm_compute in Hv; discriminate Hv].
  destruct (credit_card_is_masked Sample.tax Sample.shipping Sample.carded 1
              Sample.carded_order 1 Sample.card
              (CreditCardDetails.mk "John Doe" 4111222233331111 2027 999 9)
              v eq_refl eq_refl eq_refl Hv)
    as (d & Hd & _ & _ & _ & _ & _ & _ & _ & _ & _ & Hsame).
  destruct (Hsame "4111" "11111111" "22223333" "1111")%string
    as (Hfirst & Hlast & Hv'); try reflexivity.
  exists v, d. split_and!; [reflexivity|exact Hd|exact Hfirst|exact Hlast|
                            exact Hv'].
Defined.

Lemma no_weight_no_dictionary_witness :
  get_order Sample.tax Sample.shipping 1 Sample.voucher_ordered
  = Raise TypeError ∧
  (put_order_shipping_information Sample.tax Sample.shipping 1
     "john@example.com" "Canada" "201 rue des rosiers" "G7X 3Y9" "Chicoutimi"
     "QC" (Sample.world Sample.voucher_ordered)).1 = Raise TypeError ∧
  (put_order_credit_card Sample.tax Sample.shipping Sample.accepts 1
     "John Doe" 4111111111111111 2027 123 9
     (Sample.world Sample.voucher_ordered)).1 = Raise TypeError ∧
  charged (put_order_credit_card Sample.tax Sample.shipping Sample.accepts 1
             "John Doe" 4111111111111111 2027 123 9
             (Sample.world Sample.voucher_ordered)).2 = [].
Proof.
  destruct (no_weight_no_dictionary Sample.tax Sample.shipping Sample.accepts
              (Sample.world Sample.voucher_ordered) 1 Sample.new_order
              Sample.one_voucher Sample.voucher
              "john@example.com" "Canada" "201 rue des rosiers" "G7X 3Y9"
              "Chicoutimi" "QC" "John Doe" 4111111111111111 2027 123 9
              eq_refl eq_refl eq_refl eq_refl)
    as (_ & _ & _ & H4 & H).
  destruct H as (H2 & H).
  { split; vm_compute; auto. }
  destruct H as (H1 & H3).
  { intros si Hsi. vm_compute in Hsi. discriminate Hsi. }
  split_and!; [exact H1| |exact (H3 eq_refl)|exact H4].
  apply H2. eexists. vm_compute. reflexivity.
Defined.

Lemma linked_ordered :
  linked Sample.ordered Sample.new_order Sample.three_chairs Sample.chair.
Proof. split; vm_compute; eauto. Qed.

Lemma card_without_shipping_witness :
  (put_order_credit_card Sample.tax Sample.shipping Sample.accepts 1
     "John Doe" 4111111111111111 2027 123 9
     (Sample.world Sample.ordered)).1 = Raise TypeError ∧
  tbl_order
    (db (put_order_credit_card Sample.tax Sample.shipping Sample.accepts 1
           "John Doe" 4111111111111111 2027 123 9
           (Sample.world Sample.ordered)).2) !! 1
  = Some (Order.mk 1 None (Some 1) None None false) ∧
  tbl_credit_card_details
    (db (put_order_credit_card Sample.tax Sample.shipping Sample.accepts 1
           "John Doe" 4111111111111111 2027 123 9
           (Sample.world Sample.ordered)).2) !! 1
  = Some Sample.card ∧
  tbl_transaction
    (db (put_order_credit_card Sample.tax Sample.shipping Sample.accepts 1
           "John Doe" 4111111111111111 2027 123 9
           (Sample.world Sample.ordered)).2) = ∅ ∧
  charged (put_order_credit_card Sample.tax Sample.shipping Sample.accepts 1
             "John Doe" 4111111111111111 2027 123 9
             (Sample.world Sample.ordered)).2 = [] ∧
  (put_order_credit_card Sample.tax Sample.shipping Sample.accepts 1
     "John Doe" 4111111111111111 2027 123 13
     (Sample.world Sample.ordered)).1 = Raise IntegrityError ∧
  tbl_credit_card_details
    (db (put_order_credit_card Sample.tax Sample.shipping Sample.accepts 1
           "John Doe" 4111111111111111 2027 123 13
           (Sample.world Sample.ordered)).2) = ∅.
Proof.
  destruct (card_without_shipping Sample.tax Sample.shipping Sample.accepts
              (Sample.world Sample.ordered) 1 Sample.new_order
              Sample.three_chairs Sample.chair
              "John Doe" 4111111111111111 2027 123 9
              eq_refl linked_ordered eq_refl eq_refl) as [H _].
  destruct H as (H1 & _ & H2 & H3 & H4 & H5 & _); [lia|].
  destruct (card_without_shipping Sample.tax Sample.shipping Sample.accepts
              (Sample.world Sample.ordered) 1 Sample.new_order
              Sample.three_chairs Sample.chair
              "John Doe" 4111111111111111 2027 123 13
              eq_refl linked_ordered eq_refl eq_refl) as [_ H].
  destruct H as (H6 & _ & H7 & _); [lia|].
  split_and!; [exact H1|exact H2|exact H3|exact H4|exact H5|exact H6|exact H7].
Defined.

(** C10, as stated, fails for a card whose expiration month is 13: the
    storage refuses it, the call raises [IntegrityError] and not the
    [TypeError] of the sum, and the order has no card on file. *)
Lemma refused_card_is_not_on_file :
  (put_order_credit_card Sample.tax Sample.shipping Sample.accepts 1
     "John Doe" 4111111111111111 2027 123 13
     (Sample.world Sample.ordered)).1 = Raise IntegrityError ∧
  Order.credit_card
    <$> tbl_order
          (db (put_order_credit_card Sample.tax Sample.shipping Sample.accepts
                 1 "John Doe" 4111111111111111 2027 123 13
                 (Sample.world Sample.ordered)).2) !! 1
  = Some None ∧
  tbl_credit_card_details
    (db (put_order_credit_card Sample.tax Sample.shipping Sample.accepts 1
           "John Doe" 4111111111111111 2027 123 13
           (Sample.world Sample.ordered)).2) = ∅.
Proof. vm_compute. auto. Qed.

Lemma settlement_charges_amount_due_witness :
  ∃ v w' d t,
    put_order_credit_card Sample.tax Sample.shipping Sample.accepts 1
      "John Doe" 4111111111111111 2027 123 9 (Sample.world Sample.shipped)
    = (Ok v, w') ∧
    get_order Sample.tax Sample.shipping 1 Sample.carded = Ok d ∧
    OrderDict.total_price_tax d = Some t ∧
    charged w'
    = [charge_request Sample.card (float_add t (OrderDict.shipping_price d))] ∧
    OrderDict.transaction v
    = Some (TransactionDict.mk "tx-1" true
              (float_value (float_add t (OrderDict.shipping_price d)))).
Proof.
  destruct (put_order_credit_card Sample.tax Sample.shipping Sample.accepts 1
              "John Doe" 4111111111111111 2027 123 9
              (Sample.world Sample.shipped)) as [[v|e] w'] eqn:Hr.
  - destruct (settlement_charges_amount_due Sample.tax Sample.shipping
                Sample.accepts (Sample.world Sample.shipped) w' 1
                Sample.shipped_order "John Doe" 4111111111111111 2027 123 9 v
                eq_refl Hr)
      as (s1 & d & t & td & Hs1 & Hd & Ht & Hcalls & Htd & _ & Hv & _).
    assert (s1 = Sample.carded) as ->.
    { vm_compute in Hs1. by injection Hs1 as <-. }
    exists v, w', d, t. split_and!; try done.
    rewrite Hv. f_equal. unfold Sample.accepts in Htd. by injection Htd as <-.
  - vm_compute in Hr. discriminate Hr.
Defined.

(** C1, as stated, fails when the gateway answers with an unsuccessful
    transaction: the call returns, and the dictionary shows that
    transaction, with [success = false]. *)
Lemma declined_charge_is_returned :
  (λ v, TransactionDict.success <$> OrderDict.transaction v)
    <$> returned
          (put_order_credit_card Sample.tax Sample.shipping Sample.declines 1
             "John Doe" 4111111111111111 2027 123 9
             (Sample.world Sample.shipped)).1
  = Some (Some false).
Proof. vm_compute. reflexivity. Qed.

Lemma gateway_raises_then_second_attempt_witness :
  (put_order_credit_card Sample.tax Sample.shipping Sample.down_once 1
     "John Doe" 4111111111111112 2027 123 9
     (Sample.world Sample.shipped)).1 = Raise (GatewayError "timeout") ∧
  tbl_transaction
    (db (put_order_credit_card Sample.tax Sample.shipping Sample.down_once 1
           "John Doe" 4111111111111112 2027 123 9
           (Sample.world Sample.shipped)).2) = ∅ ∧
  tbl_order
    (db (put_order_credit_card Sample.tax Sample.shipping Sample.down_once 1
           "John Doe" 4111111111111112 2027 123 9
           (Sample.world Sample.shipped)).2) !! 1 = Some Sample.carded_order ∧
  size (tbl_transaction
          (db (put_order_credit_card Sample.tax Sample.shipping
                 Sample.down_once 1 "John Doe" 4111111111111111 2027 123 9
                 (put_order_credit_card Sample.tax Sample.shipping
                    Sample.down_once 1 "John Doe" 4111111111111112 2027 123 9
                    (Sample.world Sample.shipped)).2).2)) = 1%nat ∧
  tbl_order
    (db (put_order_credit_card Sample.tax Sample.shipping
           Sample.down_once 1 "John Doe" 4111111111111111 2027 123 9
           (put_order_credit_card Sample.tax Sample.shipping
              Sample.down_once 1 "John Doe" 4111111111111112 2027 123 9
              (Sample.world Sample.shipped)).2).2) !! 1
  = Some (Order.set_transaction "tx-1" Sample.carded_order).
Proof.
  destruct (get_order Sample.tax Sample.shipping 1 Sample.shipped)
    as [d|e] eqn:Hd; [|vm_compute in Hd; discriminate Hd].
  destruct (OrderDict.total_price_tax d) as [t|] eqn:Ht.
  2:{ vm_compute in Hd. injection Hd as <-. discriminate Ht. }
  destruct (gateway_raises_then_second_attempt Sample.tax Sample.shipping
              Sample.down_once (Sample.world Sample.shipped) 1
              Sample.shipped_order d t (GatewayError "timeout")
              (TransactionDict.mk "tx-1" true
                 (float_value (float_add t (OrderDict.shipping_price d))))
              "John Doe" 4111111111111112 2027 123 9
              "John Doe" 4111111111111111 2027 123 9)
    as (H1 & H2 & _ & H3 & _ & _ & H4 & H5 & _).
  - reflexivity.
  - exact Hd.
  - exact Ht.
  - reflexivity.
  - lia.
  - lia.
  - reflexivity.
  - reflexivity.
  - reflexivity.
  - split_and!.
    + exact H1.
    + rewrite H3. reflexivity.
    + rewrite H2. vm_compute. reflexivity.
    + rewrite H4. reflexivity.
    + rewrite H5. vm_compute. reflexivity.
Defined.

(** C2, as stated, fails when the gateway reports an unsuccessful charge
    by answering with [success = false]: the order is then linked to a
    stored Transaction, and a second attempt that succeeds stores a second
    one. *)
Lemma declined_charge_is_linked :
  Order.transaction
    <$> tbl_order
          (db (put_order_credit_card Sample.tax Sample.shipping
                 Sample.declines_once 1 "John Doe" 4111111111111112 2027 123 9
                 (Sample.world Sample.shipped)).2) !! 1
  = Some (Some "tx-declined"%string) ∧
  Transaction.success
    <$> tbl_transaction
          (db (put_order_credit_card Sample.tax Sample.shipping
                 Sample.declines_once 1 "John Doe" 4111111111111112 2027 123 9
                 (Sample.world Sample.shipped)).2) !! "tx-declined"%string
  = Some false ∧
  size (tbl_transaction
          (db (put_order_credit_card Sample.tax Sample.shipping
                 Sample.declines_once 1 "John Doe" 4111111111111111 2027 123 9
                 (put_order_credit_card Sample.tax Sample.shipping
                    Sample.declines_once 1 "John Doe" 4111111111111112 2027
                    123 9 (Sample.world Sample.shipped)).2).2)) = 2%nat.
Proof. vm_compute. auto. Qed.


Lemma paid_is_never_set_witness :
  ∃ v, get_order Sample.tax Sample.shipping 1
         (db (serve Sample.tax Sample.shipping Sample.accepts Sample.purchase
                (Sample.world Sample.catalogue))) = Ok v ∧
       OrderDict.paid v = false ∧
       TransactionDict.success <$> OrderDict.transaction v = Some true.
Proof.
  destruct (paid_is_never_set Sample.tax Sample.shipping Sample.accepts
              Sample.purchase (Sample.world Sample.catalogue))
    as (_ & _ & H).
  destruct H as [_ Hv].
  { intros k o Ho. simpl in Ho. by rewrite lookup_empty in Ho. }
  destruct (get_order Sample.tax Sample.shipping 1 _) as [v|e] eqn:E.
  - exists v. split; [reflexivity|]. split; [exact (Hv 1 v E)|].
    vm_compute in E. injection E as <-. reflexivity.
  - vm_compute in E. discriminate E.
Defined.

(** C5 at a product without a weight: [add_order] returns the key of the
    new order, and [get_order] raises [TypeError] for that key instead of
    returning the product id and the quantity. *)
Theorem add_order_of_weightless_product :
  (add_order 2 1 (Sample.world Sample.catalogue)).1 = Ok 1 ∧
  get_order Sample.tax Sample.shipping 1
    (db (add_order 2 1 (Sample.world Sample.catalogue)).2) = Raise TypeError.
Proof. vm_compute. auto. Qed.

(** ** The further theorems on the small shop *)

Lemma add_product_is_listed_witness :
  (add_product "table" true None (Qc_of_Z 99) (Some 12000) "table.png"
     (Some 7) (Sample.world Sample.catalogue)).1 = Ok tt ∧
  get_products
    (db (add_product "table" true None (Qc_of_Z 99) (Some 12000) "table.png"
           (Some 7) (Sample.world Sample.catalogue)).2)
  ≡ₚ serialize_product 7
       (Product.mk "table" true None (Qc_of_Z 99) (Some 12000) "table.png")
     :: get_products Sample.catalogue.
Proof.
  destruct (add_product_is_listed (Sample.world Sample.catalogue)
              "table" true None (Qc_of_Z 99) (Some 12000) "table.png" (Some 7))
    as (H1 & _ & _ & H2).
  - reflexivity.
  - intros wv [= <-]. lia.
  - intros k [= <-]. reflexivity.
  - split; [exact H1|exact H2].
Defined.

Lemma add_product_refused_witness :
  add_product "table" true None (Qc_of_Z 99) (Some 12000) "table.png"
    (Some 1) (Sample.world Sample.catalogue)
  = (Raise IntegrityError, Sample.world Sample.catalogue).
Proof.
  apply (add_product_refused (Sample.world Sample.catalogue)).
  right. right. exists 1. split; [reflexivity|]. exists Sample.chair.
  reflexivity.
Defined.

Lemma drop_products_empties_catalogue_witness :
  (drop_products false (Sample.world Sample.ordered)).1 = Ok tt ∧
  get_products (db (drop_products false (Sample.world Sample.ordered)).2) = [] ∧
  add_order 1 3 (drop_products false (Sample.world Sample.ordered)).2
  = (Raise DoesNotExist, (drop_products false (Sample.world Sample.ordered)).2).
Proof.
  destruct (drop_products_empties_catalogue (Sample.world Sample.ordered)
              false 1 3) as (H1 & _ & H2 & H3).
  - left. reflexivity.
  - split_and!; [exact H1|exact H2|exact H3].
Defined.

Lemma drop_products_refused_witness :
  drop_products true (Sample.world Sample.ordered)
  = (Raise IntegrityError, Sample.world Sample.ordered).
Proof.
  apply (drop_products_refused (Sample.world Sample.ordered) 1
           Sample.three_chairs).
  - reflexivity.
  - exists Sample.chair. reflexivity.
Defined.

Lemma drop_products_breaks_orders_witness :
  tbl_order (db (drop_products false (Sample.world Sample.shipped)).2) !! 1
  = Some Sample.shipped_order ∧
  get_order Sample.tax Sample.shipping 1
    (db (drop_products false (Sample.world Sample.shipped)).2)
  = Raise DoesNotExist.
Proof.
  destruct (drop_products_breaks_orders Sample.tax Sample.shipping
              (Sample.world Sample.shipped) 1 Sample.shipped_order
              Sample.three_chairs eq_refl eq_refl) as (_ & H1 & H2).
  split; [exact H1|exact H2].
Defined.

Lemma add_order_keeps_dictionaries_witness :
  get_order Sample.tax Sample.shipping 1
    (db (add_order 2 1 (Sample.world Sample.shipped)).2)
  = get_order Sample.tax Sample.shipping 1 Sample.shipped.
Proof.
  apply (add_order_keeps_dictionaries Sample.tax Sample.shipping
           (Sample.world Sample.shipped) 2 1 1 Sample.shipped_order).
  - reflexivity.
  - exists Sample.three_chairs. reflexivity.
Defined.

Lemma add_order_twice_witness :
  ∃ k1 k2,
    (add_order 1 3 (Sample.world Sample.catalogue)).1 = Ok k1 ∧
    (add_order 2 1 (add_order 1 3 (Sample.world Sample.catalogue)).2).1
    = Ok k2 ∧
    k1 ≠ k2 ∧
    get_order Sample.tax Sample.shipping k1
      (db (add_order 2 1 (add_order 1 3 (Sample.world Sample.catalogue)).2).2)
    = get_order Sample.tax Sample.shipping k1
        (db (add_order 1 3 (Sample.world Sample.catalogue)).2).
Proof.
  apply (add_order_twice Sample.tax Sample.shipping
           (Sample.world Sample.catalogue) 1 3 2 1).
  - exists Sample.chair. reflexivity.
  - exists Sample.voucher. reflexivity.
  - lia.
  - lia.
Defined.

Lemma shipping_information_is_shown_witness :
  (λ v, (OrderDict.email v, OrderDict.shipping_information v,
         OrderDict.total_price_tax v))
    <$> returned
          (put_order_shipping_information Sample.tax Sample.shipping 1
             "john@example.com" "Canada" "201 rue des rosiers" "G7X 3Y9"
             "Chicoutimi" "QC" (Sample.world Sample.ordered)).1
  = Some (Some "john@example.com"%string, Some Sample.home,
          Some (float_add
                  (float_mul (py_float (Q2Qc (15 # 100)))
                     (py_float (Qc_of_Z 10 * Qc_of_Z 3)%Qc))
                  (py_float (Qc_of_Z 10 * Qc_of_Z 3)%Qc))) ∧
  (put_order_shipping_information Sample.tax Sample.shipping 1
     "john@example.com" "Canada" "201 rue des rosiers" "G7X 3Y9"
     "Chicoutimi" "ZZ" (Sample.world Sample.ordered)).1
  = Raise (PricingError "ZZ") ∧
  ∃ order k,
    tbl_order
      (db (put_order_shipping_information Sample.tax Sample.shipping 1
             "john@example.com" "Canada" "201 rue des rosiers" "G7X 3Y9"
             "Chicoutimi" "ZZ" (Sample.world Sample.ordered)).2) !! 1
    = Some order ∧
    Order.shipping_information order = Some k.
Proof.
  destruct (get_order Sample.tax Sample.shipping 1 Sample.ordered)
    as [v0|e] eqn:Hv0; [|vm_compute in Hv0; discriminate Hv0].
  destruct (shipping_information_is_shown Sample.tax Sample.shipping
              (Sample.world Sample.ordered) 1 v0 "john@example.com" "Canada"
              "201 rue des rosiers" "G7X 3Y9" "Chicoutimi" "QC" Hv0)
    as [H1 _].
  destruct (shipping_information_is_shown Sample.tax Sample.shipping
              (Sample.world Sample.ordered) 1 v0 "john@example.com" "Canada"
              "201 rue des rosiers" "G7X 3Y9" "Chicoutimi" "ZZ" Hv0)
    as [H2 (order & k & Ho & _ & Hk & _)].
  change (Sample.tax "QC") with (Ok (py_float (Q2Qc (15 # 100)))) in H1.
  change (Sample.tax "ZZ") with (@Raise float (PricingError "ZZ")) in H2.
  split_and!.
  - rewrite H1. vm_compute in Hv0. injection Hv0 as <-. reflexivity.
  - exact H2.
  - exists order, k. split; [exact Ho|exact Hk].
Defined.

Lemma card_refused_by_storage_witness :
  (put_order_credit_card Sample.tax Sample.shipping Sample.accepts 1
     "John Doe" 4111111111111111 2027 123 13 (Sample.world Sample.shipped)).1
  = Raise IntegrityError ∧
  db (put_order_credit_card Sample.tax Sample.shipping Sample.accepts 1
        "John Doe" 4111111111111111 2027 123 13
        (Sample.world Sample.shipped)).2
  = set_in_transaction true Sample.shipped ∧
  charged (put_order_credit_card Sample.tax Sample.shipping Sample.accepts 1
             "John Doe" 4111111111111111 2027 123 13
             (Sample.world Sample.shipped)).2 = [].
Proof.
  apply (card_refused_by_storage Sample.tax Sample.shipping Sample.accepts
           (Sample.world Sample.shipped) 1 Sample.shipped_order).
  - reflexivity.
  - exact I.
  - lia.
Defined.

Lemma put_order_credit_card_settles_witness :
  (λ v, TransactionDict.id <$> OrderDict.transaction v)
    <$> returned
          (put_order_credit_card Sample.tax Sample.shipping Sample.numbers 1
             "John Doe" 4111111111111111 2027 123 9
             (Sample.world Sample.settled)).1
  = Some (Some "tx-0"%string) ∧
  length (charged
            (put_order_credit_card Sample.tax Sample.shipping Sample.numbers
               1 "John Doe" 4111111111111111 2027 123 9
               (Sample.world Sample.settled)).2) = 1%nat ∧
  Order.transaction
    <$> tbl_order
          (db (put_order_credit_card Sample.tax Sample.shipping
                 Sample.numbers 1 "John Doe" 4111111111111111 2027 123 9
                 (Sample.world Sample.settled)).2) !! 1
  = Some (Some "tx-0"%string).
Proof.
  destruct (get_order Sample.tax Sample.shipping 1 Sample.settled)
    as [d|e] eqn:Hd; [|vm_compute in Hd; discriminate Hd].
  destruct (OrderDict.total_price_tax d) as [t|] eqn:Ht.
  2:{ vm_compute in Hd. injection Hd as <-. discriminate Ht. }
  destruct (put_order_credit_card_settles Sample.tax Sample.shipping
              Sample.numbers (Sample.world Sample.settled) 1
              Sample.settled_order d t
              (TransactionDict.mk "tx-0" true
                 (float_value (float_add t (OrderDict.shipping_price d))))
              "John Doe" 4111111111111111 2027 123 9)
    as (H1 & H2 & _ & H3 & _).
  - reflexivity.
  - exact Hd.
  - exact Ht.
  - reflexivity.
  - lia.
  - reflexivity.
  - reflexivity.
  - split_and!.
    + rewrite H1. reflexivity.
    + rewrite H2. reflexivity.
    + rewrite H3. reflexivity.
Defined.

Lemma duplicate_transaction_id_witness :
  (put_order_credit_card Sample.tax Sample.shipping Sample.accepts 1
     "John Doe" 4111111111111111 2027 123 9
     (Sample.world Sample.shipped_beside_transaction)).1
  = Raise IntegrityError ∧
  length (charged
            (put_order_credit_card Sample.tax Sample.shipping Sample.accepts 1
               "John Doe" 4111111111111111 2027 123 9
               (Sample.world Sample.shipped_beside_transaction)).2) = 1%nat ∧
  tbl_transaction
    (db (put_order_credit_card Sample.tax Sample.shipping Sample.accepts 1
           "John Doe" 4111111111111111 2027 123 9
           (Sample.world Sample.shipped_beside_transaction)).2)
  = tbl_transaction Sample.shipped_beside_transaction ∧
  Order.transaction
    <$> tbl_order
          (db (put_order_credit_card Sample.tax Sample.shipping
                 Sample.accepts 1 "John Doe" 4111111111111111 2027 123 9
                 (Sample.world Sample.shipped_beside_transaction)).2) !! 1
  = Some None ∧
  in_transaction
    (db (put_order_credit_card Sample.tax Sample.shipping Sample.accepts 1
           "John Doe" 4111111111111111 2027 123 9
           (Sample.world Sample.shipped_beside_transaction)).2) = true.
Proof.
  destruct (get_order Sample.tax Sample.shipping 1
              Sample.shipped_beside_transaction)
    as [d|e] eqn:Hd; [|vm_compute in Hd; discriminate Hd].
  destruct (OrderDict.total_price_tax d) as [t|] eqn:Ht.
  2:{ vm_compute in Hd. injection Hd as <-. discriminate Ht. }
  destruct (duplicate_transaction_id Sample.tax Sample.shipping
              Sample.accepts (Sample.world Sample.shipped_beside_transaction)
              1 Sample.shipped_order d t
              (TransactionDict.mk "tx-1" true
                 (float_value (float_add t (OrderDict.shipping_price d))))
              "John Doe" 4111111111111111 2027 123 9)
    as (H1 & H2 & H3 & H4 & _ & H5).
  - reflexivity.
  - exact Hd.
  - exact Ht.
  - reflexivity.
  - lia.
  - reflexivity.
  - eexists. reflexivity.
  - split_and!.
    + exact H1.
    + rewrite H2. reflexivity.
    + exact H3.
    + rewrite H4. reflexivity.
    + exact H5.
Defined.

Lemma settled_twice_witness :
  size (tbl_transaction
          (db (put_order_credit_card Sample.tax Sample.shipping Sample.numbers
                 1 "Jane Doe" 4222222222222222 2028 321 10
                 (put_order_credit_card Sample.tax Sample.shipping
                    Sample.numbers 1 "John Doe" 4111111111111111 2027 123 9
                    (Sample.world Sample.shipped)).2).2)) = 2%nat ∧
  length (charged
            (put_order_credit_card Sample.tax Sample.shipping Sample.numbers
               1 "Jane Doe" 4222222222222222 2028 321 10
               (put_order_credit_card Sample.tax Sample.shipping
                  Sample.numbers 1 "John Doe" 4111111111111111 2027 123 9
                  (Sample.world Sample.shipped)).2).2) = 2%nat ∧
  Order.transaction
    <$> tbl_order
          (db (put_order_credit_card Sample.tax Sample.shipping Sample.numbers
                 1 "Jane Doe" 4222222222222222 2028 321 10
                 (put_order_credit_card Sample.tax Sample.shipping
                    Sample.numbers 1 "John Doe" 4111111111111111 2027 123 9
                    (Sample.world Sample.shipped)).2).2) !! 1
  = Some (Some "tx-1"%string).
Proof.
  destruct (get_order Sample.tax Sample.shipping 1 Sample.shipped)
    as [d|e] eqn:Hd; [|vm_compute in Hd; discriminate Hd].
  destruct (OrderDict.total_price_tax d) as [t|] eqn:Ht.
  2:{ vm_compute in Hd. injection Hd as <-. discriminate Ht. }
  destruct (settled_twice Sample.tax Sample.shipping Sample.numbers
              (Sample.world Sample.shipped) 1 Sample.shipped_order d t
              (TransactionDict.mk "tx-0" true
                 (float_value (float_add t (OrderDict.shipping_price d))))
              (TransactionDict.mk "tx-1" true
                 (float_value (float_add t (OrderDict.shipping_price d))))
              "John Doe" 4111111111111111 2027 123 9
              "Jane Doe" 4222222222222222 2028 321 10)
    as (_ & _ & H1 & _ & _ & H2 & H3).
  - reflexivity.
  - exact Hd.
  - exact Ht.
  - reflexivity.
  - lia.
  - lia.
  - reflexivity.
  - reflexivity.
  - reflexivity.
  - reflexivity.
  - discriminate.
  - split_and!.
    + rewrite H2. reflexivity.
    + rewrite H1. reflexivity.
    + exact H3.
Defined.

Lemma credit_card_resubmitted_witness :
  tbl_credit_card_details
    (db (put_order_credit_card Sample.tax Sample.shipping Sample.accepts 1
           "John Doe" 4111111111111111 2027 123 9
           (put_order_credit_card Sample.tax Sample.shipping Sample.accepts 1
              "John Doe" 4111111111111112 2026 321 8
              (Sample.world Sample.ordered)).2).2) !! 1
  = Some Sample.card ∧
  size (tbl_credit_card_details
          (db (put_order_credit_card Sample.tax Sample.shipping Sample.accepts
                 1 "John Doe" 4111111111111111 2027 123 9
                 (put_order_credit_card Sample.tax Sample.shipping
                    Sample.accepts 1 "John Doe" 4111111111111112 2026 321 8
                    (Sample.world Sample.ordered)).2).2))
  = size (tbl_credit_card_details
            (db (put_order_credit_card Sample.tax Sample.shipping
                   Sample.accepts 1 "John Doe" 4111111111111112 2026 321 8
                   (Sample.world Sample.ordered)).2)) ∧
  put_order_credit_card Sample.tax Sample.shipping Sample.accepts 1
    "John Doe" 4111111111111112 2026 321 8
    (put_order_credit_card Sample.tax Sample.shipping Sample.accepts 1
       "John Doe" 4111111111111111 2027 123 9
       (Sample.world Sample.shipped_beside_transaction)).2
  = (Raise OperationalError,
     (put_order_credit_card Sample.tax Sample.shipping Sample.accepts 1
        "John Doe" 4111111111111111 2027 123 9
        (Sample.world Sample.shipped_beside_transaction)).2).
Proof.
  destruct (credit_card_resubmitted Sample.tax Sample.shipping Sample.accepts
              (Sample.world Sample.ordered) 1 Sample.new_order
              "John Doe" 4111111111111112 2026 321 8
              "John Doe" 4111111111111111 2027 123 9)
    as (_ & _ & H & _).
  - reflexivity.
  - exact I.
  - reflexivity.
  - lia.
  - lia.
  - destruct H as (_ & H1 & _ & H2); [vm_compute; reflexivity|].
    destruct (credit_card_resubmitted Sample.tax Sample.shipping
                Sample.accepts (Sample.world Sample.shipped_beside_transaction)
                1 Sample.shipped_order
                "John Doe" 4111111111111111 2027 123 9
                "John Doe" 4111111111111112 2026 321 8)
      as (_ & _ & _ & H').
    + reflexivity.
    + exact I.
    + reflexivity.
    + lia.
    + lia.
    + destruct H' as [_ H3]; [vm_compute; reflexivity|].
      split_and!; [exact H1|exact H2|exact H3].
Defined.

Lemma all_linked_ordered : all_linked (Sample.ordered).
Proof.
  intros k o Hk. unfold Sample.ordered in Hk. cbn [tbl_order] in Hk.
  apply lookup_singleton_Some in Hk as [<- <-].
  exists Sample.three_chairs, Sample.chair. split; vm_compute; auto.
Qed.

Lemma readable_orders_stay_readable_witness :
  ∃ v', get_order Sample.tax Sample.shipping 1
          (db (serve Sample.tax Sample.shipping Sample.accepts
                 Sample.shipping_then_order (Sample.world Sample.ordered)))
        = Ok v' ∧
        OrderDict.product v' = ProductDict.mk 1 3 ∧
        OrderDict.paid v' = false.
Proof.
  destruct (get_order Sample.tax Sample.shipping 1 Sample.ordered)
    as [v|e] eqn:Hv; [|vm_compute in Hv; discriminate Hv].
  destruct (readable_orders_stay_readable Sample.tax Sample.shipping
              Sample.accepts Sample.shipping_then_order
              (Sample.world Sample.ordered) 1 v all_linked_ordered)
    as (v' & Hv' & _ & Hp & _ & _ & Hd).
  { repeat constructor. eexists. vm_compute. reflexivity. }
  { exact Hv. }
  exists v'. split; [exact Hv'|].
  vm_compute in Hv. injection Hv as <-. split; [exact Hp|exact Hd].
Defined.

Lemma referential_integrity_is_kept_witness :
  all_linked Sample.ordered ∧
  all_linked (db (serve Sample.tax Sample.shipping Sample.accepts
                    Sample.shipping_then_order (Sample.world Sample.ordered))).
Proof.
  split; [exact all_linked_ordered|].
  apply (referential_integrity_is_kept Sample.tax Sample.shipping
           Sample.accepts Sample.shipping_then_order
           (Sample.world Sample.ordered)).
  exact all_linked_ordered.
Defined.

Lemma settled_with_shipping_catalogue : settled_with_shipping Sample.catalogue.
Proof. intros k o Hk. simpl in Hk. by rewrite lookup_empty in Hk. Qed.

Lemma only_shipped_orders_are_settled_witness :
  settled_with_shipping Sample.catalogue ∧
  settled_with_shipping
    (db (serve Sample.tax Sample.shipping Sample.accepts Sample.purchase
           (Sample.world Sample.catalogue))).
Proof.
  split; [exact settled_with_shipping_catalogue|].
  apply (only_shipped_orders_are_settled Sample.tax Sample.shipping
           Sample.accepts Sample.purchase (Sample.world Sample.catalogue)).
  exact settled_with_shipping_catalogue.
Defined.

Lemma get_order_sections_witness :
  ∃ v, get_order Sample.tax Sample.shipping 1 Sample.settled = Ok v ∧
       OrderDict.id v = 1 ∧
       OrderDict.shipping_information v = Some Sample.home ∧
       OrderDict.transaction v
       = Some (TransactionDict.mk "tx-1" true (Qc_of_Z 40)).
Proof.
  destruct (get_order Sample.tax Sample.shipping 1 Sample.settled)
    as [v|e] eqn:Hv; [|vm_compute in Hv; discriminate Hv].
  destruct (get_order_sections Sample.tax Sample.shipping Sample.settled 1
              Sample.settled_order v eq_refl Hv)
    as (Hid & _ & _ & _ & _ & Hs & Ht).
  exists v. split; [reflexivity|]. split; [exact Hid|].
  simpl in Hs, Ht.
  destruct Hs as (si & Hsi & Hs). destruct Ht as (t & Ht' & Ht).
  vm_compute in Hsi. injection Hsi as <-.
  vm_compute in Ht'. injection Ht' as <-.
  split; [exact Hs|exact Ht].
Defined.

Lemma new_order_dictionary_witness :
  ∃ order_id,
    (add_order 1 3 (Sample.world Sample.catalogue)).1 = Ok order_id ∧
    get_order Sample.tax Sample.shipping order_id
      (db (add_order 1 3 (Sample.world Sample.catalogue)).2)
    = Ok {| OrderDict.id := order_id;
            OrderDict.total_price := py_float (Qc_of_Z 10 * Qc_of_Z 3)%Qc;
            OrderDict.total_price_tax := None;
            OrderDict.email := None;
            OrderDict.credit_card := None;
            OrderDict.shipping_information := None;
            OrderDict.transaction := None;
            OrderDict.paid := false;
            OrderDict.product := ProductDict.mk 1 3;
            OrderDict.shipping_price := Sample.shipping (400 * 3) |}.
Proof.
  apply (new_order_dictionary Sample.tax Sample.shipping
           (Sample.world Sample.catalogue) 1 3 Sample.chair 400).
  - reflexivity.
  - reflexivity.
  - lia.
Defined.

Lemma purchase_settles_witness :
  charged (serve Sample.tax Sample.shipping Sample.accepts Sample.purchase
             (Sample.world Sample.catalogue))
  = [charge_request Sample.card
       (float_add
          (float_add
             (float_mul (py_float (Q2Qc (15 # 100)))
                (py_float (Qc_of_Z 10 * Qc_of_Z 3)%Qc))
             (py_float (Qc_of_Z 10 * Qc_of_Z 3)%Qc))
          (Sample.shipping (400 * 3)))] ∧
  OrderDict.transaction
    <$> returned
          (get_order Sample.tax Sample.shipping 1
             (db (serve Sample.tax Sample.shipping Sample.accepts
                    Sample.purchase (Sample.world Sample.catalogue))))
  = Some (Some (TransactionDict.mk "tx-1" true
                  (float_value
                     (float_add
                        (float_add
                           (float_mul (py_float (Q2Qc (15 # 100)))
                              (py_float (Qc_of_Z 10 * Qc_of_Z 3)%Qc))
                           (py_float (Qc_of_Z 10 * Qc_of_Z 3)%Qc))
                        (Sample.shipping (400 * 3)))))).
Proof.
  destruct (purchase_settles Sample.tax Sample.shipping Sample.accepts
              (Sample.world Sample.catalogue) 1 3 Sample.chair 400
              "john@example.com" "Canada" "201 rue des rosiers" "G7X 3Y9"
              "Chicoutimi" "QC" "John Doe" 4111111111111111 2027 123 9
              (py_float (Q2Qc (15 # 100)))
              (TransactionDict.mk "tx-1" true
                 (float_value
                    (float_add
                       (float_add
                          (float_mul (py_float (Q2Qc (15 # 100)))
                             (py_float (Qc_of_Z 10 * Qc_of_Z 3)%Qc))
                          (py_float (Qc_of_Z 10 * Qc_of_Z 3)%Qc))
                       (Sample.shipping (400 * 3))))))
    as (_ & H1 & H2).
  - reflexivity.
  - reflexivity.
  - lia.
  - reflexivity.
  - reflexivity.
  - lia.
  - reflexivity.
  - reflexivity.
  - split.
    + exact H1.
    + change (next_id (tbl_order (db (Sample.world Sample.catalogue))))
        with 1 in H2.
      unfold Sample.purchase.
      rewrite H2. reflexivity.
Defined.

Lemma added_product_can_be_ordered_witness :
  (add_product "table" true None (Qc_of_Z 99) (Some 12000) "table.png"
     (Some 7) (Sample.world Sample.catalogue)).1 = Ok tt ∧
  ∃ order_id w' v,
    add_order 7 2
      (add_product "table" true None (Qc_of_Z 99) (Some 12000) "table.png"
         (Some 7) (Sample.world Sample.catalogue)).2 = (Ok order_id, w') ∧
    get_order Sample.tax Sample.shipping order_id (db w') = Ok v ∧
    OrderDict.product v = ProductDict.mk 7 2 ∧
    OrderDict.total_price v = py_float (Qc_of_Z 99 * Qc_of_Z 2)%Qc.
Proof.
  apply (added_product_can_be_ordered Sample.tax Sample.shipping
           (Sample.world Sample.catalogue) "table" true None (Qc_of_Z 99)
           12000 "table.png" 7 2).
  - reflexivity.
  - lia.
  - reflexivity.
  - lia.
Defined.
